(** * autonity-cax: the Cax exchange client (src/index.js)

    A shallow embedding of the [Cax] class and of the JavaScript built-ins its
    methods call, followed by theorems about the date helper, the lazy
    key-provisioning policy, the credential invariant and the URL mapping.

    Layout:
    - [JS]      values, truthiness, ToString, property access, JSON.stringify;
    - [ESDate]  the ECMAScript time arithmetic, the Date Time String Format
                parser and Date.prototype.toISOString;
    - the host environment (clock, wallet, HTTP transport, time zone);
    - the class, method by method, in a state-and-exception monad;
    - the theorems. *)

From Stdlib Require Import ZArith String Ascii List Bool Lia DecimalString.
From Stdlib Require DecimalPos DecimalZ.
Import ListNotations.

Open Scope string_scope.
Open Scope Z_scope.

Set Warnings "-register-all".

(** Linear arithmetic with floor division by constants. *)
Ltac zdiv := Z.div_mod_to_equations; lia.

(* ================================================================== *)
(** ** JavaScript values and the built-ins used by the client *)
(* ================================================================== *)

Module JS.

(** Values as they reach the client: arguments of the public methods and
    decoded JSON payloads.  Numbers are the integer-valued ones that print in
    plain decimal (clock readings, JSON integers); a string is its UTF-8 bytes,
    which is all the same to code that looks for ASCII characters only; an
    object is its own enumerable properties in enumeration order. *)
Inductive jsval : Type :=
| JUndefined
| JNull
| JBool (b : bool)
| JNum (n : Z)
| JStr (s : string)
| JArr (items : list jsval)
| JObj (props : list (string * jsval)).

(** ToBoolean: what [!x] and [x ? a : b] test. *)
Definition truthy (v : jsval) : bool :=
  match v with
  | JUndefined | JNull => false
  | JBool b => b
  | JNum n => negb (n =? 0)
  | JStr s => negb (String.eqb s "")
  | JArr _ | JObj _ => true
  end.

Definition Z_to_string (n : Z) : string := NilZero.string_of_int (Z.to_int n).

Fixpoint join (sep : string) (l : list string) : string :=
  match l with
  | [] => ""
  | [x] => x
  | x :: r => x ++ sep ++ join sep r
  end.

(** ToString, as a template literal applies it to a substitution. *)
Fixpoint ToString (v : jsval) : string :=
  match v with
  | JUndefined => "undefined"
  | JNull => "null"
  | JBool true => "true"
  | JBool false => "false"
  | JNum n => Z_to_string n
  | JStr s => s
  | JArr items =>
      join "," (map (fun x => match x with
                              | JUndefined | JNull => ""
                              | _ => ToString x
                              end) items)
  | JObj _ => "[object Object]"
  end.

Fixpoint assoc (k : string) (l : list (string * jsval)) : option jsval :=
  match l with
  | [] => None
  | (k', v) :: r => if String.eqb k k' then Some v else assoc k r
  end.

(** [o[k] = v] on a plain object: overwrite in place or append. *)
Fixpoint set_assoc (k : string) (v : jsval) (l : list (string * jsval))
  : list (string * jsval) :=
  match l with
  | [] => [(k, v)]
  | (k', v') :: r =>
      if String.eqb k k' then (k, v) :: r else (k', v') :: set_assoc k v r
  end.

(** [v.k] for a name [k] that no prototype defines ([apikey]): [None] is the
    TypeError of reading a property of undefined or null. *)
Definition get_prop (v : jsval) (k : string) : option jsval :=
  match v with
  | JUndefined | JNull => None
  | JObj props => Some (match assoc k props with Some x => x | None => JUndefined end)
  | _ => Some JUndefined
  end.

(** *** JSON.stringify *)

Definition dquote : ascii := "034"%char.
Definition backslash : ascii := "092"%char.

Definition hex_digit (n : N) : ascii :=
  if (n <? 10)%N then ascii_of_N (48 + n) else ascii_of_N (87 + n).

(** QuoteJSONString on one code unit of an (already UTF-8) string. *)
Definition json_escape (c : ascii) : string :=
  let n := N_of_ascii c in
  if Ascii.eqb c dquote then String backslash (String dquote "")
  else if Ascii.eqb c backslash then String backslash (String backslash "")
  else if (n =? 8)%N then String backslash "b"
  else if (n =? 9)%N then String backslash "t"
  else if (n =? 10)%N then String backslash "n"
  else if (n =? 12)%N then String backslash "f"
  else if (n =? 13)%N then String backslash "r"
  else if (n <? 32)%N
       then String backslash
              ("u00" ++ String (hex_digit (n / 16)) (String (hex_digit (n mod 16)) ""))
  else String c "".

Fixpoint json_escape_all (s : string) : string :=
  match s with
  | EmptyString => ""
  | String c r => json_escape c ++ json_escape_all r
  end.

Definition json_quote (s : string) : string :=
  String dquote (json_escape_all s ++ String dquote "").

(** [None] is the [undefined] that JSON.stringify yields for [undefined]; a
    property holding it is skipped, an array element holding it prints null. *)
Fixpoint JSON_stringify (v : jsval) : option string :=
  match v with
  | JUndefined => None
  | JNull => Some "null"
  | JBool true => Some "true"
  | JBool false => Some "false"
  | JNum n => Some (Z_to_string n)
  | JStr s => Some (json_quote s)
  | JArr items =>
      Some ("[" ++ join "," (map (fun x => match JSON_stringify x with
                                           | Some t => t
                                           | None => "null"
                                           end) items) ++ "]")
  | JObj props =>
      Some ("{" ++ join ","
                  (flat_map (fun kv => match JSON_stringify (snd kv) with
                                       | Some t => [json_quote (fst kv) ++ ":" ++ t]
                                       | None => []
                                       end) props) ++ "}")
  end.

End JS.
Import JS.

(* ================================================================== *)
(** ** ECMAScript dates: time values, parsing, toISOString *)
(* ================================================================== *)

Module ESDate.

Definition msPerDay : Z := 86400000.
Definition msPerHour : Z := 3600000.
Definition msPerMinute : Z := 60000.
Definition msPerSecond : Z := 1000.

Definition Day (t : Z) : Z := t / msPerDay.
Definition TimeWithinDay (t : Z) : Z := t mod msPerDay.

Definition isLeap (y : Z) : bool :=
  if y mod 4 =? 0 then (if y mod 100 =? 0 then y mod 400 =? 0 else true) else false.

Definition DaysInYear (y : Z) : Z := if isLeap y then 366 else 365.

Definition DayFromYear (y : Z) : Z :=
  365 * (y - 1970) + (y - 1969) / 4 - (y - 1901) / 100 + (y - 1601) / 400.

Definition TimeFromYear (y : Z) : Z := msPerDay * DayFromYear y.

(** The largest [y] with [DayFromYear y <= d] (see [YearFromDay_spec]): the mean
    year length gives an estimate that is off by at most one. *)
Definition YearFromDay (d : Z) : Z :=
  let y := 1970 + (400 * d) / 146097 in
  if d <? DayFromYear y then y - 1
  else if DayFromYear (y + 1) <=? d then y + 1
  else y.

Definition YearFromTime (t : Z) : Z := YearFromDay (Day t).
Definition InLeapYear (t : Z) : Z := if isLeap (YearFromTime t) then 1 else 0.
Definition DayWithinYear (t : Z) : Z := Day t - DayFromYear (YearFromTime t).

(** Days of the year before month [m] (0-based), [l] being 1 in a leap year. *)
Definition daysBeforeMonth (m l : Z) : Z :=
  match m with
  | 0 => 0 | 1 => 31 | 2 => 59 + l | 3 => 90 + l | 4 => 120 + l | 5 => 151 + l
  | 6 => 181 + l | 7 => 212 + l | 8 => 243 + l | 9 => 273 + l | 10 => 304 + l
  | _ => 334 + l
  end.

Definition monthOfDay (d l : Z) : Z :=
  if d <? 31 then 0
  else if d <? 59 + l then 1
  else if d <? 90 + l then 2
  else if d <? 120 + l then 3
  else if d <? 151 + l then 4
  else if d <? 181 + l then 5
  else if d <? 212 + l then 6
  else if d <? 243 + l then 7
  else if d <? 273 + l then 8
  else if d <? 304 + l then 9
  else if d <? 334 + l then 10
  else 11.

Definition MonthFromTime (t : Z) : Z := monthOfDay (DayWithinYear t) (InLeapYear t).

Definition DateFromTime (t : Z) : Z :=
  DayWithinYear t - daysBeforeMonth (MonthFromTime t) (InLeapYear t) + 1.

Definition HourFromTime (t : Z) : Z := (t / msPerHour) mod 24.
Definition MinFromTime (t : Z) : Z := (t / msPerMinute) mod 60.
Definition SecFromTime (t : Z) : Z := (t / msPerSecond) mod 60.
Definition msFromTime (t : Z) : Z := t mod msPerSecond.

Definition MakeTime (h m s ms : Z) : Z :=
  h * msPerHour + m * msPerMinute + s * msPerSecond + ms.

(** [month] is 0-based and may lie outside 0..11; [date] is 1-based. *)
Definition MakeDay (year month date : Z) : Z :=
  let ym := year + month / 12 in
  let mn := month mod 12 in
  DayFromYear ym + daysBeforeMonth mn (if isLeap ym then 1 else 0) + date - 1.

Definition MakeDate (day time : Z) : Z := day * msPerDay + time.

(** A time value is [Some] finite number of milliseconds or [None], NaN. *)
Definition TimeClip (t : Z) : option Z :=
  if Z.abs t <=? 8640000000000000 then Some t else None.

Definition DaysInMonth (y m : Z) : Z :=
  match m with
  | 2 => if isLeap y then 29 else 28
  | 4 | 6 | 9 | 11 => 30
  | _ => 31
  end.

(** *** Decimal fields *)

Definition digit_val (c : ascii) : option Z :=
  let n := Z.of_N (N_of_ascii c) in
  if (48 <=? n) && (n <=? 57) then Some (n - 48) else None.

Definition is_digit (c : ascii) : bool :=
  match digit_val c with Some _ => true | None => false end.

Definition digit_char (d : Z) : ascii := ascii_of_N (Z.to_N (48 + d)).

(** [k] decimal digits of [n], most significant first. *)
Fixpoint pad (k : nat) (n : Z) : string :=
  match k with
  | O => ""
  | S k' => String (digit_char (n / 10 ^ Z.of_nat k')) (pad k' (n mod 10 ^ Z.of_nat k'))
  end.

(** Reads exactly [k] digits. *)
Fixpoint take_digits (k : nat) (acc : Z) (s : string) : option (Z * string) :=
  match k with
  | O => Some (acc, s)
  | S k' =>
      match s with
      | String c r =>
          match digit_val c with
          | Some d => take_digits k' (10 * acc + d) r
          | None => None
          end
      | EmptyString => None
      end
  end.

(** *** Date.parse on the Date Time String Format *)

Record fields : Type := mkFields {
  f_year : Z; f_month : Z; f_day : Z;
  f_hour : Z; f_minute : Z; f_second : Z; f_ms : Z;
  (** the UTC offset in minutes, when the string fixes one *)
  f_offset : option Z
}.

(** YYYY, or a sign and six digits; -000000 is not a year. *)
Definition parse_year (s : string) : option (Z * string) :=
  match s with
  | String c r =>
      if Ascii.eqb c "+" then take_digits 6 0 r
      else if Ascii.eqb c "-" then
        match take_digits 6 0 r with
        | Some (y, r') => if y =? 0 then None else Some (- y, r')
        | None => None
        end
      else take_digits 4 0 s
  | EmptyString => None
  end.

(** The optional -MM and -DD. *)
Definition parse_month_day (s : string) : option (Z * Z * string) :=
  match s with
  | String "-" r =>
      match take_digits 2 0 r with
      | Some (m, String "-" r2) =>
          match take_digits 2 0 r2 with
          | Some (d, r3) => Some (m, d, r3)
          | None => None
          end
      | Some (m, r') => Some (m, 1, r')
      | None => None
      end
  | _ => Some (1, 1, s)
  end.

(** The optional :ss and .sss after HH:mm. *)
Definition parse_seconds (s : string) : option (Z * Z * string) :=
  match s with
  | String ":" r =>
      match take_digits 2 0 r with
      | Some (sec, String "." r2) =>
          match take_digits 3 0 r2 with
          | Some (ms, r3) => Some (sec, ms, r3)
          | None => None
          end
      | Some (sec, r') => Some (sec, 0, r')
      | None => None
      end
  | _ => Some (0, 0, s)
  end.

(** The optional UTC offset, to the end of the string. *)
Definition parse_offset (s : string) : option (option Z) :=
  match s with
  | EmptyString => Some None
  | String "Z" EmptyString => Some (Some 0)
  | String c r =>
      if Ascii.eqb c "+" || Ascii.eqb c "-" then
        match take_digits 2 0 r with
        | Some (h, String ":" r2) =>
            match take_digits 2 0 r2 with
            | Some (m, EmptyString) =>
                if (h <=? 23) && (m <=? 59)
                then Some (Some ((if Ascii.eqb c "+" then 1 else -1) * (60 * h + m)))
                else None
            | _ => None
            end
        | _ => None
        end
      else None
  end.

(** The string as an instance of the format, fields unchecked.  A date-only
    form is UTC; a date-time form without offset is local time. *)
Definition parse_fields (s : string) : option fields :=
  match parse_year s with
  | None => None
  | Some (y, r1) =>
      match parse_month_day r1 with
      | None => None
      | Some (mo, d, EmptyString) => Some (mkFields y mo d 0 0 0 0 (Some 0))
      | Some (mo, d, String "T" r2) =>
          match take_digits 2 0 r2 with
          | Some (h, String ":" r3) =>
              match take_digits 2 0 r3 with
              | Some (mi, r4) =>
                  match parse_seconds r4 with
                  | Some (sec, ms, r5) =>
                      match parse_offset r5 with
                      | Some off => Some (mkFields y mo d h mi sec ms off)
                      | None => None
                      end
                  | None => None
                  end
              | None => None
              end
          | _ => None
          end
      | Some _ => None
      end
  end.

(** In-range fields of a real calendar date; 24:00:00 is the day's end. *)
Definition fields_ok (f : fields) : bool :=
  (1 <=? f_month f) && (f_month f <=? 12)
  && (1 <=? f_day f) && (f_day f <=? DaysInMonth (f_year f) (f_month f))
  && (f_minute f <=? 59) && (f_second f <=? 59)
  && ((f_hour f <=? 23)
      || ((f_hour f =? 24) && (f_minute f =? 0) && (f_second f =? 0) && (f_ms f =? 0))).

Definition fields_time (f : fields) : Z :=
  MakeDate (MakeDay (f_year f) (f_month f - 1) (f_day f))
           (MakeTime (f_hour f) (f_minute f) (f_second f) (f_ms f)).

Section Host.
(** What the host decides: the local offset from UTC (milliseconds) at a local
    time, and what Date.parse makes of a string that is no instance of the
    format or names a day past its month's end (implementations differ: some
    reject, some roll over or guess). *)
Variable LocalTZA : Z -> Z.
Variable parse_fallback : string -> option Z.

Definition UTC (t : Z) : Z := t - LocalTZA t.

Definition fallback (s : string) : option Z :=
  match parse_fallback s with
  | Some t => TimeClip t
  | None => None
  end.

(** The time value of [new Date(s)]. *)
Definition Date_parse (s : string) : option Z :=
  match parse_fields s with
  | Some f =>
      if fields_ok f then
        let t := fields_time f in
        match f_offset f with
        | Some off => TimeClip (t - off * msPerMinute)
        | None => TimeClip (UTC t)
        end
      else fallback s
  | None => fallback s
  end.

End Host.

(** *** What V8 makes of a day past the end of its month

    A string of the format whose fields are out of range is left to the
    implementation.  V8, the engine of Node, checks the day of the month
    against 31 whatever the month and lets [MakeDay] carry the surplus into
    the next month; month, hour, minute and second are checked as the format
    has them.  A string that is no instance of the format goes to V8's legacy
    parser, of which nothing is modelled here: it is refused. *)
Definition fields_ok_v8 (f : fields) : bool :=
  (1 <=? f_month f) && (f_month f <=? 12)
  && (1 <=? f_day f) && (f_day f <=? 31)
  && (f_minute f <=? 59) && (f_second f <=? 59)
  && ((f_hour f <=? 23)
      || ((f_hour f =? 24) && (f_minute f =? 0) && (f_second f =? 0) && (f_ms f =? 0))).

Definition Date_parse_v8 (LocalTZA : Z -> Z) (s : string) : option Z :=
  match parse_fields s with
  | Some f =>
      if fields_ok_v8 f then
        let t := fields_time f in
        match f_offset f with
        | Some off => Some (t - off * msPerMinute)
        | None => Some (UTC LocalTZA t)
        end
      else None
  | None => None
  end.

(** *** Date.prototype.toISOString on a finite time value *)

Definition year_string (y : Z) : string :=
  if (0 <=? y) && (y <=? 9999) then pad 4 y
  else if y <? 0 then String "-" (pad 6 (- y))
  else String "+" (pad 6 y).

Definition iso_string (t : Z) : string :=
  year_string (YearFromTime t) ++ "-" ++ pad 2 (MonthFromTime t + 1) ++ "-"
  ++ pad 2 (DateFromTime t) ++ "T" ++ pad 2 (HourFromTime t) ++ ":"
  ++ pad 2 (MinFromTime t) ++ ":" ++ pad 2 (SecFromTime t) ++ "."
  ++ pad 3 (msFromTime t) ++ "Z".

End ESDate.
Import ESDate.

(* ================================================================== *)
(** ** The regular-expression rewrite of [convertToISO8601] *)
(* ================================================================== *)

(** One position of the pattern: a digit ([\d], ASCII only) or a literal. *)
Inductive cls : Type := D | L (c : ascii).

Definition cls_matches (p : cls) (c : ascii) : bool :=
  match p with
  | D => is_digit c
  | L x => Ascii.eqb c x
  end.

(** The longest-possible (here: only) match of a fixed-width pattern at the
    head of [s]: the matched text and what follows it. *)
Fixpoint match_prefix (p : list cls) (s : string) : option (string * string) :=
  match p with
  | [] => Some ("", s)
  | x :: p' =>
      match s with
      | String c r =>
          if cls_matches x c then
            match match_prefix p' r with
            | Some (m, rest) => Some (String c m, rest)
            | None => None
            end
          else None
      | EmptyString => None
      end
  end.

(** [(\d{4}-\d{2}-\d{2})] and [(\d{2}:\d{2}:\d{2})]. *)
Definition group1 : list cls := [D; D; D; D; L "-"; D; D; L "-"; D; D].
Definition group2 : list cls := [D; D; L ":"; D; D; L ":"; D; D].

(** /(\d{4}-\d{2}-\d{2})-(\d{2}:\d{2}:\d{2})/ at the head of [s]: $1, $2 and
    the text after the match. *)
Definition match_here (s : string) : option (string * string * string) :=
  match match_prefix group1 s with
  | Some (g1, String "-" r) =>
      match match_prefix group2 r with
      | Some (g2, rest) => Some (g1, g2, rest)
      | None => None
      end
  | _ => None
  end.

(** [s.replace(/.../, '$1T$2')]: the leftmost match is rewritten, the text
    around it is kept; without a match the string comes back unchanged. *)
Fixpoint replace_first (s : string) : string :=
  match match_here s with
  | Some (g1, g2, rest) => g1 ++ "T" ++ g2 ++ rest
  | None =>
      match s with
      | String c r => String c (replace_first r)
      | EmptyString => ""
      end
  end.

(* ================================================================== *)
(** ** The host environment and the log of its interactions *)
(* ================================================================== *)

Inductive http_method : Type := GET | POST | DELETE.

(** The config object handed to axios: its [headers] object. *)
Record AxiosConfig : Type := mkConfig { headers : list (string * jsval) }.

Record request : Type := mkRequest {
  req_method : http_method;
  req_url : string;
  (** the body of a POST *)
  req_data : option jsval;
  (** the config argument, when the call passes one *)
  req_config : option AxiosConfig
}.

Inductive error : Type :=
| TypeError
| RangeError
| TransportError (e : jsval)
| WalletError.

Inductive result (A : Type) : Type :=
| Ok (a : A)
| Throw (e : error).
Arguments Ok {A} a.
Arguments Throw {A} e.

(** An [ethers.Wallet]: the key it signs with and the address derived from it. *)
Record Wallet : Type := mkWallet { signingKey : jsval; wallet_address : string }.

(** What the client asks of the outside, in the order it asks. *)
Inductive event : Type :=
| EvNow (t : Z)
| EvSign (msg sig : string)
| EvHttp (r : request) (res : result jsval).

(** The outside world.  The clock and the transport may answer by what has
    happened so far; [axios] yields the decoded body ([res.data]) or throws. *)
Record Env : Type := mkEnv {
  new_Wallet : jsval -> result Wallet;
  signMessage : Wallet -> string -> string;
  Date_now : list event -> Z;
  axios : list event -> request -> result jsval;
  LocalTZA : Z -> Z;
  Date_parse_fallback : string -> option Z
}.

(* ================================================================== *)
(** ** The class *)
(* ================================================================== *)

Record Cax : Type := mkCax {
  privateKey : jsval;
  wallet : Wallet;
  address : string;
  baseUrl : string;
  apiKey : jsval;
  config : AxiosConfig
}.

(** A method runs on the instance and the log; a throw keeps both as they are
    at the throw. *)
Definition State : Type := (Cax * list event)%type.
Definition M (A : Type) : Type := State -> result A * State.

Definition ret {A} (a : A) : M A := fun s => (Ok a, s).

Definition bind {A B} (m : M A) (f : A -> M B) : M B :=
  fun s => match m s with
           | (Ok a, s') => f a s'
           | (Throw e, s') => (Throw e, s')
           end.

Definition throw {A} (e : error) : M A := fun s => (Throw e, s).

Definition lift {A} (r : result A) : M A := fun s => (r, s).

Definition this : M Cax := fun s => (Ok (fst s), s).

Definition set_this (c : Cax) : M unit := fun s => (Ok tt, (c, snd s)).

(** The two assignments of [updateApiKey]: [this.apiKey = k] and
    [this.config["headers"]["API-Key"] = this.apiKey]. *)
Definition set_credential (c : Cax) (k : jsval) : Cax :=
  {| privateKey := privateKey c;
     wallet := wallet c;
     address := address c;
     baseUrl := baseUrl c;
     apiKey := k;
     config := {| headers := set_assoc "API-Key" k (headers (config c)) |} |}.

Notation "x <- m ;; k" := (bind m (fun x => k))
  (at level 61, m at next level, right associativity).
Notation "m ;; k" := (bind m (fun _ => k))
  (at level 61, right associativity).

Section Client.

Variable env : Env.

(** [Date.now()] *)
Definition now : M Z :=
  fun s => let t := Date_now env (snd s) in (Ok t, (fst s, (snd s ++ [EvNow t])%list)).

(** [await wallet.signMessage(msg)] *)
Definition sign (w : Wallet) (msg : string) : M string :=
  fun s => let sg := signMessage env w msg in (Ok sg, (fst s, (snd s ++ [EvSign msg sg])%list)).

(** [(await axios(...)).data] *)
Definition http (r : request) : M jsval :=
  fun s => let res := axios env (snd s) r in (res, (fst s, (snd s ++ [EvHttp r res])%list)).

Definition axios_get (url : string) (cfg : option AxiosConfig) : M jsval :=
  http (mkRequest GET url None cfg).
Definition axios_post (url : string) (data : jsval) (cfg : option AxiosConfig) : M jsval :=
  http (mkRequest POST url (Some data) cfg).
Definition axios_delete (url : string) (cfg : option AxiosConfig) : M jsval :=
  http (mkRequest DELETE url None cfg).

Definition prop (v : jsval) (k : string) : M jsval :=
  match get_prop v k with
  | Some x => ret x
  | None => throw TypeError
  end.

(** [new Cax(privateKey, apiKey)] *)
Definition constructor (privateKey apiKey : jsval) : result Cax :=
  match new_Wallet env privateKey with
  | Ok w =>
      Ok {| privateKey := privateKey;
            wallet := w;
            address := wallet_address w;
            baseUrl := "https://cax.piccadilly.autonity.org/api";
            apiKey := apiKey;
            config := {| headers := [("API-Key", apiKey)] |} |}
  | Throw e => Throw e
  end.

(** A value without a [replace] method throws a TypeError at the call; an
    Invalid Date throws a RangeError in [toISOString]. *)
Definition convertToISO8601 (dateString : jsval) : result string :=
  match dateString with
  | JStr s =>
      let isoString := replace_first s in
      match Date_parse (LocalTZA env) (Date_parse_fallback env) isoString with
      | Some t => Ok (iso_string t)
      | None => Throw RangeError
      end
  | _ => Throw TypeError
  end.

Definition updateApiKey (k : jsval) : M jsval :=
  c <- this ;;
  set_this (set_credential c k) ;;
  ret JUndefined.

Definition createApiKey (sig payload : jsval) : M jsval :=
  c <- this ;;
  let config := {| headers := [("api-sig", sig)] |} in
  data <- axios_post (baseUrl c ++ "/apikeys") payload (Some config) ;;
  k <- prop data "apikey" ;;
  updateApiKey k ;;
  prop data "apikey".

Definition generateApiKey : M jsval :=
  t <- now ;;
  let message := JObj [("nonce", JStr (ToString (JNum t)))] in
  c <- this ;;
  match JSON_stringify message with
  | Some text =>
      sig <- sign (wallet c) text ;;
      createApiKey (JStr sig) message
  | None => throw TypeError
  end.

(** The first statement of every private-endpoint method:
    [if (!this.apiKey) { await this.generateApiKey() }]. *)
Definition ensureApiKey : M unit :=
  c <- this ;;
  if negb (truthy (apiKey c)) then generateApiKey ;; ret tt else ret tt.

(** [this.config], read when the request is made. *)
Definition this_config : M (option AxiosConfig) := c <- this ;; ret (Some (config c)).

Definition iso (d : jsval) : M string := lift (convertToISO8601 d).

Definition getBalances (symbol : jsval) : M jsval :=
  ensureApiKey ;;
  c <- this ;;
  let url := if truthy symbol then baseUrl c ++ "/balances/" ++ ToString symbol
             else baseUrl c ++ "/balances" in
  cfg <- this_config ;;
  axios_get url cfg.

Definition getDeposits (startTime endTime symbol : jsval) : M jsval :=
  ensureApiKey ;;
  c <- this ;;
  url <- (if truthy startTime && truthy endTime && truthy symbol then
            e <- iso endTime ;;
            s <- iso startTime ;;
            ret (baseUrl c ++ "/deposits/?end=" ++ e ++ "&start=" ++ s
                 ++ "&symbol=" ++ ToString symbol)
          else ret (baseUrl c ++ "/deposits")) ;;
  cfg <- this_config ;;
  axios_get url cfg.

Definition getDepositInfo (txId : jsval) : M jsval :=
  ensureApiKey ;;
  c <- this ;;
  cfg <- this_config ;;
  axios_get (baseUrl c ++ "/deposits/" ++ ToString txId) cfg.

Definition getRefunds (startTime endTime symbol : jsval) : M jsval :=
  ensureApiKey ;;
  c <- this ;;
  url <- (if truthy startTime && truthy endTime && truthy symbol then
            e <- iso endTime ;;
            s <- iso startTime ;;
            ret (baseUrl c ++ "/refunds/?end=" ++ e ++ "&start=" ++ s
                 ++ "&symbol=" ++ ToString symbol)
          else ret (baseUrl c ++ "/refunds")) ;;
  cfg <- this_config ;;
  axios_get url cfg.

Definition getRefundInfo (txId : jsval) : M jsval :=
  ensureApiKey ;;
  c <- this ;;
  cfg <- this_config ;;
  axios_get (baseUrl c ++ "/refunds/" ++ ToString txId) cfg.

Definition getWithdraws (status startTime endTime symbol : jsval) : M jsval :=
  ensureApiKey ;;
  c <- this ;;
  url <- (if truthy status && truthy startTime && truthy endTime && truthy symbol then
            e <- iso endTime ;;
            s <- iso startTime ;;
            ret (baseUrl c ++ "/withdraws/?status=" ++ ToString status ++ "&end=" ++ e
                 ++ "&start=" ++ s ++ "&symbol=" ++ ToString symbol)
          else ret (baseUrl c ++ "/withdraws")) ;;
  cfg <- this_config ;;
  axios_get url cfg.

Definition requestWithdraw (payload : jsval) : M jsval :=
  ensureApiKey ;;
  c <- this ;;
  cfg <- this_config ;;
  axios_post (baseUrl c ++ "/withdraws") payload cfg.

Definition getWithdrawInfo (txId : jsval) : M jsval :=
  ensureApiKey ;;
  c <- this ;;
  cfg <- this_config ;;
  axios_get (baseUrl c ++ "/withdraws/" ++ ToString txId) cfg.

Definition getOrderbooks : M jsval :=
  c <- this ;;
  cfg <- this_config ;;
  axios_get (baseUrl c ++ "/orderbooks") cfg.

Definition getOrderbookInfo (pair : jsval) : M jsval :=
  c <- this ;;
  axios_get (baseUrl c ++ "/orderbooks/" ++ ToString pair) None.

Definition getOrderbookDepth (pair : jsval) : M jsval :=
  c <- this ;;
  axios_get (baseUrl c ++ "/orderbooks/" ++ ToString pair ++ "/depth") None.

Definition getOrderbookQuote (pair : jsval) : M jsval :=
  c <- this ;;
  axios_get (baseUrl c ++ "/orderbooks/" ++ ToString pair ++ "/quote") None.

Definition getTradeHistory (pair date : jsval) : M jsval :=
  c <- this ;;
  let url := if truthy date
             then baseUrl c ++ "/orderbooks/" ++ ToString pair ++ "/trades/?data=" ++ ToString date
             else baseUrl c ++ "/orderbooks/" ++ ToString pair ++ "/trades" in
  axios_get url None.

Definition getExchangeStatus : M jsval :=
  c <- this ;;
  axios_get (baseUrl c ++ "/status") None.

Definition getSymbols : M jsval :=
  c <- this ;;
  axios_get (baseUrl c ++ "/symbols") None.

Definition getSymbolsInfo (name : jsval) : M jsval :=
  c <- this ;;
  axios_get (baseUrl c ++ "/symbols/" ++ ToString name) None.

Definition getOrders (status startTime endTime pair : jsval) : M jsval :=
  ensureApiKey ;;
  c <- this ;;
  url <- (if truthy status && truthy startTime && truthy endTime && truthy pair then
            e <- iso endTime ;;
            s <- iso startTime ;;
            ret (baseUrl c ++ "/orders/?status=" ++ ToString status ++ "&end=" ++ e
                 ++ "&start=" ++ s ++ "&symbol=" ++ ToString pair)
          else ret (baseUrl c ++ "/orders")) ;;
  cfg <- this_config ;;
  axios_get url cfg.

Definition submitLimitOrder (payload : jsval) : M jsval :=
  ensureApiKey ;;
  c <- this ;;
  cfg <- this_config ;;
  axios_post (baseUrl c ++ "/orders/") payload cfg.

Definition getOrderInfo (orderId : jsval) : M jsval :=
  ensureApiKey ;;
  c <- this ;;
  cfg <- this_config ;;
  axios_get (baseUrl c ++ "/orders/" ++ ToString orderId) cfg.

Definition cancelOrder (orderId : jsval) : M jsval :=
  ensureApiKey ;;
  c <- this ;;
  cfg <- this_config ;;
  axios_delete (baseUrl c ++ "/orders/" ++ ToString orderId) cfg.

Definition getTrades (startTime endTime pair orderId : jsval) : M jsval :=
  ensureApiKey ;;
  c <- this ;;
  url <- (if truthy startTime && truthy endTime && truthy pair && truthy orderId then
            e <- iso endTime ;;
            s <- iso startTime ;;
            ret (baseUrl c ++ "/trades/?end=" ++ e ++ "&start=" ++ s
                 ++ "&pair=" ++ ToString pair ++ "&orderId=" ++ ToString orderId)
          else ret (baseUrl c ++ "/orders")) ;;
  cfg <- this_config ;;
  axios_get url cfg.

Definition getTradeInfo (tradeId : jsval) : M jsval :=
  ensureApiKey ;;
  c <- this ;;
  cfg <- this_config ;;
  axios_get (baseUrl c ++ "/trades/" ++ ToString tradeId) cfg.

End Client.

(* ================================================================== *)
(** ** Calls on an instance *)
(* ================================================================== *)

(** One call of a public method, with its arguments; an omitted argument is
    [JUndefined]. *)
Inductive call : Type :=
| Call_convertToISO8601 (dateString : jsval)
| Call_updateApiKey (apiKey : jsval)
| Call_generateApiKey
| Call_createApiKey (sig payload : jsval)
| Call_getBalances (symbol : jsval)
| Call_getDeposits (startTime endTime symbol : jsval)
| Call_getDepositInfo (txId : jsval)
| Call_getRefunds (startTime endTime symbol : jsval)
| Call_getRefundInfo (txId : jsval)
| Call_getWithdraws (status startTime endTime symbol : jsval)
| Call_requestWithdraw (payload : jsval)
| Call_getWithdrawInfo (txId : jsval)
| Call_getOrderbooks
| Call_getOrderbookInfo (pair : jsval)
| Call_getOrderbookDepth (pair : jsval)
| Call_getOrderbookQuote (pair : jsval)
| Call_getTradeHistory (pair date : jsval)
| Call_getExchangeStatus
| Call_getSymbols
| Call_getSymbolsInfo (name : jsval)
| Call_getOrders (status startTime endTime pair : jsval)
| Call_submitLimitOrder (payload : jsval)
| Call_getOrderInfo (orderId : jsval)
| Call_cancelOrder (orderId : jsval)
| Call_getTrades (startTime endTime pair orderId : jsval)
| Call_getTradeInfo (tradeId : jsval).

Definition run_call (env : Env) (k : call) : M jsval :=
  match k with
  | Call_convertToISO8601 d => s <- lift (convertToISO8601 env d) ;; ret (JStr s)
  | Call_updateApiKey v => updateApiKey v
  | Call_generateApiKey => generateApiKey env
  | Call_createApiKey sig payload => createApiKey env sig payload
  | Call_getBalances symbol => getBalances env symbol
  | Call_getDeposits a b c => getDeposits env a b c
  | Call_getDepositInfo txId => getDepositInfo env txId
  | Call_getRefunds a b c => getRefunds env a b c
  | Call_getRefundInfo txId => getRefundInfo env txId
  | Call_getWithdraws a b c d => getWithdraws env a b c d
  | Call_requestWithdraw payload => requestWithdraw env payload
  | Call_getWithdrawInfo txId => getWithdrawInfo env txId
  | Call_getOrderbooks => getOrderbooks env
  | Call_getOrderbookInfo p => getOrderbookInfo env p
  | Call_getOrderbookDepth p => getOrderbookDepth env p
  | Call_getOrderbookQuote p => getOrderbookQuote env p
  | Call_getTradeHistory p date => getTradeHistory env p date
  | Call_getExchangeStatus => getExchangeStatus env
  | Call_getSymbols => getSymbols env
  | Call_getSymbolsInfo name => getSymbolsInfo env name
  | Call_getOrders a b c d => getOrders env a b c d
  | Call_submitLimitOrder payload => submitLimitOrder env payload
  | Call_getOrderInfo orderId => getOrderInfo env orderId
  | Call_cancelOrder orderId => cancelOrder env orderId
  | Call_getTrades a b c d => getTrades env a b c d
  | Call_getTradeInfo tradeId => getTradeInfo env tradeId
  end.

(** The methods on private endpoints, those that open with the credential
    check. *)
Definition is_authenticated (k : call) : bool :=
  match k with
  | Call_getBalances _ | Call_getDeposits _ _ _ | Call_getDepositInfo _
  | Call_getRefunds _ _ _ | Call_getRefundInfo _ | Call_getWithdraws _ _ _ _
  | Call_requestWithdraw _ | Call_getWithdrawInfo _ | Call_getOrders _ _ _ _
  | Call_submitLimitOrder _ | Call_getOrderInfo _ | Call_cancelOrder _
  | Call_getTrades _ _ _ _ | Call_getTradeInfo _ => true
  | _ => false
  end.

(** The calls that set the credential on purpose. *)
Definition replaces_credential (k : call) : bool :=
  match k with
  | Call_updateApiKey _ | Call_generateApiKey | Call_createApiKey _ _ => true
  | _ => false
  end.

(** Calls made one after the other; a rejected call does not stop the caller
    from making the next. *)
Fixpoint run_calls (env : Env) (ks : list call) (s : State) : State :=
  match ks with
  | [] => s
  | k :: ks' => run_calls env ks' (snd (run_call env k s))
  end.

(** *** Reading the log *)

Definition http_requests (evs : list event) : list request :=
  flat_map (fun e => match e with EvHttp r _ => [r] | _ => [] end) evs.

(** A POST to the key-issuance endpoint of [base]. *)
Definition is_key_issuance (base : string) (r : request) : bool :=
  match req_method r with
  | POST => String.eqb (req_url r) (base ++ "/apikeys")
  | _ => false
  end.

Definition key_issuances (base : string) (evs : list event) : list request :=
  filter (is_key_issuance base) (http_requests evs).

(** The requests of [evs] other than key issuance. *)
Definition own_requests (base : string) (evs : list event) : list request :=
  filter (fun r => negb (is_key_issuance base r)) (http_requests evs).

(** The value of the [API-Key] header a request goes out with. *)
Definition api_key_header (r : request) : option jsval :=
  match req_config r with
  | Some cfg => assoc "API-Key" (headers cfg)
  | None => None
  end.

(** The stored key and the outgoing header agree. *)
Definition credential_consistent (c : Cax) : Prop :=
  assoc "API-Key" (headers (config c)) = Some (apiKey c).

(** The request of [generateApiKey] at clock reading [t]. *)
Definition nonce_payload (t : Z) : jsval := JObj [("nonce", JStr (Z_to_string t))].

Definition nonce_text (t : Z) : string :=
  "{" ++ json_quote "nonce" ++ ":" ++ json_quote (Z_to_string t) ++ "}".

Definition key_request (c : Cax) (sig : string) (t : Z) : request :=
  mkRequest POST (baseUrl c ++ "/apikeys") (Some (nonce_payload t))
            (Some {| headers := [("api-sig", JStr sig)] |}).

(** The key-issuance exchange a client [c] makes when the log is [h]: the
    request, the transport's answer, and the three interactions in order. *)
Definition provisioning_signature (env : Env) (c : Cax) (h : list event) : string :=
  signMessage env (wallet c) (nonce_text (Date_now env h)).

Definition provisioning_request (env : Env) (c : Cax) (h : list event) : request :=
  key_request c (provisioning_signature env c h) (Date_now env h).

Definition provisioning_response (env : Env) (c : Cax) (h : list event) : result jsval :=
  axios env
        (h ++ [EvNow (Date_now env h);
               EvSign (nonce_text (Date_now env h)) (provisioning_signature env c h)])%list
        (provisioning_request env c h).

Definition provisioning_events (env : Env) (c : Cax) (h : list event) : list event :=
  [EvNow (Date_now env h);
   EvSign (nonce_text (Date_now env h)) (provisioning_signature env c h);
   EvHttp (provisioning_request env c h) (provisioning_response env c h)].

(** The key a successful issuance hands out, if the answer has one to read. *)
Definition issued_key (env : Env) (c : Cax) (h : list event) : option jsval :=
  match provisioning_response env c h with
  | Ok data => get_prop data "apikey"
  | Throw _ => None
  end.

(** The error of a key issuance from which no key can be read: the
    transport's, or the TypeError of reading [apikey] off undefined or null. *)
Definition provisioning_error (env : Env) (c : Cax) (h : list event) : error :=
  match provisioning_response env c h with
  | Throw e => e
  | Ok _ => TypeError
  end.

(** Where a private-endpoint method stands once its credential check is over:
    on the instance and the log it was called on when a key is held; on the
    instance that holds the issued key, the key-issuance exchange logged, when
    a key had to be obtained; nowhere when none could be read. *)
Definition credential_checked (env : Env) (c : Cax) (h : list event) : option State :=
  if truthy (apiKey c) then Some (c, h)
  else match issued_key env c h with
       | Some key => Some (set_credential c key, (h ++ provisioning_events env c h)%list)
       | None => None
       end.

(** The end of a call that sends [r] and returns the answer. *)
Definition sent (env : Env) (r : request) (s : State) : result jsval * State :=
  (axios env (snd s) r, (fst s, (snd s ++ [EvHttp r (axios env (snd s) r)])%list)).

(** What follows the credential check in a private-endpoint method: either a
    throw before anything is sent, or one request that carries [this.config]
    and is no key issuance. *)
Definition single_request (env : Env) (body : M jsval) : Prop :=
  forall c h,
    (exists e, body (c, h) = (Throw e, (c, h)))
    \/ (exists r,
          body (c, h) = (axios env h r, (c, (h ++ [EvHttp r (axios env h r)])%list))
          /\ req_config r = Some (config c)
          /\ is_key_issuance (baseUrl c) r = false).

(** *** The fixed pattern YYYY-MM-DD-HH:MM:SS, read as the spec words it *)

(** [k] digits and the separator after them. *)
Definition field (k : nat) (sep : ascii) (s : string) : option (Z * string) :=
  match take_digits k 0 s with
  | Some (v, String x r) => if Ascii.eqb x sep then Some (v, r) else None
  | _ => None
  end.

(** The six numbers of a string that is, as a whole, in the pattern. *)
Definition pattern_fields (s : string) : option (Z * Z * Z * Z * Z * Z) :=
  match field 4 "-" s with
  | Some (y, r1) =>
  match field 2 "-" r1 with
  | Some (mo, r2) =>
  match field 2 "-" r2 with
  | Some (d, r3) =>
  match field 2 ":" r3 with
  | Some (h, r4) =>
  match field 2 ":" r4 with
  | Some (mi, r5) =>
  match take_digits 2 0 r5 with
  | Some (sec, EmptyString) => Some (y, mo, d, h, mi, sec)
  | _ => None
  end
  | None => None end
  | None => None end
  | None => None end
  | None => None end
  | None => None end.

(** A date of the proleptic Gregorian calendar. *)
Definition real_date (y mo d : Z) : bool :=
  (1 <=? mo) && (mo <=? 12) && (1 <=? d) && (d <=? DaysInMonth y mo).

(** A time of day from 00:00:00 to 23:59:59. *)
Definition real_time (h mi sec : Z) : bool :=
  (h <=? 23) && (mi <=? 59) && (sec <=? 59).

(** A month of the year and a day number no month exceeds, real date or not. *)
Definition day_up_to_31 (mo d : Z) : bool :=
  (1 <=? mo) && (mo <=? 12) && (1 <=? d) && (d <=? 31).

(** The end of the day, written 24:00:00. *)
Definition end_of_day (h mi sec : Z) : bool := (h =? 24) && (mi =? 0) && (sec =? 0).

(** A host whose [Date] reads the instances of the format with fields out of
    range the way V8 does. *)
Definition parses_like_v8 (env : Env) : Prop :=
  forall s f,
    parse_fields s = Some f -> Date_parse_fallback env s = Date_parse_v8 (LocalTZA env) s.

Definition date_text (y mo d : Z) : string := pad 4 y ++ "-" ++ pad 2 mo ++ "-" ++ pad 2 d.
Definition time_text (h mi sec : Z) : string := pad 2 h ++ ":" ++ pad 2 mi ++ ":" ++ pad 2 sec.

(** YYYY-MM-DDTHH:MM:SS.sssZ with the given fields. *)
Definition iso_text (y mo d h mi sec ms : Z) : string :=
  date_text y mo d ++ "T" ++ time_text h mi sec ++ "." ++ pad 3 ms ++ "Z".

(** The local time value the six fields denote. *)
Definition local_time (y mo d h mi sec : Z) : Z :=
  MakeDate (MakeDay y (mo - 1) d) (MakeTime h mi sec 0).

(** A time as the listing methods take it: a string in the pattern that names
    a real calendar date and time of day, on a host whose offset from UTC at
    that local time is within a day; [u] is the instant it denotes. *)
Definition pattern_time (env : Env) (s : string) (u : Z) : Prop :=
  exists y mo d h mi sec,
    pattern_fields s = Some (y, mo, d, h, mi, sec)
    /\ real_date y mo d = true /\ real_time h mi sec = true
    /\ Z.abs (LocalTZA env (local_time y mo d h mi sec)) <= msPerDay
    /\ u = local_time y mo d h mi sec - LocalTZA env (local_time y mo d h mi sec).

(** *** Hosts to run the client on *)

(** A transport that issues the key [issued-key] and answers every other
    request with an empty object. *)
Definition issuing_transport (r : request) : result jsval :=
  match req_method r with
  | POST => if String.eqb (req_url r) "https://cax.piccadilly.autonity.org/api/apikeys"
            then Ok (JObj [("apikey", JStr "issued-key")])
            else Ok (JObj [])
  | _ => Ok (JObj [])
  end.

(** A transport whose answers never carry a key. *)
Definition keyless_transport (r : request) : result jsval := Ok (JObj []).

(** The private key of the examples, the number one, and its address. *)
Definition sample_key : string :=
  "0x0000000000000000000000000000000000000000000000000000000000000001".

Definition sample_address : string := "0x7E5F4552091A69125d5DfCb7b8C2659029395Bdf".

(** A host at [offset] milliseconds east of UTC whose [Date] parses like V8,
    with a clock that ticks with every interaction and a wallet library that
    knows the key of the examples and refuses every other value, as ethers
    refuses a malformed key. *)
Definition host (offset : Z) (transport : request -> result jsval) : Env :=
  {| new_Wallet := fun pk =>
       match pk with
       | JStr s => if String.eqb s sample_key then Ok (mkWallet pk sample_address)
                   else Throw WalletError
       | _ => Throw WalletError
       end;
     signMessage := fun w msg => "signed:" ++ msg;
     Date_now := fun h => 1700000000000 + Z.of_nat (length h);
     axios := fun _ r => transport r;
     LocalTZA := fun _ => offset;
     Date_parse_fallback := Date_parse_v8 (fun _ => offset) |}.

Definition host_utc : Env := host 0 issuing_transport.
Definition host_utc8 : Env := host 28800000 issuing_transport.
Definition host_keyless : Env := host 0 keyless_transport.

(** A client with no key and one with the key [X]. *)
Definition fresh_client : Cax :=
  {| privateKey := JStr sample_key;
     wallet := mkWallet (JStr sample_key) sample_address;
     address := sample_address;
     baseUrl := "https://cax.piccadilly.autonity.org/api";
     apiKey := JUndefined;
     config := {| headers := [("API-Key", JUndefined)] |} |}.

Definition keyed_client : Cax := set_credential fresh_client (JStr "X").

(* ================================================================== *)
(** ** The two properties of the credential, as statements *)
(* ================================================================== *)

(** Lazy provisioning, as one call shows it.  With a credential held the call
    leaves the instance alone and issues no key.  Without one, the log grows by the
    key-issuance exchange and then by at most one request: exactly one key
    issuance, nothing of the method's own before it, and the method's request
    only after a key was read from the answer, carrying that key.  When the
    answer holds a truthy key, the instance holds it after the call, and keeps
    it, issuing no further key, through any later calls other than
    [updateApiKey], [generateApiKey] and [createApiKey]. *)
Definition provisions_lazily (env : Env) (k : call) (c : Cax) (h : list event) : Prop :=
  let c' := fst (snd (run_call env k (c, h))) in
  exists evs,
    snd (snd (run_call env k (c, h))) = (h ++ evs)%list
    /\ if truthy (apiKey c) then
         c' = c /\ key_issuances (baseUrl c) evs = []
       else
         exists rest,
           evs = (provisioning_events env c h ++ rest)%list
           /\ key_issuances (baseUrl c) evs = [provisioning_request env c h]
           /\ own_requests (baseUrl c) evs = own_requests (baseUrl c) rest
           /\ (rest = []
               \/ exists r res key,
                    rest = [EvHttp r res]
                    /\ is_key_issuance (baseUrl c) r = false
                    /\ issued_key env c h = Some key
                    /\ api_key_header r = Some key)
           /\ (forall key,
                 issued_key env c h = Some key -> truthy key = true ->
                 apiKey c' = key
                 /\ forall ks,
                      forallb (fun k' => negb (replaces_credential k')) ks = true ->
                      exists later,
                        run_calls env ks (c', (h ++ evs)%list) = (c', (h ++ evs ++ later)%list)
                        /\ key_issuances (baseUrl c) later = []).

(** Credential propagation on one host. *)
Definition credential_propagates (env : Env) : Prop :=
  (** construction: the header holds the key given, [undefined] when none is *)
  (forall pk key c,
     constructor env pk key = Ok c ->
     apiKey c = key /\ assoc "API-Key" (headers (config c)) = Some key)
  (** after every operation on a constructed client, and any number of them,
      key and header agree *)
  /\ (forall pk key c ks h,
        constructor env pk key = Ok c ->
        credential_consistent (fst (run_calls env ks (c, h))))
  (** as they do on any instance on which they agreed before *)
  /\ (forall ks c h,
        credential_consistent c -> credential_consistent (fst (run_calls env ks (c, h))))
  (** [updateApiKey(X)] sets both *)
  /\ (forall X c h,
        apiKey (fst (snd (run_call env (Call_updateApiKey X) (c, h)))) = X
        /\ assoc "API-Key" (headers (config (fst (snd (run_call env (Call_updateApiKey X)
                                                         (c, h))))))
           = Some X)
  (** a credential that is set stays, and goes out with every request that
      carries the config, until a call replaces it *)
  /\ (forall X ks c h,
        credential_consistent c -> apiKey c = X -> truthy X = true ->
        forallb (fun k => negb (replaces_credential k)) ks = true ->
        exists evs,
          run_calls env ks (c, h) = (c, (h ++ evs)%list)
          /\ forall r, In r (http_requests evs) ->
                       req_config r = None \/ api_key_header r = Some X)
  (** whatever a private-endpoint method sends of its own carries the key the
      instance holds when the call is over *)
  /\ (forall k c h,
        is_authenticated k = true -> credential_consistent c ->
        exists evs,
          snd (snd (run_call env k (c, h))) = (h ++ evs)%list
          /\ forall r, In r (own_requests (baseUrl c) evs) ->
                       api_key_header r
                       = Some (apiKey (fst (snd (run_call env k (c, h)))))).

(* ================================================================== *)
(** ** Proof automation *)
(* ================================================================== *)

(** One case per decimal digit [d], given [H : 0 <= d <= 9]. *)
Ltac each_digit d H :=
  let E := fresh "E" in
  assert (d = 0 \/ d = 1 \/ d = 2 \/ d = 3 \/ d = 4 \/ d = 5 \/ d = 6 \/ d = 7
          \/ d = 8 \/ d = 9) as E by lia;
  destruct E as [E|[E|[E|[E|[E|[E|[E|[E|[E|E]]]]]]]]]; subst d.

(** One case per month [mo], given [H : 1 <= mo <= 12]. *)
Ltac each_month mo H :=
  let E := fresh "E" in
  assert (mo = 1 \/ mo = 2 \/ mo = 3 \/ mo = 4 \/ mo = 5 \/ mo = 6 \/ mo = 7 \/ mo = 8
          \/ mo = 9 \/ mo = 10 \/ mo = 11 \/ mo = 12) as E by lia;
  destruct E as [E|[E|[E|[E|[E|[E|[E|[E|[E|[E|[E|E]]]]]]]]]]]; subst mo.

(** Turns [m - 1] into a numeral and opens the month tables. *)
Ltac month_numeral :=
  repeat match goal with
  | |- context [?a - 1] =>
      lazymatch a with
      | Zpos _ => let v := eval compute in (a - 1) in change (a - 1) with v
      end
  end;
  unfold daysBeforeMonth, DaysInMonth, monthOfDay, DaysInYear in *.

(** The side condition of a two-digit field. *)
Ltac two_digits := change (10 ^ Z.of_nat 2) with 100; lia.

(** Runs the part of a method after the credential check on a given state. *)
Ltac run_body :=
  unfold bind, this, this_config, ret, iso, lift, axios_get, axios_post, axios_delete, http;
  cbn [fst snd].

(** The two outcomes of such a part: a throw before anything is sent, or one
    request with the instance's config; what is left to show is that a POST does
    not go to the key-issuance endpoint. *)
Ltac one_request :=
  right; eexists; split; [reflexivity|split; [reflexivity|]];
  unfold is_key_issuance; cbn [req_method req_url]; try reflexivity.

Ltac filtered_body env :=
  repeat match goal with
         | |- context [if ?b then _ else _] => destruct b
         | |- context [convertToISO8601 env ?d] => destruct (convertToISO8601 env d)
         end;
  first [ one_request | left; eexists; reflexivity ].

(* ================================================================== *)
(** ** Classes of calls, the wire table and more hosts *)
(* ================================================================== *)

(** The methods on public endpoints: no credential check. *)
Definition is_public (k : call) : bool :=
  match k with
  | Call_getOrderbooks | Call_getOrderbookInfo _ | Call_getOrderbookDepth _
  | Call_getOrderbookQuote _ | Call_getTradeHistory _ _ | Call_getExchangeStatus
  | Call_getSymbols | Call_getSymbolsInfo _ => true
  | _ => false
  end.

(** The methods that end in a request to an endpoint of the exchange. *)
Definition is_endpoint (k : call) : bool := is_authenticated k || is_public k.

Definition is_getOrderbooks (k : call) : bool :=
  match k with
  | Call_getOrderbooks => true
  | _ => false
  end.

(** The methods that hand [this.config] to the transport. *)
Definition sends_config (k : call) : bool := is_authenticated k || is_getOrderbooks k.

(** The ways a call of an endpoint method can go, with [pe] the key-issuance
    exchange: a throw before anything is sent; the method's request alone; the
    exchange and a throw because no key could be read; the exchange, the key
    stored, and then a throw or the method's request. *)
Definition run_cases (env : Env) (k : call) (c : Cax) (h : list event) : Prop :=
  let pe := provisioning_events env c h in
  (truthy (apiKey c) = true /\ exists e, run_call env k (c, h) = (Throw e, (c, h)))
  \/ ((truthy (apiKey c) = true \/ is_authenticated k = false)
      /\ exists r,
           run_call env k (c, h)
           = (axios env h r, (c, (h ++ [EvHttp r (axios env h r)])%list))
           /\ is_key_issuance (baseUrl c) r = false
           /\ (req_config r = None \/ req_config r = Some (config c)))
  \/ (is_authenticated k = true /\ truthy (apiKey c) = false /\ issued_key env c h = None
      /\ run_call env k (c, h)
         = (Throw match provisioning_response env c h with
                  | Throw e => e
                  | Ok _ => TypeError
                  end, (c, (h ++ pe)%list)))
  \/ (is_authenticated k = true /\ truthy (apiKey c) = false
      /\ exists key,
           issued_key env c h = Some key
           /\ ((exists e,
                  run_call env k (c, h) = (Throw e, (set_credential c key, (h ++ pe)%list)))
               \/ exists r,
                    run_call env k (c, h)
                    = (axios env (h ++ pe) r,
                       (set_credential c key,
                        (h ++ pe ++ [EvHttp r (axios env (h ++ pe) r)])%list))
                    /\ is_key_issuance (baseUrl c) r = false
                    /\ req_config r = Some (config (set_credential c key)))).

(** The methods whose request does not depend on which arguments are present:
    HTTP method, path under the base URL, body. *)
Definition fixed_endpoint (k : call) : option (http_method * string * option jsval) :=
  match k with
  | Call_getDepositInfo txId => Some (GET, "/deposits/" ++ ToString txId, None)
  | Call_getRefundInfo txId => Some (GET, "/refunds/" ++ ToString txId, None)
  | Call_requestWithdraw payload => Some (POST, "/withdraws", Some payload)
  | Call_getWithdrawInfo txId => Some (GET, "/withdraws/" ++ ToString txId, None)
  | Call_getOrderbooks => Some (GET, "/orderbooks", None)
  | Call_getOrderbookInfo p => Some (GET, "/orderbooks/" ++ ToString p, None)
  | Call_getOrderbookDepth p => Some (GET, "/orderbooks/" ++ ToString p ++ "/depth", None)
  | Call_getOrderbookQuote p => Some (GET, "/orderbooks/" ++ ToString p ++ "/quote", None)
  | Call_getExchangeStatus => Some (GET, "/status", None)
  | Call_getSymbols => Some (GET, "/symbols", None)
  | Call_getSymbolsInfo name => Some (GET, "/symbols/" ++ ToString name, None)
  | Call_submitLimitOrder payload => Some (POST, "/orders/", Some payload)
  | Call_getOrderInfo orderId => Some (GET, "/orders/" ++ ToString orderId, None)
  | Call_cancelOrder orderId => Some (DELETE, "/orders/" ++ ToString orderId, None)
  | Call_getTradeInfo tradeId => Some (GET, "/trades/" ++ ToString tradeId, None)
  | _ => None
  end.

(** The two times of a listing call all of whose filters are present. *)
Definition listing_times (k : call) : option (jsval * jsval) :=
  match k with
  | Call_getDeposits a b s | Call_getRefunds a b s =>
      if truthy a && truthy b && truthy s then Some (a, b) else None
  | Call_getWithdraws st a b s | Call_getOrders st a b s =>
      if truthy st && truthy a && truthy b && truthy s then Some (a, b) else None
  | Call_getTrades a b p o =>
      if truthy a && truthy b && truthy p && truthy o then Some (a, b) else None
  | _ => None
  end.

(** What the URL template throws: the end time is converted first. *)
Definition conversion_error (env : Env) (startTime endTime : jsval) : option error :=
  match convertToISO8601 env endTime with
  | Throw e => Some e
  | Ok _ =>
      match convertToISO8601 env startTime with
      | Throw e => Some e
      | Ok _ => None
      end
  end.

(** A string of exactly [k] decimal digits. *)
Fixpoint digits (k : nat) (s : string) : bool :=
  match k, s with
  | O, EmptyString => true
  | S k', String c r => is_digit c && digits k' r
  | _, _ => false
  end.

(** A transport that is down. *)
Definition failing_transport (r : request) : result jsval :=
  Throw (TransportError (JObj [("status", JNum 503)])).

Definition host_down : Env := host 0 failing_transport.

(** *** More proof automation *)

(** A method that is the credential check and then one fixed request [req]:
    [checked] gives its own requests, [prefix] tells its URL from that of the
    key issuance. *)
Ltac fixed_authenticated checked prefix env c h req :=
  lazymatch goal with
  | |- context [bind (ensureApiKey env) (fun _ => ?b)] =>
      let evs := fresh "evs" in
      let E := fresh "E" in
      let Hb := fresh "Hb" in
      let O := fresh "O" in
      let T := fresh "T" in
      let I := fresh "I" in
      destruct (checked env b req c h
                  ltac:(let c1 := fresh "c" in
                        let h1 := fresh "h" in
                        let B := fresh "B" in
                        intros c1 h1 B; run_body; split; [reflexivity|];
                        unfold is_key_issuance; cbn [req_method req_url]; try reflexivity;
                        rewrite B, prefix; reflexivity))
        as (evs & E & Hb & O);
      exists evs; split; [exact E|];
      rewrite Hb in O; destruct O as [O|(O & T & I)]; [left; exact O|right; auto]
  end.

(** The cases of a listing method's URL, [Hb] relating the base URLs. *)
Ltac listing_cases env Hb :=
  run_body;
  match goal with
  | |- context [if ?b then _ else _] => destruct b
  end;
  [ destruct (convertToISO8601 env _) as [?e|]; [|left; eexists; reflexivity];
    destruct (convertToISO8601 env _) as [?s|]; [|left; eexists; reflexivity];
    right; eexists; split; [reflexivity|]; split; [reflexivity|];
    split; [reflexivity|]; do 2 eexists; rewrite Hb; repeat split
  | right; eexists; split; [reflexivity|]; split; [reflexivity|];
    split; [reflexivity|]; cbn; now rewrite Hb ].

(** Opens [digits k s = true] into the characters of [s]. *)
Ltac open_digits :=
  repeat match goal with
         | H : digits (S ?k) ?s = true |- _ =>
             let c := fresh "c" in
             let r := fresh "r" in
             let D := fresh "D" in
             destruct s as [|c r]; [discriminate H|];
             change (is_digit c && digits k r = true) in H;
             apply andb_true_iff in H; destruct H as [D H]
         | H : digits O ?s = true |- _ => destruct s; [clear H|discriminate H]
         end.

(** Adds, for every character known to be a digit, the fact [not_dash] gives. *)
Ltac digit_facts not_dash :=
  repeat match goal with
         | H : is_digit ?c = true |- _ =>
             lazymatch goal with
             | _ : Ascii.eqb c "-" = false |- _ => fail
             | _ => pose proof (not_dash c H)
             end
         end.

Ltac rewrite_digits :=
  repeat match goal with
         | H : is_digit ?c = true |- _ => rewrite !H
         | H : Ascii.eqb ?c "-" = false |- _ => rewrite !H
         end.

(** The search for a match, position by position. *)
Ltac search_match :=
  cbn [append replace_first]; unfold match_here, group1, group2;
  cbn [match_prefix cls_matches]; rewrite_digits.

(* ================================================================== *)
(** * Theorems *)
(* ================================================================== *)

(** ** The built-ins on known values *)

Example iso_string_2024 : iso_string 1704164645000 = "2024-01-02T03:04:05.000Z".
Proof. reflexivity. Qed.

Example iso_string_epoch : iso_string 0 = "1970-01-01T00:00:00.000Z".
Proof. reflexivity. Qed.

Example iso_string_before_epoch : iso_string (-1) = "1969-12-31T23:59:59.999Z".
Proof. reflexivity. Qed.

Example iso_string_year_10000 : iso_string 253402300800000 = "+010000-01-01T00:00:00.000Z".
Proof. reflexivity. Qed.

Example Date_parse_utc :
  Date_parse (fun _ => 0) (fun _ => None) "2024-01-02T03:04:05" = Some 1704164645000.
Proof. reflexivity. Qed.

Example Date_parse_date_only :
  Date_parse (fun _ => 28800000) (fun _ => None) "2024-01-02" = Some 1704153600000.
Proof. reflexivity. Qed.

Example JSON_stringify_nonce :
  JSON_stringify (JObj [("nonce", JStr "1700000000000")])
  = Some (String "{" (String dquote ("nonce" ++ String dquote (":" ++ String dquote
           ("1700000000000" ++ String dquote "}"))))).
Proof. reflexivity. Qed.

Example replace_first_pattern :
  replace_first "2024-01-02-03:04:05" = "2024-01-02T03:04:05".
Proof. reflexivity. Qed.

Example replace_first_inside :
  replace_first "from 2024-01-02-03:04:05 on" = "from 2024-01-02T03:04:05 on".
Proof. reflexivity. Qed.

Example replace_first_no_match :
  replace_first "2024-01-02 03:04:05" = "2024-01-02 03:04:05".
Proof. reflexivity. Qed.

Example constructor_without_key :
  constructor host_utc (JStr sample_key) JUndefined = Ok fresh_client.
Proof. reflexivity. Qed.

Example constructor_with_key :
  constructor host_utc (JStr sample_key) (JStr "X") = Ok keyed_client.
Proof. reflexivity. Qed.

(** ** Decimal digits *)

Lemma digit_val_char d : 0 <= d <= 9 -> digit_val (digit_char d) = Some d.
Proof. intros H. each_digit d H; reflexivity. Qed.

Lemma is_digit_char d : 0 <= d <= 9 -> is_digit (digit_char d) = true.
Proof. intros H. unfold is_digit. now rewrite digit_val_char. Qed.

Lemma digit_char_not_sign d :
  0 <= d <= 9 ->
  Ascii.eqb (digit_char d) "+" = false /\ Ascii.eqb (digit_char d) "-" = false.
Proof. intros H. each_digit d H; split; reflexivity. Qed.

Lemma digit_val_range c d : digit_val c = Some d -> 0 <= d <= 9.
Proof.
  unfold digit_val. intros H.
  destruct ((48 <=? Z.of_N (N_of_ascii c)) && (Z.of_N (N_of_ascii c) <=? 57)) eqn:E;
    [|discriminate].
  injection H as <-. apply andb_true_iff in E. lia.
Qed.

Lemma digit_char_val c d : digit_val c = Some d -> digit_char d = c.
Proof.
  unfold digit_val, digit_char. intros H.
  destruct ((48 <=? Z.of_N (N_of_ascii c)) && (Z.of_N (N_of_ascii c) <=? 57)) eqn:E;
    [|discriminate].
  injection H as <-.
  replace (48 + (Z.of_N (N_of_ascii c) - 48)) with (Z.of_N (N_of_ascii c)) by lia.
  rewrite N2Z.id. apply ascii_N_embedding.
Qed.

Lemma pow10_pos k : 0 < 10 ^ Z.of_nat k.
Proof. apply Z.pow_pos_nonneg; lia. Qed.

Lemma leading_digit n k :
  0 <= n < 10 * 10 ^ Z.of_nat k -> 0 <= n / 10 ^ Z.of_nat k <= 9.
Proof.
  intros H. pose proof (pow10_pos k) as P. split.
  - apply Z.div_pos; lia.
  - apply Z.lt_succ_r. apply Z.div_lt_upper_bound; lia.
Qed.

(** Reading back what [pad] wrote. *)
Lemma take_digits_pad k : forall n acc rest,
  0 <= n < 10 ^ Z.of_nat k ->
  take_digits k acc (pad k n ++ rest) = Some (acc * 10 ^ Z.of_nat k + n, rest).
Proof.
  induction k as [|k IH]; intros n acc rest H.
  - simpl in *. f_equal. f_equal. lia.
  - rewrite Nat2Z.inj_succ, Z.pow_succ_r in * by lia.
    cbn [pad take_digits append].
    pose proof (pow10_pos k) as P.
    rewrite digit_val_char by now apply leading_digit.
    rewrite IH by (apply Z.mod_pos_bound; lia).
    f_equal. f_equal.
    pose proof (Z.div_mod n (10 ^ Z.of_nat k)) as Q. nia.
Qed.

(** Whatever [take_digits] accepts was written by [pad]. *)
Lemma take_digits_inv k : forall acc s v r,
  take_digits k acc s = Some (v, r) ->
  exists n, 0 <= n < 10 ^ Z.of_nat k /\ v = acc * 10 ^ Z.of_nat k + n /\ s = pad k n ++ r.
Proof.
  induction k as [|k IH]; intros acc s v r H.
  - injection H as <- <-. exists 0. simpl. repeat split; lia.
  - cbn [take_digits] in H. destruct s as [|c s]; [discriminate|].
    destruct (digit_val c) as [dv|] eqn:E; [|discriminate].
    apply IH in H. destruct H as (n & Hn & -> & ->).
    pose proof (digit_val_range _ _ E) as R. pose proof (pow10_pos k) as P.
    exists (dv * 10 ^ Z.of_nat k + n).
    rewrite Nat2Z.inj_succ, Z.pow_succ_r by lia.
    split; [nia|]. split; [nia|].
    cbn [pad append].
    replace ((dv * 10 ^ Z.of_nat k + n) / 10 ^ Z.of_nat k) with dv
      by (apply Z.div_unique with n; lia).
    replace ((dv * 10 ^ Z.of_nat k + n) mod 10 ^ Z.of_nat k) with n
      by (apply Z.mod_unique with dv; lia).
    now rewrite (digit_char_val _ _ E).
Qed.

Lemma take2 v rest : 0 <= v < 100 -> take_digits 2 0 (pad 2 v ++ rest) = Some (v, rest).
Proof.
  intros H. rewrite take_digits_pad by (change (10 ^ Z.of_nat 2) with 100; lia).
  now rewrite Z.mul_0_l, Z.add_0_l.
Qed.

Lemma field_inv k sep s v r :
  field k sep s = Some (v, r) ->
  0 <= v < 10 ^ Z.of_nat k /\ s = pad k v ++ String sep r.
Proof.
  unfold field. intros H.
  destruct (take_digits k 0 s) as [[v' [|x r']]|] eqn:T; try discriminate.
  destruct (Ascii.eqb_spec x sep); [|discriminate].
  injection H as <- <-. subst x.
  apply take_digits_inv in T. destruct T as (n & Hn & -> & ->).
  rewrite Z.mul_0_l, Z.add_0_l. now split.
Qed.

(** ** The calendar *)

Lemma DayFromYear_succ y : DayFromYear (y + 1) = DayFromYear y + DaysInYear y.
Proof.
  unfold DayFromYear, DaysInYear, isLeap.
  replace (y + 1 - 1970) with (y - 1969) by lia.
  replace (y + 1 - 1969) with (y - 1968) by lia.
  replace (y + 1 - 1901) with (y - 1900) by lia.
  replace (y + 1 - 1601) with (y - 1600) by lia.
  destruct (Z.eqb_spec (y mod 4) 0);
    [destruct (Z.eqb_spec (y mod 100) 0); [destruct (Z.eqb_spec (y mod 400) 0)|]|]; zdiv.
Qed.

Lemma DayFromYear_mono y y' : y <= y' -> DayFromYear y <= DayFromYear y'.
Proof. unfold DayFromYear. intros H. zdiv. Qed.

(** [YearFromDay] is the year the standard defines: the one whose first day is
    the last first-day not after [d]. *)
Lemma YearFromDay_spec d :
  DayFromYear (YearFromDay d) <= d < DayFromYear (YearFromDay d + 1).
Proof.
  unfold YearFromDay.
  set (y := 1970 + (400 * d) / 146097).
  destruct (Z.ltb_spec d (DayFromYear y)).
  - replace (y - 1 + 1) with y by lia. split; [|lia].
    unfold DayFromYear in *. subst y. zdiv.
  - destruct (Z.leb_spec (DayFromYear (y + 1)) d); [|lia].
    split; [lia|]. unfold DayFromYear in *. subst y. zdiv.
Qed.

Lemma YearFromDay_unique d y :
  DayFromYear y <= d < DayFromYear (y + 1) -> YearFromDay d = y.
Proof.
  intros H. pose proof (YearFromDay_spec d) as S.
  destruct (Z.lt_trichotomy (YearFromDay d) y) as [L | [E | G]]; [|exact E|].
  - pose proof (DayFromYear_mono (YearFromDay d + 1) y). lia.
  - pose proof (DayFromYear_mono (y + 1) (YearFromDay d)). lia.
Qed.

(** The year of a time value as the standard words it: the largest [y] with
    [TimeFromYear y <= t]. *)
Lemma YearFromTime_spec t :
  TimeFromYear (YearFromTime t) <= t < TimeFromYear (YearFromTime t + 1)
  /\ forall y, TimeFromYear y <= t -> y <= YearFromTime t.
Proof.
  unfold TimeFromYear, YearFromTime.
  pose proof (YearFromDay_spec (Day t)) as S. unfold Day, msPerDay in *.
  split; [zdiv|]. intros y H.
  destruct (Z.le_gt_cases y (YearFromDay (t / 86400000))) as [|G]; [assumption|].
  pose proof (DayFromYear_mono (YearFromDay (t / 86400000) + 1) y ltac:(lia)). zdiv.
Qed.

Lemma MakeDay_in_year y mo d :
  1 <= mo <= 12 -> 1 <= d <= DaysInMonth y mo ->
  MakeDay y (mo - 1) d
  = DayFromYear y + daysBeforeMonth (mo - 1) (if isLeap y then 1 else 0) + d - 1
  /\ 0 <= daysBeforeMonth (mo - 1) (if isLeap y then 1 else 0) + d - 1 < DaysInYear y.
Proof.
  intros Hm Hd. unfold MakeDay.
  replace ((mo - 1) / 12) with 0 by zdiv.
  replace ((mo - 1) mod 12) with (mo - 1) by zdiv.
  rewrite Z.add_0_r. split; [reflexivity|].
  each_month mo Hm; month_numeral; destruct (isLeap y); lia.
Qed.

Lemma Day_MakeDate day time : 0 <= time < msPerDay -> Day (MakeDate day time) = day.
Proof. unfold Day, MakeDate, msPerDay. intros H. zdiv. Qed.

(** The fields of a time value built from a real date and time of day are the
    ones it was built from. *)
Section Roundtrip.

Variables y mo d h mi s ms : Z.
Hypothesis Hmo : 1 <= mo <= 12.
Hypothesis Hd : 1 <= d <= DaysInMonth y mo.
Hypothesis Ht : 0 <= h <= 23 /\ 0 <= mi <= 59 /\ 0 <= s <= 59 /\ 0 <= ms <= 999.

Let t : Z := MakeDate (MakeDay y (mo - 1) d) (MakeTime h mi s ms).

Lemma MakeTime_range : 0 <= MakeTime h mi s ms < msPerDay.
Proof. unfold MakeTime, msPerDay, msPerHour, msPerMinute, msPerSecond. lia. Qed.

Lemma Day_t : Day t = MakeDay y (mo - 1) d.
Proof. apply Day_MakeDate, MakeTime_range. Qed.

Lemma YearFromTime_t : YearFromTime t = y.
Proof.
  unfold YearFromTime. rewrite Day_t. apply YearFromDay_unique.
  destruct (MakeDay_in_year y mo d Hmo Hd) as [E R]. rewrite E, DayFromYear_succ. lia.
Qed.

Lemma DayWithinYear_t :
  DayWithinYear t = daysBeforeMonth (mo - 1) (if isLeap y then 1 else 0) + d - 1.
Proof.
  unfold DayWithinYear. rewrite YearFromTime_t, Day_t.
  destruct (MakeDay_in_year y mo d Hmo Hd) as [E R]. lia.
Qed.

Lemma MonthFromTime_t : MonthFromTime t = mo - 1.
Proof.
  unfold MonthFromTime, InLeapYear. rewrite DayWithinYear_t, YearFromTime_t.
  clear t. each_month mo Hmo; month_numeral; destruct (isLeap y);
    repeat match goal with
           | |- context [?a <? ?b] => destruct (Z.ltb_spec a b); try lia
           end.
Qed.

Lemma DateFromTime_t : DateFromTime t = d.
Proof.
  unfold DateFromTime. rewrite MonthFromTime_t, DayWithinYear_t.
  unfold InLeapYear. rewrite YearFromTime_t. lia.
Qed.

Lemma HourFromTime_t : HourFromTime t = h.
Proof.
  unfold HourFromTime, t, MakeDate, MakeTime, msPerDay, msPerHour, msPerMinute, msPerSecond.
  zdiv.
Qed.

Lemma MinFromTime_t : MinFromTime t = mi.
Proof.
  unfold MinFromTime, t, MakeDate, MakeTime, msPerDay, msPerHour, msPerMinute, msPerSecond.
  zdiv.
Qed.

Lemma SecFromTime_t : SecFromTime t = s.
Proof.
  unfold SecFromTime, t, MakeDate, MakeTime, msPerDay, msPerHour, msPerMinute, msPerSecond.
  zdiv.
Qed.

Lemma msFromTime_t : msFromTime t = ms.
Proof.
  unfold msFromTime, t, MakeDate, MakeTime, msPerDay, msPerHour, msPerMinute, msPerSecond.
  zdiv.
Qed.

(** A four-digit year lies well inside the range of time values. *)
Lemma TimeClip_t : 0 <= y <= 9999 -> TimeClip t = Some t.
Proof.
  intros Hy. unfold TimeClip.
  destruct (Z.leb_spec (Z.abs t) 8640000000000000) as [|F]; [reflexivity|exfalso].
  pose proof MakeTime_range as R.
  destruct (MakeDay_in_year y mo d Hmo Hd) as [E B].
  pose proof (DayFromYear_mono 0 y ltac:(lia)) as L.
  pose proof (DayFromYear_mono y 9999 ltac:(lia)) as U.
  change (DayFromYear 0) with (-719528) in L.
  change (DayFromYear 9999) with 2932532 in U.
  unfold t, MakeDate in F. rewrite E in F. unfold msPerDay, DaysInYear in *.
  destruct (isLeap y); lia.
Qed.

End Roundtrip.

(** ** The rewrite and the parser on a string in the pattern *)

Lemma append_assoc (a b c : string) : (a ++ b) ++ c = a ++ b ++ c.
Proof. induction a; cbn; congruence. Qed.

Lemma append_nil_r (a : string) : a ++ "" = a.
Proof. induction a; cbn; congruence. Qed.

Lemma match_prefix_digits k : forall n p rest,
  0 <= n < 10 ^ Z.of_nat k ->
  match_prefix (repeat D k ++ p)%list (pad k n ++ rest)
  = match match_prefix p rest with
    | Some (m, r) => Some (pad k n ++ m, r)
    | None => None
    end.
Proof.
  induction k as [|k IH]; intros n p rest H.
  - cbn. now destruct (match_prefix p rest) as [[m r]|].
  - rewrite Nat2Z.inj_succ, Z.pow_succ_r in H by lia. pose proof (pow10_pos k) as P.
    cbn [repeat app pad append match_prefix cls_matches].
    rewrite is_digit_char by now apply leading_digit.
    rewrite IH by (apply Z.mod_pos_bound; lia).
    now destruct (match_prefix p rest) as [[m r]|].
Qed.

Lemma match_prefix_lit c p rest :
  match_prefix (L c :: p) (String c rest)
  = match match_prefix p rest with
    | Some (m, r) => Some (String c m, r)
    | None => None
    end.
Proof. cbn [match_prefix cls_matches]. now rewrite Ascii.eqb_refl. Qed.

Section PatternText.

Variables y mo d h mi s : Z.
Hypothesis Hy : 0 <= y < 10000.
Hypothesis Hmo : 0 <= mo < 100.
Hypothesis Hd : 0 <= d < 100.
Hypothesis Hh : 0 <= h < 100.
Hypothesis Hmi : 0 <= mi < 100.
Hypothesis Hs : 0 <= s < 100.

Lemma match_group1 rest :
  match_prefix group1 (date_text y mo d ++ rest) = Some (date_text y mo d, rest).
Proof.
  unfold date_text. rewrite !append_assoc.
  change group1 with (repeat D 4 ++ L "-" :: repeat D 2 ++ L "-" :: repeat D 2 ++ [])%list.
  rewrite match_prefix_digits by (change (10 ^ Z.of_nat 4) with 10000; lia).
  cbn [append]. rewrite match_prefix_lit.
  rewrite match_prefix_digits by two_digits.
  cbn [append]. rewrite match_prefix_lit.
  rewrite match_prefix_digits by two_digits.
  cbn [match_prefix]. now rewrite append_nil_r.
Qed.

Lemma match_group2 rest :
  match_prefix group2 (time_text h mi s ++ rest) = Some (time_text h mi s, rest).
Proof.
  unfold time_text. rewrite !append_assoc.
  change group2 with (repeat D 2 ++ L ":" :: repeat D 2 ++ L ":" :: repeat D 2 ++ [])%list.
  rewrite match_prefix_digits by two_digits.
  cbn [append]. rewrite match_prefix_lit.
  rewrite match_prefix_digits by two_digits.
  cbn [append]. rewrite match_prefix_lit.
  rewrite match_prefix_digits by two_digits.
  cbn [match_prefix]. now rewrite append_nil_r.
Qed.

(** The expression matches at the first character, so nothing before the
    match is kept and the dash between date and time becomes a T. *)
Lemma replace_first_pattern_text :
  replace_first (date_text y mo d ++ "-" ++ time_text h mi s)
  = date_text y mo d ++ "T" ++ time_text h mi s.
Proof.
  assert (match_here (date_text y mo d ++ "-" ++ time_text h mi s)
          = Some (date_text y mo d, time_text h mi s, "")) as E.
  { unfold match_here. rewrite match_group1. cbn [append].
    rewrite <- (append_nil_r (time_text h mi s)) at 1. now rewrite match_group2. }
  destruct (date_text y mo d ++ "-" ++ time_text h mi s) eqn:S;
    cbn [replace_first]; rewrite E; now rewrite append_nil_r.
Qed.

Lemma parse_year_pad rest : parse_year (pad 4 y ++ rest) = Some (y, rest).
Proof.
  pose proof (take_digits_pad 4 y 0 rest) as T.
  change (10 ^ Z.of_nat 4) with 10000 in T. specialize (T Hy).
  rewrite Z.mul_0_l, Z.add_0_l in T.
  unfold parse_year. cbn [pad append] in T |- *.
  destruct (digit_char_not_sign (y / 10 ^ Z.of_nat 3)) as [E1 E2].
  { change (10 ^ Z.of_nat 3) with 1000. zdiv. }
  now rewrite E1, E2.
Qed.

(** The rewritten string is an instance of the date-time form without offset:
    a local time. *)
Lemma parse_fields_date_time :
  parse_fields (date_text y mo d ++ "T" ++ time_text h mi s)
  = Some (mkFields y mo d h mi s 0 None).
Proof.
  unfold parse_fields, date_text, time_text. rewrite !append_assoc.
  rewrite parse_year_pad.
  unfold parse_month_day. cbn [append].
  rewrite take2 by assumption. rewrite take2 by assumption.
  rewrite take2 by assumption. rewrite take2 by assumption.
  unfold parse_seconds. rewrite <- (append_nil_r (pad 2 s)). rewrite take2 by assumption.
  reflexivity.
Qed.

End PatternText.

(** A string in the pattern is the text of its six numbers. *)
Lemma pattern_fields_inv s y mo d h mi sec :
  pattern_fields s = Some (y, mo, d, h, mi, sec) ->
  s = date_text y mo d ++ "-" ++ time_text h mi sec
  /\ 0 <= y < 10000 /\ 0 <= mo < 100 /\ 0 <= d < 100
  /\ 0 <= h < 100 /\ 0 <= mi < 100 /\ 0 <= sec < 100.
Proof.
  unfold pattern_fields. intros H.
  destruct (field 4 "-" s) as [[y' r1]|] eqn:F1; [|discriminate].
  destruct (field 2 "-" r1) as [[mo' r2]|] eqn:F2; [|discriminate].
  destruct (field 2 "-" r2) as [[d' r3]|] eqn:F3; [|discriminate].
  destruct (field 2 ":" r3) as [[h' r4]|] eqn:F4; [|discriminate].
  destruct (field 2 ":" r4) as [[mi' r5]|] eqn:F5; [|discriminate].
  destruct (take_digits 2 0 r5) as [[sec' [|? ?]]|] eqn:F6; try discriminate.
  injection H as <- <- <- <- <- <-.
  apply field_inv in F1, F2, F3, F4, F5. apply take_digits_inv in F6.
  destruct F1 as [R1 ->], F2 as [R2 ->], F3 as [R3 ->], F4 as [R4 ->], F5 as [R5 ->].
  destruct F6 as (n & R6 & -> & ->).
  change (10 ^ Z.of_nat 4) with 10000 in R1. change (10 ^ Z.of_nat 2) with 100 in *.
  rewrite Z.mul_0_l, Z.add_0_l.
  split; [|lia].
  unfold date_text, time_text. rewrite !append_assoc. cbn [append].
  now rewrite append_nil_r.
Qed.

Lemma pattern_fields_text y mo d h mi sec :
  0 <= y < 10000 -> 0 <= mo < 100 -> 0 <= d < 100 ->
  0 <= h < 100 -> 0 <= mi < 100 -> 0 <= sec < 100 ->
  pattern_fields (date_text y mo d ++ "-" ++ time_text h mi sec)
  = Some (y, mo, d, h, mi, sec).
Proof.
  intros Hy Hmo Hd Hh Hmi Hs.
  unfold pattern_fields, field, date_text, time_text. rewrite !append_assoc.
  rewrite take_digits_pad by (change (10 ^ Z.of_nat 4) with 10000; lia).
  cbn [append Ascii.eqb Bool.eqb].
  rewrite take2 by assumption. cbn [Ascii.eqb Bool.eqb].
  rewrite take2 by assumption. cbn [Ascii.eqb Bool.eqb].
  rewrite take2 by assumption. cbn [Ascii.eqb Bool.eqb].
  rewrite take2 by assumption. cbn [Ascii.eqb Bool.eqb].
  rewrite <- (append_nil_r (pad 2 sec)). rewrite take2 by assumption.
  now rewrite Z.mul_0_l, Z.add_0_l.
Qed.

(** ** [convertToISO8601] *)

Lemma real_date_range y mo d :
  real_date y mo d = true -> 1 <= mo <= 12 /\ 1 <= d <= DaysInMonth y mo.
Proof. unfold real_date. rewrite !andb_true_iff, !Z.leb_le. lia. Qed.

Lemma real_time_range h mi sec :
  real_time h mi sec = true -> h <= 23 /\ mi <= 59 /\ sec <= 59.
Proof. unfold real_time. rewrite !andb_true_iff, !Z.leb_le. lia. Qed.

Lemma fields_ok_real y mo d h mi sec :
  fields_ok (mkFields y mo d h mi sec 0 None)
  = real_date y mo d && (real_time h mi sec || ((h =? 24) && (mi =? 0) && (sec =? 0))).
Proof.
  unfold fields_ok, real_date, real_time. cbn [f_year f_month f_day f_hour f_minute f_second f_ms].
  change (0 =? 0) with true. rewrite andb_true_r.
  destruct (1 <=? mo), (mo <=? 12), (1 <=? d), (d <=? DaysInMonth y mo); cbn; try reflexivity.
  destruct (Z.leb_spec mi 59), (Z.leb_spec sec 59), (Z.leb_spec h 23),
    (Z.eqb_spec h 24), (Z.eqb_spec mi 0), (Z.eqb_spec sec 0); cbn; try reflexivity; lia.
Qed.

Lemma iso_string_fields y mo d h mi sec :
  0 <= y <= 9999 -> 1 <= mo <= 12 -> 1 <= d <= DaysInMonth y mo ->
  0 <= h <= 23 /\ 0 <= mi <= 59 /\ 0 <= sec <= 59 /\ 0 <= 0 <= 999 ->
  iso_string (local_time y mo d h mi sec) = iso_text y mo d h mi sec 0.
Proof.
  intros Hy Hmo Hd Ht. unfold iso_string, local_time.
  rewrite YearFromTime_t, MonthFromTime_t, DateFromTime_t, HourFromTime_t,
    MinFromTime_t, SecFromTime_t, msFromTime_t by assumption.
  unfold year_string.
  replace ((0 <=? y) && (y <=? 9999)) with true
    by (symmetry; apply andb_true_iff; rewrite !Z.leb_le; lia).
  replace (mo - 1 + 1) with mo by lia.
  unfold iso_text, date_text, time_text. now rewrite !append_assoc.
Qed.

Lemma TimeClip_some x t : TimeClip x = Some t -> TimeClip t = Some t.
Proof.
  unfold TimeClip. destruct (Z.abs x <=? 8640000000000000) eqn:E; [|discriminate].
  intros [= <-]. now rewrite E.
Qed.

Lemma Date_parse_clipped tz fb s t : Date_parse tz fb s = Some t -> TimeClip t = Some t.
Proof.
  unfold Date_parse, fallback. intros H.
  destruct (parse_fields s) as [f|];
    [destruct (fields_ok f); [destruct (f_offset f)|]|];
    try (destruct (fb s); [|discriminate]); eapply TimeClip_some; exact H.
Qed.

(** What the conversion computes on a string in the pattern: the rewritten
    string read by [Date]. *)
Lemma convertToISO8601_pattern_text env s y mo d h mi sec :
  pattern_fields s = Some (y, mo, d, h, mi, sec) ->
  convertToISO8601 env (JStr s)
  = match (if real_date y mo d
              && (real_time h mi sec || ((h =? 24) && (mi =? 0) && (sec =? 0)))
           then TimeClip (UTC (LocalTZA env) (MakeDate (MakeDay y (mo - 1) d) (MakeTime h mi sec 0)))
           else fallback (Date_parse_fallback env) (date_text y mo d ++ "T" ++ time_text h mi sec))
    with
    | Some u => Ok (iso_string u)
    | None => Throw RangeError
    end.
Proof.
  intros H. apply pattern_fields_inv in H.
  destruct H as (-> & Hy & Hmo & Hd & Hh & Hmi & Hs).
  unfold convertToISO8601. rewrite replace_first_pattern_text by assumption.
  unfold Date_parse. rewrite parse_fields_date_time by assumption.
  rewrite fields_ok_real. reflexivity.
Qed.

(** C3 (amended): a string in the pattern YYYY-MM-DD-HH:MM:SS that names a real
    calendar date and a time of day up to 23:59:59 is read as local time of the
    host and rendered in UTC: the result is the ISO-8601 string of the local
    time value minus the host's offset at it; where that offset is zero, the
    result is YYYY-MM-DDTHH:MM:SS.000Z with the input's own fields. *)
Theorem convertToISO8601_real_date env s y mo d h mi sec :
  pattern_fields s = Some (y, mo, d, h, mi, sec) ->
  real_date y mo d = true ->
  real_time h mi sec = true ->
  convertToISO8601 env (JStr s)
  = match TimeClip (local_time y mo d h mi sec - LocalTZA env (local_time y mo d h mi sec)) with
    | Some u => Ok (iso_string u)
    | None => Throw RangeError
    end
  /\ (LocalTZA env (local_time y mo d h mi sec) = 0 ->
      convertToISO8601 env (JStr s) = Ok (iso_text y mo d h mi sec 0)).
Proof.
  intros H Hdate Htime.
  rewrite (convertToISO8601_pattern_text env s y mo d h mi sec H).
  rewrite Hdate, Htime. cbn [andb orb]. unfold UTC. fold (local_time y mo d h mi sec).
  split; [reflexivity|]. intros Z0. rewrite Z0, Z.sub_0_r.
  apply pattern_fields_inv in H. destruct H as (_ & Hy & Hmo & Hd & Hh & Hmi & Hs).
  apply real_date_range in Hdate. destruct Hdate as [Rmo Rd].
  apply real_time_range in Htime.
  unfold local_time at 1.
  rewrite TimeClip_t by lia.
  fold (local_time y mo d h mi sec). now rewrite iso_string_fields by lia.
Qed.

(** On a host in UTC the example of the spec holds. *)
Lemma convertToISO8601_real_date_witness :
  convertToISO8601 host_utc (JStr "2024-01-02-03:04:05") = Ok "2024-01-02T03:04:05.000Z".
Proof.
  exact (proj2 (convertToISO8601_real_date host_utc "2024-01-02-03:04:05" 2024 1 2 3 4 5
                  eq_refl eq_refl eq_refl) eq_refl).
Defined.

(** C3 as stated fails: eight hours east of UTC the fields of the result are
    not those of the input, and a time of day 24:00:00 moves the date. *)
Lemma convertToISO8601_not_same_fields :
  convertToISO8601 host_utc8 (JStr "2024-01-02-03:04:05") = Ok "2024-01-01T19:04:05.000Z"
  /\ pattern_fields "2024-01-02-24:00:00" = Some (2024, 1, 2, 24, 0, 0)
  /\ real_date 2024 1 2 = true
  /\ convertToISO8601 host_utc (JStr "2024-01-02-24:00:00") = Ok "2024-01-03T00:00:00.000Z".
Proof. repeat split; reflexivity. Qed.

(** A time in the pattern is converted: it is truthy, and the result renders
    the instant it denotes. *)
Lemma convertToISO8601_pattern_time env s u :
  pattern_time env s u ->
  truthy (JStr s) = true /\ convertToISO8601 env (JStr s) = Ok (iso_string u).
Proof.
  intros (y & mo & d & h & mi & sec & H & Hdate & Htime & Hoff & ->). split.
  { destruct s; [discriminate H|reflexivity]. }
  rewrite (convertToISO8601_pattern_text env s y mo d h mi sec H).
  rewrite Hdate, Htime. cbn [andb orb]. unfold UTC. fold (local_time y mo d h mi sec).
  apply pattern_fields_inv in H. destruct H as (_ & Hy & _ & _ & Hh & Hmi & Hs).
  apply real_date_range in Hdate. destruct Hdate as [Rmo Rd].
  apply real_time_range in Htime.
  destruct (MakeDay_in_year y mo d Rmo Rd) as [E B].
  pose proof (DayFromYear_mono 0 y ltac:(lia)) as L.
  pose proof (DayFromYear_mono y 9999 ltac:(lia)) as U.
  change (DayFromYear 0) with (-719528) in L.
  change (DayFromYear 9999) with 2932532 in U.
  unfold TimeClip.
  destruct (Z.leb_spec
              (Z.abs (local_time y mo d h mi sec
                      - LocalTZA env (local_time y mo d h mi sec))) 8640000000000000)
    as [|F]; [reflexivity|exfalso].
  unfold local_time, MakeDate, MakeTime in F, Hoff. rewrite E in F, Hoff.
  unfold msPerDay, msPerHour, msPerMinute, msPerSecond, DaysInYear in *.
  destruct (isLeap y); lia.
Qed.

Lemma DaysInMonth_ge_28 y m : 28 <= DaysInMonth y m.
Proof.
  unfold DaysInMonth. destruct m as [|p|p]; try lia.
  do 4 (try destruct p as [p|p|]); try destruct (isLeap y); lia.
Qed.

(** A day past the end of its month is a day of the next month. *)
Lemma MakeDay_overflow y mo d :
  1 <= mo <= 11 -> MakeDay y (mo - 1) d = MakeDay y mo (d - DaysInMonth y mo).
Proof.
  intros Hmo. unfold MakeDay.
  replace ((mo - 1) / 12) with 0 by zdiv. replace ((mo - 1) mod 12) with (mo - 1) by zdiv.
  replace (mo / 12) with 0 by zdiv. replace (mo mod 12) with mo by zdiv.
  rewrite Z.add_0_r. each_month mo Hmo; try lia; month_numeral;
    destruct (isLeap y); lia.
Qed.

Lemma surplus_is_real y mo d :
  1 <= mo <= 11 -> DaysInMonth y mo < d <= 31 ->
  1 <= d - DaysInMonth y mo <= DaysInMonth y (mo + 1).
Proof.
  intros Hmo. each_month mo Hmo; try lia; cbn [Z.add Pos.add Pos.succ]; month_numeral;
    destruct (isLeap y); lia.
Qed.

(** What V8 does with the six fields of a rewritten string. *)
Lemma fields_ok_v8_date_time y mo d h mi sec :
  fields_ok_v8 (mkFields y mo d h mi sec 0 None)
  = day_up_to_31 mo d && (real_time h mi sec || end_of_day h mi sec).
Proof.
  unfold fields_ok_v8, day_up_to_31, real_time, end_of_day.
  cbn [f_year f_month f_day f_hour f_minute f_second f_ms].
  change (0 =? 0) with true. rewrite andb_true_r.
  destruct (1 <=? mo), (mo <=? 12), (1 <=? d), (d <=? 31); cbn; try reflexivity.
  destruct (Z.leb_spec mi 59), (Z.leb_spec sec 59), (Z.leb_spec h 23),
    (Z.eqb_spec h 24), (Z.eqb_spec mi 0), (Z.eqb_spec sec 0); cbn; try reflexivity; lia.
Qed.

Lemma real_date_up_to_31 y mo d : real_date y mo d = true -> day_up_to_31 mo d = true.
Proof.
  intros R. destruct (real_date_range _ _ _ R) as [Hmo Hd].
  assert (DaysInMonth y mo <= 31) as D.
  { unfold DaysInMonth. each_month mo Hmo; try destruct (isLeap y); lia. }
  unfold day_up_to_31. rewrite !andb_true_iff, !Z.leb_le. lia.
Qed.

(** The conversion of a string in the pattern on a host that parses like V8:
    only the number of the month, a day number up to 31 and the time of day
    are checked. *)
Lemma convertToISO8601_v8 env s y mo d h mi sec :
  parses_like_v8 env ->
  pattern_fields s = Some (y, mo, d, h, mi, sec) ->
  convertToISO8601 env (JStr s)
  = if day_up_to_31 mo d && (real_time h mi sec || end_of_day h mi sec)
    then match TimeClip (local_time y mo d h mi sec
                         - LocalTZA env (local_time y mo d h mi sec)) with
         | Some u => Ok (iso_string u)
         | None => Throw RangeError
         end
    else Throw RangeError.
Proof.
  intros V H. rewrite (convertToISO8601_pattern_text env s y mo d h mi sec H).
  apply pattern_fields_inv in H. destruct H as (_ & Hy & Hmo & Hd & Hh & Hmi & Hs).
  unfold fallback.
  rewrite (V _ _ (parse_fields_date_time y mo d h mi sec Hy Hmo Hd Hh Hmi Hs)).
  unfold Date_parse_v8.
  rewrite parse_fields_date_time by assumption. rewrite fields_ok_v8_date_time.
  unfold fields_time. cbn [f_year f_month f_day f_hour f_minute f_second f_ms f_offset].
  fold (local_time y mo d h mi sec). fold (end_of_day h mi sec). unfold UTC.
  destruct (real_time h mi sec || end_of_day h mi sec);
    [|rewrite !andb_false_r; reflexivity].
  rewrite !andb_true_r. destruct (real_date y mo d) eqn:R.
  - now rewrite (real_date_up_to_31 _ _ _ R).
  - now destruct (day_up_to_31 mo d).
Qed.

(** C4 (amended): the conversion never yields an invalid-date value, and it
    validates nothing itself.  Every string it returns is the ISO-8601
    rendering of a time value in range; a value that is not a string throws a
    TypeError; a string throws a RangeError exactly when [Date] rejects the
    rewritten string and is converted whenever [Date] can read it, in the
    pattern or not.  A string in the pattern that names no real calendar date
    or time of day (24:00:00 apart) is outside the standard format, so its
    fate is the host's: the result is whatever the host's [Date] makes of the
    rewritten string.  On a host that parses like V8 (Node) the string is
    rejected only for a month outside 1..12, a day outside 1..31 or a time of
    day out of range; a day up to 31 past the end of its month is converted,
    silently, to the day of the next month it runs into. *)
Theorem convertToISO8601_malformed env :
  (forall v r, convertToISO8601 env v = Ok r ->
     exists t, Z.abs t <= 8640000000000000 /\ r = iso_string t)
  /\ (forall v, (forall s, v <> JStr s) -> convertToISO8601 env v = Throw TypeError)
  /\ (forall s,
        convertToISO8601 env (JStr s)
        = match Date_parse (LocalTZA env) (Date_parse_fallback env) (replace_first s) with
          | Some t => Ok (iso_string t)
          | None => Throw RangeError
          end)
  /\ (forall s y mo d h mi sec,
        pattern_fields s = Some (y, mo, d, h, mi, sec) ->
        real_date y mo d && (real_time h mi sec || end_of_day h mi sec) = false ->
        convertToISO8601 env (JStr s)
        = match fallback (Date_parse_fallback env)
                  (date_text y mo d ++ "T" ++ time_text h mi sec) with
          | Some u => Ok (iso_string u)
          | None => Throw RangeError
          end)
  /\ (parses_like_v8 env ->
      forall s y mo d h mi sec,
        pattern_fields s = Some (y, mo, d, h, mi, sec) ->
        (day_up_to_31 mo d && (real_time h mi sec || end_of_day h mi sec) = false ->
         convertToISO8601 env (JStr s) = Throw RangeError)
        /\ (day_up_to_31 mo d && (real_time h mi sec || end_of_day h mi sec) = true ->
            convertToISO8601 env (JStr s)
            = match TimeClip (local_time y mo d h mi sec
                              - LocalTZA env (local_time y mo d h mi sec)) with
              | Some u => Ok (iso_string u)
              | None => Throw RangeError
              end)
        /\ (1 <= mo <= 11 -> DaysInMonth y mo < d <= 31 -> real_time h mi sec = true ->
            LocalTZA env (local_time y mo d h mi sec) = 0 ->
            real_date y mo d = false
            /\ convertToISO8601 env (JStr s)
               = Ok (iso_text y (mo + 1) (d - DaysInMonth y mo) h mi sec 0))).
Proof.
  split; [|split; [|split; [|split]]].
  - intros v r H. destruct v; try discriminate. cbn [convertToISO8601] in H.
    destruct (Date_parse _ _ _) as [t|] eqn:P; [|discriminate].
    injection H as <-. exists t. split; [|reflexivity].
    apply Date_parse_clipped in P. unfold TimeClip in P.
    destruct (Z.leb_spec (Z.abs t) 8640000000000000); [assumption|discriminate].
  - intros v N. destruct v; try reflexivity. exfalso. now apply (N s).
  - reflexivity.
  - intros s y mo d h mi sec H Hbad.
    rewrite (convertToISO8601_pattern_text env s y mo d h mi sec H).
    fold (end_of_day h mi sec). now rewrite Hbad.
  - intros V s y mo d h mi sec H.
    rewrite (convertToISO8601_v8 env s y mo d h mi sec V H).
    split; [now intros ->|]. split; [now intros ->|].
    intros Hmo Hd Ht Z0. split.
    + unfold real_date. destruct (Z.leb_spec d (DaysInMonth y mo)); [lia|].
      now rewrite andb_false_r.
    + pose proof (DaysInMonth_ge_28 y mo) as D28.
      replace (day_up_to_31 mo d) with true
        by (symmetry; unfold day_up_to_31; rewrite !andb_true_iff, !Z.leb_le; lia).
      rewrite Ht. cbn [andb orb]. rewrite Z0, Z.sub_0_r.
      apply pattern_fields_inv in H. destruct H as (_ & Hy & _ & Hd0 & Hh & Hmi & Hs).
      apply real_time_range in Ht.
      pose proof (surplus_is_real y mo d Hmo Hd) as S.
      assert (local_time y mo d h mi sec
              = local_time y (mo + 1) (d - DaysInMonth y mo) h mi sec) as E.
      { unfold local_time. rewrite (MakeDay_overflow y mo d Hmo).
        now replace (mo + 1 - 1) with mo by lia. }
      rewrite E. unfold local_time at 1. rewrite TimeClip_t by lia.
      fold (local_time y (mo + 1) (d - DaysInMonth y mo) h mi sec).
      now rewrite iso_string_fields by lia.
Qed.

(** The thirtieth of February on Node, in UTC: the first of March, and no
    error. *)
Lemma convertToISO8601_malformed_witness :
  real_date 2024 2 30 = false
  /\ convertToISO8601 host_utc (JStr "2024-02-30-03:04:05") = Ok "2024-03-01T03:04:05.000Z".
Proof.
  exact (proj2 (proj2 (proj2 (proj2 (proj2 (proj2 (convertToISO8601_malformed host_utc))))
                         (fun s f _ => eq_refl) "2024-02-30-03:04:05" 2024 2 30 3 4 5
                         eq_refl))
           ltac:(lia) ltac:(cbn; lia) eq_refl eq_refl).
Defined.

(** C4 as stated fails in both halves.  Strings that are not in the pattern,
    with a wrong separator or none at all, come back as well-formed
    timestamps; and a string in the pattern that names no real calendar date,
    the thirtieth of February or the thirty-first of April, comes back on Node
    as the timestamp of another day. *)
Lemma convertToISO8601_accepts_malformed :
  pattern_fields "2024-01-02T03:04:05" = None
  /\ convertToISO8601 host_utc (JStr "2024-01-02T03:04:05") = Ok "2024-01-02T03:04:05.000Z"
  /\ pattern_fields "2024-01-02" = None
  /\ convertToISO8601 host_utc8 (JStr "2024-01-02") = Ok "2024-01-02T00:00:00.000Z"
  /\ pattern_fields "2024-01-02-03:04:05Z" = None
  /\ convertToISO8601 host_utc8 (JStr "2024-01-02-03:04:05Z") = Ok "2024-01-02T03:04:05.000Z"
  /\ pattern_fields "2024-02-30-03:04:05" = Some (2024, 2, 30, 3, 4, 5)
  /\ real_date 2024 2 30 = false
  /\ convertToISO8601 host_utc (JStr "2024-02-30-03:04:05") = Ok "2024-03-01T03:04:05.000Z"
  /\ real_date 2023 4 31 = false
  /\ convertToISO8601 host_utc8 (JStr "2023-04-31-00:00:00") = Ok "2023-04-30T16:00:00.000Z".
Proof. repeat split; reflexivity. Qed.

(* ================================================================== *)
(** ** Key provisioning *)
(* ================================================================== *)

Lemma JSON_stringify_nonce_payload t : JSON_stringify (nonce_payload t) = Some (nonce_text t).
Proof. reflexivity. Qed.

Lemma eqb_append_prefix a b c : String.eqb (a ++ b) (a ++ c) = String.eqb b c.
Proof. induction a as [|x a IH]; cbn; [reflexivity|]. now rewrite Ascii.eqb_refl. Qed.

Lemma assoc_set_assoc k v l : assoc k (set_assoc k v l) = Some v.
Proof.
  induction l as [|[k' v'] l IH]; cbn.
  - now rewrite String.eqb_refl.
  - destruct (String.eqb k k') eqn:E; cbn; rewrite ?String.eqb_refl, ?E; auto.
Qed.

Lemma assoc_set_assoc_other k k' v l :
  String.eqb k' k = false -> assoc k' (set_assoc k v l) = assoc k' l.
Proof.
  intros N. induction l as [|[k2 v2] l IH]; cbn.
  - now rewrite N.
  - destruct (String.eqb_spec k k2) as [<-|]; cbn.
    + now rewrite N.
    + now rewrite IH.
Qed.

Lemma set_credential_consistent c k : credential_consistent (set_credential c k).
Proof. unfold credential_consistent. cbn. apply assoc_set_assoc. Qed.

Lemma provisioning_request_is_key_issuance env c h :
  is_key_issuance (baseUrl c) (provisioning_request env c h) = true.
Proof. unfold is_key_issuance. cbn. apply String.eqb_refl. Qed.

(** The run of [generateApiKey], interaction by interaction. *)
Lemma generateApiKey_run env c h :
  generateApiKey env (c, h)
  = match provisioning_response env c h with
    | Ok data =>
        match get_prop data "apikey" with
        | Some key => (Ok key, (set_credential c key, (h ++ provisioning_events env c h)%list))
        | None => (Throw TypeError, (c, (h ++ provisioning_events env c h)%list))
        end
    | Throw e => (Throw e, (c, (h ++ provisioning_events env c h)%list))
    end.
Proof.
  unfold generateApiKey, createApiKey, updateApiKey, axios_post, http, sign, now, prop,
    bind, this, set_this, ret, throw.
  cbn [fst snd]. change (ToString (JNum ?t)) with (Z_to_string t).
  fold (nonce_payload (Date_now env h)). rewrite JSON_stringify_nonce_payload.
  cbn [fst snd]. rewrite <- !app_assoc. cbn [app].
  unfold provisioning_events, provisioning_response, provisioning_request,
    provisioning_signature, key_request.
  destruct (axios env _ _) as [data|e]; [|reflexivity].
  destruct (get_prop data "apikey") as [key|]; reflexivity.
Qed.

(** The credential check, then the rest of the method. *)
Lemma ensureApiKey_then env (body : M jsval) c h :
  (ensureApiKey env ;; body) (c, h)
  = if truthy (apiKey c) then body (c, h)
    else match generateApiKey env (c, h) with
         | (Ok _, s) => body s
         | (Throw e, s) => (Throw e, s)
         end.
Proof.
  unfold ensureApiKey, bind at 1 2, this. cbn [fst snd].
  destruct (truthy (apiKey c)); cbn [negb]; [reflexivity|].
  unfold bind, ret. destruct (generateApiKey env (c, h)) as [[k|e] s]; reflexivity.
Qed.

(** Every private-endpoint method is the credential check followed by a body
    that sends one request with the instance's config. *)
Lemma authenticated_shape env k :
  is_authenticated k = true ->
  exists body, run_call env k = (ensureApiKey env ;; body) /\ single_request env body.
Proof.
  intros A. destruct k; try discriminate A;
    (eexists; split; [reflexivity|]); intros c h; run_body; filtered_body env;
    rewrite eqb_append_prefix; reflexivity.
Qed.

(** *** What one call does to the instance and the log *)

Lemma http_requests_app a b :
  http_requests (a ++ b) = (http_requests a ++ http_requests b)%list.
Proof. unfold http_requests. apply flat_map_app. Qed.

Lemma key_issuances_app base a b :
  key_issuances base (a ++ b) = (key_issuances base a ++ key_issuances base b)%list.
Proof. unfold key_issuances. now rewrite http_requests_app, filter_app. Qed.

Lemma own_requests_app base a b :
  own_requests base (a ++ b) = (own_requests base a ++ own_requests base b)%list.
Proof. unfold own_requests. now rewrite http_requests_app, filter_app. Qed.

Lemma key_issuances_provisioning env c h :
  key_issuances (baseUrl c) (provisioning_events env c h) = [provisioning_request env c h].
Proof.
  unfold key_issuances, provisioning_events. cbn [http_requests flat_map app filter].
  now rewrite provisioning_request_is_key_issuance.
Qed.

Lemma own_requests_provisioning env c h :
  own_requests (baseUrl c) (provisioning_events env c h) = [].
Proof.
  unfold own_requests, provisioning_events. cbn [http_requests flat_map app filter].
  now rewrite provisioning_request_is_key_issuance.
Qed.

Lemma key_issuances_one base r res :
  is_key_issuance base r = false -> key_issuances base [EvHttp r res] = [].
Proof. intros N. unfold key_issuances. cbn. now rewrite N. Qed.

Lemma own_requests_one base r res :
  is_key_issuance base r = false -> own_requests base [EvHttp r res] = [r].
Proof. intros N. unfold own_requests. cbn. now rewrite N. Qed.

(** A private-endpoint method: with a credential, the body alone; without, the
    key-issuance exchange and then, if a key could be read, the body on the
    instance that now holds it. *)
Lemma authenticated_run env k c h :
  is_authenticated k = true ->
  exists body,
    single_request env body
    /\ run_call env k (c, h)
       = if truthy (apiKey c) then body (c, h)
         else match issued_key env c h with
              | Some key =>
                  body (set_credential c key, (h ++ provisioning_events env c h)%list)
              | None =>
                  (Throw match provisioning_response env c h with
                         | Throw e => e
                         | Ok _ => TypeError
                         end,
                   (c, (h ++ provisioning_events env c h)%list))
              end.
Proof.
  intros A. destruct (authenticated_shape env k A) as (body & -> & S).
  exists body. split; [exact S|].
  rewrite ensureApiKey_then, generateApiKey_run. unfold issued_key.
  destruct (truthy (apiKey c)); [reflexivity|].
  destruct (provisioning_response env c h) as [data|e]; [|reflexivity].
  destruct (get_prop data "apikey"); reflexivity.
Qed.

(** The same, as the instance and the log the call leaves behind. *)
Lemma authenticated_outcome env k c h :
  is_authenticated k = true ->
  let c' := fst (snd (run_call env k (c, h))) in
  let h' := snd (snd (run_call env k (c, h))) in
  if truthy (apiKey c) then
    c' = c
    /\ (h' = h
        \/ exists r, h' = (h ++ [EvHttp r (axios env h r)])%list
                     /\ req_config r = Some (config c)
                     /\ is_key_issuance (baseUrl c) r = false)
  else
    match issued_key env c h with
    | None => c' = c /\ h' = (h ++ provisioning_events env c h)%list
    | Some key =>
        c' = set_credential c key
        /\ (h' = (h ++ provisioning_events env c h)%list
            \/ exists r,
                 h' = (h ++ provisioning_events env c h
                         ++ [EvHttp r (axios env (h ++ provisioning_events env c h) r)])%list
                 /\ req_config r = Some (config (set_credential c key))
                 /\ is_key_issuance (baseUrl c) r = false)
    end.
Proof.
  intros A. destruct (authenticated_run env k c h A) as (body & S & ->).
  destruct (truthy (apiKey c)).
  - destruct (S c h) as [[e ->]|(r & -> & Hc & Hk)]; cbn [fst snd]; split; eauto.
  - destruct (issued_key env c h) as [key|]; [|cbn [fst snd]; now split].
    destruct (S (set_credential c key) (h ++ provisioning_events env c h)%list)
      as [[e ->]|(r & -> & Hc & Hk)]; cbn [fst snd]; split; auto.
    right. exists r. rewrite <- app_assoc. auto.
Qed.

(** A public-endpoint method leaves the instance alone and sends one request,
    with the instance's config or with none. *)
Lemma public_outcome env k c h :
  is_authenticated k = false -> replaces_credential k = false ->
  fst (snd (run_call env k (c, h))) = c
  /\ (snd (snd (run_call env k (c, h))) = h
      \/ exists r, snd (snd (run_call env k (c, h))) = (h ++ [EvHttp r (axios env h r)])%list
                   /\ (req_config r = None \/ req_config r = Some (config c))
                   /\ is_key_issuance (baseUrl c) r = false).
Proof.
  intros A R. destruct k; try discriminate A; try discriminate R;
    cbn [run_call]; run_body;
    try (destruct (convertToISO8601 env dateString); cbn [fst snd]; now auto);
    (split; [reflexivity|]); right; eexists; (split; [reflexivity|]); split; auto.
Qed.

(** The three calls that set the credential. *)
Lemma updateApiKey_run v c h : updateApiKey v (c, h) = (Ok JUndefined, (set_credential c v, h)).
Proof. reflexivity. Qed.

Lemma createApiKey_run env sig payload c h :
  let r := mkRequest POST (baseUrl c ++ "/apikeys") (Some payload)
                     (Some {| headers := [("api-sig", sig)] |}) in
  createApiKey env sig payload (c, h)
  = match axios env h r with
    | Ok data =>
        match get_prop data "apikey" with
        | Some key => (Ok key, (set_credential c key, (h ++ [EvHttp r (Ok data)])%list))
        | None => (Throw TypeError, (c, (h ++ [EvHttp r (Ok data)])%list))
        end
    | Throw e => (Throw e, (c, (h ++ [EvHttp r (Throw e)])%list))
    end.
Proof.
  unfold createApiKey, updateApiKey, axios_post, http, prop, bind, this, set_this, ret, throw.
  cbn [fst snd]. destruct (axios env h _) as [data|e]; [|reflexivity].
  destruct (get_prop data "apikey") as [key|]; reflexivity.
Qed.

(** Every call leaves the instance as it was or as [updateApiKey] leaves it, and
    only adds to the log. *)
Lemma call_frame env k c h :
  (fst (snd (run_call env k (c, h))) = c
   \/ exists key, fst (snd (run_call env k (c, h))) = set_credential c key)
  /\ exists evs, snd (snd (run_call env k (c, h))) = (h ++ evs)%list.
Proof.
  destruct (is_authenticated k) eqn:A; [|destruct (replaces_credential k) eqn:R].
  - pose proof (authenticated_outcome env k c h A) as O. cbv zeta in O.
    destruct (truthy (apiKey c)).
    + destruct O as [-> [->|(r & -> & _)]]; split; eauto. exists []. now rewrite app_nil_r.
    + destruct (issued_key env c h) as [key|].
      * destruct O as [-> [->|(r & -> & _)]]; split; eauto.
      * destruct O as [-> ->]; split; eauto.
  - destruct k; try discriminate R; cbn [run_call].
    + rewrite updateApiKey_run. cbn. split; eauto. exists []. now rewrite app_nil_r.
    + rewrite generateApiKey_run.
      destruct (provisioning_response env c h) as [data|e];
        [destruct (get_prop data "apikey")|]; cbn [fst snd]; split; eauto.
    + rewrite createApiKey_run. cbv zeta.
      destruct (axios env h _) as [data|e];
        [destruct (get_prop data "apikey")|]; cbn [fst snd]; split; eauto.
  - destruct (public_outcome env k c h A R) as [-> [->|(r & -> & _)]]; split; eauto.
    exists []. now rewrite app_nil_r.
Qed.

(** While a credential is held, a call that does not set it leaves it alone,
    issues no key and sends the instance's config or none. *)
Lemma call_keeps_credential env k c h :
  replaces_credential k = false -> truthy (apiKey c) = true ->
  exists evs,
    snd (run_call env k (c, h)) = (c, (h ++ evs)%list)
    /\ key_issuances (baseUrl c) evs = []
    /\ forall r, In r (http_requests evs) ->
                 is_key_issuance (baseUrl c) r = false
                 /\ (req_config r = None \/ req_config r = Some (config c)).
Proof.
  intros R T. destruct (is_authenticated k) eqn:A.
  - pose proof (authenticated_outcome env k c h A) as O. cbv zeta in O. rewrite T in O.
    destruct (run_call env k (c, h)) as [res [c' h']]. cbn [fst snd] in *.
    destruct O as [-> [->|(r & -> & Hc & Hk)]].
    + exists []. rewrite app_nil_r. split; [reflexivity|split; [reflexivity|intros r' []]].
    + exists [EvHttp r (axios env h r)]. split; [reflexivity|].
      split; [now apply key_issuances_one|].
      intros r' [<-|[]]. auto.
  - pose proof (public_outcome env k c h A R) as O.
    destruct (run_call env k (c, h)) as [res [c' h']]. cbn [fst snd] in *.
    destruct O as [-> [->|(r & -> & Hc & Hk)]].
    + exists []. rewrite app_nil_r. split; [reflexivity|split; [reflexivity|intros r' []]].
    + exists [EvHttp r (axios env h r)]. split; [reflexivity|].
      split; [now apply key_issuances_one|].
      intros r' [<-|[]]. auto.
Qed.

Lemma calls_keep_credential env ks : forall c h,
  forallb (fun k => negb (replaces_credential k)) ks = true ->
  truthy (apiKey c) = true ->
  exists evs,
    run_calls env ks (c, h) = (c, (h ++ evs)%list)
    /\ key_issuances (baseUrl c) evs = []
    /\ forall r, In r (http_requests evs) ->
                 is_key_issuance (baseUrl c) r = false
                 /\ (req_config r = None \/ req_config r = Some (config c)).
Proof.
  induction ks as [|k ks IH]; intros c h F T.
  - exists []. cbn. rewrite app_nil_r. split; [reflexivity|split; [reflexivity|intros r' []]].
  - cbn [forallb] in F. apply andb_true_iff in F. destruct F as [Fk F].
    apply negb_true_iff in Fk.
    destruct (call_keeps_credential env k c h Fk T) as (e1 & E1 & K1 & C1).
    cbn [run_calls]. rewrite E1.
    destruct (IH c (h ++ e1)%list F T) as (e2 & E2 & K2 & C2).
    exists (e1 ++ e2)%list. rewrite E2, app_assoc. split; [reflexivity|].
    split; [now rewrite key_issuances_app, K1, K2|].
    intros r. rewrite http_requests_app, in_app_iff. intros [I|I]; auto.
Qed.

(** C2: [generateApiKey] reads the clock, builds the payload
    {nonce: <the reading as a decimal string>}, signs the JSON text of exactly
    that payload with the wallet, and POSTs the payload to /apikeys with the
    signature in the api-sig header.  When the call returns, the key it returns
    is the [apikey] of the response, and the instance is as [updateApiKey] of
    that key leaves it; when the transport throws, or the response has no
    property to read, the call throws and the instance is unchanged. *)
Theorem generateApiKey_flow env c h :
  let t := Date_now env h in
  let payload := JObj [("nonce", JStr (ToString (JNum t)))] in
  let text := nonce_text t in
  let sig := signMessage env (wallet c) text in
  let req := mkRequest POST (baseUrl c ++ "/apikeys") (Some payload)
                       (Some {| headers := [("api-sig", JStr sig)] |}) in
  let res := axios env (h ++ [EvNow t; EvSign text sig])%list req in
  let h' := (h ++ [EvNow t; EvSign text sig; EvHttp req res])%list in
  JSON_stringify payload = Some text
  /\ snd (snd (generateApiKey env (c, h))) = h'
  /\ match res with
     | Ok data =>
         match get_prop data "apikey" with
         | Some key =>
             generateApiKey env (c, h) = (Ok key, snd (updateApiKey key (c, h')))
             /\ apiKey (fst (snd (generateApiKey env (c, h)))) = key
             /\ assoc "API-Key" (headers (config (fst (snd (generateApiKey env (c, h))))))
                = Some key
         | None => generateApiKey env (c, h) = (Throw TypeError, (c, h'))
         end
     | Throw e => generateApiKey env (c, h) = (Throw e, (c, h'))
     end.
Proof.
  cbv zeta. split; [reflexivity|].
  rewrite generateApiKey_run.
  unfold provisioning_events, provisioning_response, provisioning_request,
    provisioning_signature, key_request, nonce_payload.
  change (ToString (JNum ?t)) with (Z_to_string t).
  destruct (axios env _ _) as [data|e]; [|now split].
  destruct (get_prop data "apikey") as [key|]; [|now split].
  cbn [fst snd]. rewrite updateApiKey_run. cbn [fst snd apiKey config headers set_credential].
  repeat split. apply assoc_set_assoc.
Qed.

(** C1 (amended): every private-endpoint method provisions lazily.  Called
    on a client that holds a credential it issues no key and leaves the
    instance alone.  Called on one that holds none it issues exactly one
    key-issuance request, before anything of its own; its own request goes out
    only once a key was read from the answer, and carries it; and when that key
    is truthy the instance holds it after the call and through all later calls
    that do not set the credential, none of which issues a key. *)
Theorem lazy_provisioning env k c h :
  is_authenticated k = true -> provisions_lazily env k c h.
Proof.
  intros A. unfold provisions_lazily. cbv zeta.
  pose proof (authenticated_outcome env k c h A) as O. cbv zeta in O.
  destruct (run_call env k (c, h)) as [res [c' h']]. cbn [fst snd] in *.
  destruct (truthy (apiKey c)).
  - destruct O as [-> [->|(r & -> & Hc & Hk)]].
    + exists []. now rewrite app_nil_r.
    + eexists. split; [reflexivity|]. split; [reflexivity|]. now apply key_issuances_one.
  - assert (forall rest key,
              c' = set_credential c key ->
              forall key0, Some key = Some key0 -> truthy key0 = true ->
              apiKey c' = key0
              /\ forall ks,
                   forallb (fun k' => negb (replaces_credential k')) ks = true ->
                   exists later,
                     run_calls env ks (c', (h ++ provisioning_events env c h ++ rest)%list)
                     = (c', (h ++ (provisioning_events env c h ++ rest) ++ later)%list)
                     /\ key_issuances (baseUrl c) later = []) as Later.
    { intros rest key -> key0 [= <-] T. split; [reflexivity|]. intros ks F.
      destruct (calls_keep_credential env ks (set_credential c key)
                  (h ++ provisioning_events env c h ++ rest)%list F T) as (later & E & K & _).
      exists later. rewrite E. split; [|exact K]. now rewrite <- !app_assoc. }
    destruct (issued_key env c h) as [key|] eqn:I.
    + destruct O as [-> [->|(r & -> & Hc & Hk)]].
      * exists (provisioning_events env c h). split; [reflexivity|]. exists [].
        rewrite app_nil_r. split; [reflexivity|].
        split; [apply key_issuances_provisioning|].
        split; [apply own_requests_provisioning|].
        split; [now left|].
        intros key0 E T. specialize (Later [] key eq_refl key0 E T).
        now rewrite app_nil_r in Later.
      * eexists. split; [reflexivity|]. eexists. split; [reflexivity|].
        split; [rewrite key_issuances_app, key_issuances_provisioning,
                  key_issuances_one by assumption; reflexivity|].
        split; [now rewrite own_requests_app, own_requests_provisioning|].
        split.
        -- right. exists r, (axios env (h ++ provisioning_events env c h) r), key.
           repeat split; try assumption. unfold api_key_header. rewrite Hc. cbn.
           apply assoc_set_assoc.
        -- intros key0 E T. exact (Later _ key eq_refl key0 E T).
    + destruct O as [-> ->]. exists (provisioning_events env c h).
      split; [reflexivity|]. exists []. rewrite app_nil_r. split; [reflexivity|].
      split; [apply key_issuances_provisioning|].
      split; [apply own_requests_provisioning|].
      split; [now left|]. intros key0 E. discriminate E.
Qed.

(** A first [getBalances] on a fresh client, on a host whose transport issues
    a key. *)
Lemma lazy_provisioning_witness :
  provisions_lazily host_utc (Call_getBalances JUndefined) fresh_client [].
Proof. exact (lazy_provisioning host_utc (Call_getBalances JUndefined) fresh_client [] eq_refl). Defined.

(** C1 as stated fails: when the answer to the key issuance carries no key, the
    credential is as absent after the call as before it, and the next call
    asks for a key again. *)
Lemma provisioning_may_leave_no_credential :
  truthy (apiKey fresh_client) = false
  /\ apiKey (fst (snd (run_call host_keyless (Call_getBalances JUndefined) (fresh_client, []))))
     = JUndefined
  /\ List.length
       (key_issuances (baseUrl fresh_client)
          (snd (run_calls host_keyless
                  [Call_getBalances JUndefined; Call_getBalances JUndefined]
                  (fresh_client, []))))
     = 2%nat.
Proof. repeat split; reflexivity. Qed.

Lemma set_assoc_twice k v w l : set_assoc k w (set_assoc k v l) = set_assoc k w l.
Proof.
  induction l as [|[k' v'] l IH]; cbn.
  - now rewrite String.eqb_refl.
  - destruct (String.eqb k k') eqn:E; cbn; rewrite ?String.eqb_refl, ?E; [reflexivity|].
    now rewrite IH.
Qed.

Lemma set_credential_twice c a b : set_credential (set_credential c a) b = set_credential c b.
Proof. unfold set_credential. cbn. now rewrite set_assoc_twice. Qed.

(** The credential check, then the rest of the method, by where the check
    leaves the call. *)
Lemma checked_run env (body : M jsval) c h :
  (ensureApiKey env ;; body) (c, h)
  = match credential_checked env c h with
    | Some s => body s
    | None => (Throw (provisioning_error env c h),
               (c, (h ++ provisioning_events env c h)%list))
    end.
Proof.
  rewrite ensureApiKey_then, generateApiKey_run.
  unfold credential_checked, issued_key, provisioning_error.
  destruct (truthy (apiKey c)); [reflexivity|].
  destruct (provisioning_response env c h) as [data|e]; [|reflexivity].
  destruct (get_prop data "apikey"); reflexivity.
Qed.

Lemma credential_checked_base env c h c1 h1 :
  credential_checked env c h = Some (c1, h1) -> baseUrl c1 = baseUrl c.
Proof.
  unfold credential_checked. destruct (truthy (apiKey c)); [now intros [= <- _]|].
  destruct (issued_key env c h); [now intros [= <- _]|discriminate].
Qed.

Lemma credential_checked_cases env c h c1 h1 :
  credential_checked env c h = Some (c1, h1) ->
  (truthy (apiKey c) = true /\ c1 = c /\ h1 = h)
  \/ (truthy (apiKey c) = false
      /\ exists key,
           issued_key env c h = Some key
           /\ c1 = set_credential c key
           /\ h1 = (h ++ provisioning_events env c h)%list
           /\ assoc "API-Key" (headers (config c1)) = Some key).
Proof.
  unfold credential_checked. destruct (truthy (apiKey c)); [intros [= <- <-]; now left|].
  destruct (issued_key env c h) as [key|]; [|discriminate].
  intros [= <- <-]. right. split; [reflexivity|]. exists key.
  repeat split. apply assoc_set_assoc.
Qed.

(** C10: an instance whose stored key is the empty string -- as
    [updateApiKey("")] leaves any instance and construction with the key [""]
    makes it -- is treated by every private-endpoint method exactly as one
    that holds no credential.  The check tests truthiness, so the call opens
    with the key-issuance exchange, the only key issuance of the call; when a
    key is issued it replaces the empty string on the instance, in field and
    header, and whatever the method then sends goes out with the issued key
    and not with the empty one; when none can be read the call throws with
    nothing of its own sent.  Result and interactions are those of the same
    call on the instance with the key set to [undefined], and so is the
    instance left behind whenever a key is issued. *)
Theorem empty_key_is_provisioned env k c h :
  is_authenticated k = true ->
  apiKey c = JStr "" ->
  let run := run_call env k (c, h) in
  let absent := run_call env k (set_credential c JUndefined, h) in
  let pe := provisioning_events env c h in
  (forall c0 h0,
     apiKey (fst (snd (run_call env (Call_updateApiKey (JStr "")) (c0, h0)))) = JStr "")
  /\ (forall pk c0, constructor env pk (JStr "") = Ok c0 -> apiKey c0 = JStr "")
  /\ (exists rest,
        snd (snd run) = (h ++ pe ++ rest)%list
        /\ key_issuances (baseUrl c) (pe ++ rest) = [provisioning_request env c h]
        /\ forall r, In r (http_requests rest) ->
             is_key_issuance (baseUrl c) r = false
             /\ exists key, issued_key env c h = Some key
                            /\ req_config r = Some (config (set_credential c key))
                            /\ api_key_header r = Some key)
  /\ (forall key,
        issued_key env c h = Some key ->
        fst (snd run) = set_credential c key
        /\ apiKey (fst (snd run)) = key
        /\ assoc "API-Key" (headers (config (fst (snd run)))) = Some key)
  /\ (issued_key env c h = None ->
      run = (Throw (provisioning_error env c h), (c, (h ++ pe)%list)))
  /\ fst run = fst absent
  /\ snd (snd run) = snd (snd absent)
  /\ (forall key, issued_key env c h = Some key -> fst (snd run) = fst (snd absent)).
Proof.
  intros A E. cbv zeta.
  split; [reflexivity|]. split.
  { intros pk c0. unfold constructor. destruct (new_Wallet env pk); [|discriminate].
    now intros [= <-]. }
  destruct (authenticated_shape env k A) as (body & -> & S).
  rewrite !checked_run. unfold credential_checked. cbn [apiKey set_credential].
  rewrite E. cbn [truthy String.eqb negb].
  change (issued_key env (set_credential c JUndefined) h) with (issued_key env c h).
  change (provisioning_events env (set_credential c JUndefined) h)
    with (provisioning_events env c h).
  change (provisioning_error env (set_credential c JUndefined) h)
    with (provisioning_error env c h).
  destruct (issued_key env c h) as [key|].
  - rewrite set_credential_twice.
    destruct (S (set_credential c key) (h ++ provisioning_events env c h)%list)
      as [[e ->]|(r & -> & Hc & Hk)]; cbn [fst snd].
    + split.
      { exists []. rewrite !app_nil_r. split; [reflexivity|].
        split; [apply key_issuances_provisioning|]. intros r []. }
      split.
      { intros key' [= <-]. split; [reflexivity|]. split; [reflexivity|].
        apply assoc_set_assoc. }
      split; [discriminate|]. auto.
    + split.
      { eexists. rewrite <- app_assoc. split; [reflexivity|].
        rewrite key_issuances_app, key_issuances_provisioning, key_issuances_one
          by assumption.
        split; [reflexivity|]. intros r' [<-|[]]. split; [exact Hk|].
        exists key. split; [reflexivity|]. split; [exact Hc|].
        unfold api_key_header. rewrite Hc. apply assoc_set_assoc. }
      split.
      { intros key' [= <-]. split; [reflexivity|]. split; [reflexivity|].
        apply assoc_set_assoc. }
      split; [discriminate|]. auto.
  - cbn [fst snd]. split.
    { exists []. rewrite !app_nil_r. split; [reflexivity|].
      split; [apply key_issuances_provisioning|]. intros r []. }
    split; [discriminate|]. split; [reflexivity|]. split; [reflexivity|].
    split; [reflexivity|]. discriminate.
Qed.

(** [getOrderInfo] on a client whose key [X] was replaced by the empty string:
    the issued key is stored and goes out with the request. *)
Lemma empty_key_is_provisioned_witness :
  set_credential keyed_client (JStr "")
  = fst (snd (run_call host_utc (Call_updateApiKey (JStr "")) (keyed_client, [])))
  /\ fst (snd (run_call host_utc (Call_getOrderInfo (JStr "7"))
                 (set_credential keyed_client (JStr ""), [])))
     = set_credential fresh_client (JStr "issued-key")
  /\ http_requests
       (snd (snd (run_call host_utc (Call_getOrderInfo (JStr "7"))
                    (set_credential keyed_client (JStr ""), []))))
     = [provisioning_request host_utc fresh_client [];
        mkRequest GET "https://cax.piccadilly.autonity.org/api/orders/7" None
          (Some {| headers := [("API-Key", JStr "issued-key")] |})].
Proof.
  split; [reflexivity|]. split; [|reflexivity].
  exact (proj1 (proj1 (proj2 (proj2 (proj2
           (empty_key_is_provisioned host_utc (Call_getOrderInfo (JStr "7"))
              (set_credential keyed_client (JStr "")) [] eq_refl eq_refl))))
           (JStr "issued-key") eq_refl)).
Defined.

(** ** The credential invariant and the frame *)

Lemma constructor_fields env pk key c :
  constructor env pk key = Ok c ->
  privateKey c = pk /\ new_Wallet env pk = Ok (wallet c)
  /\ address c = wallet_address (wallet c)
  /\ baseUrl c = "https://cax.piccadilly.autonity.org/api"
  /\ apiKey c = key /\ headers (config c) = [("API-Key", key)].
Proof.
  unfold constructor. destruct (new_Wallet env pk) as [w|]; [|discriminate].
  intros [= <-]. cbn. repeat split.
Qed.

Lemma call_consistent env k c h :
  credential_consistent c -> credential_consistent (fst (snd (run_call env k (c, h)))).
Proof.
  intros I. destruct (call_frame env k c h) as [[->|[key ->]] _];
    [exact I|apply set_credential_consistent].
Qed.

Lemma calls_consistent env ks : forall c h,
  credential_consistent c -> credential_consistent (fst (run_calls env ks (c, h))).
Proof.
  induction ks as [|k ks IH]; intros c h I; [exact I|].
  cbn [run_calls]. destruct (run_call env k (c, h)) as [res [c' h']] eqn:E.
  cbn [snd]. apply IH. pose proof (call_consistent env k c h I) as J.
  now rewrite E in J.
Qed.

(** C7: the stored key and the outgoing API-Key header agree after every
    operation; a credential set by [updateApiKey] or by provisioning goes out
    with every later authenticated request until it is replaced; a client
    constructed without a key has the header value [undefined]. *)
Theorem credential_propagation env : credential_propagates env.
Proof.
  unfold credential_propagates. repeat apply conj.
  - intros pk key c H. apply constructor_fields in H.
    destruct H as (_ & _ & _ & _ & K & Hh). split; [exact K|].
    rewrite Hh. reflexivity.
  - intros pk key c ks h H. apply calls_consistent. apply constructor_fields in H.
    destruct H as (_ & _ & _ & _ & K & Hh). unfold credential_consistent.
    rewrite Hh, K. reflexivity.
  - intros ks c h. apply calls_consistent.
  - intros X c h. cbn [run_call]. rewrite updateApiKey_run. cbn. split; [reflexivity|].
    apply assoc_set_assoc.
  - intros X ks c h I E T F. subst X.
    destruct (calls_keep_credential env ks c h F T) as (evs & R & _ & C).
    exists evs. split; [exact R|]. intros r Hr.
    destruct (C r Hr) as [_ [N|S]]; [now left|right].
    unfold api_key_header. rewrite S. exact I.
  - intros k c h A I.
    pose proof (authenticated_outcome env k c h A) as O. cbv zeta in O.
    destruct (run_call env k (c, h)) as [res [c' h']]. cbn [fst snd] in *.
    destruct (truthy (apiKey c)).
    + destruct O as [-> [->|(r & -> & Hc & Hk)]].
      * exists []. rewrite app_nil_r. split; [reflexivity|]. intros r [].
      * eexists. split; [reflexivity|]. rewrite own_requests_one by assumption.
        intros r' [<-|[]]. unfold api_key_header. rewrite Hc. exact I.
    + destruct (issued_key env c h) as [key|].
      * destruct O as [-> [->|(r & -> & Hc & Hk)]].
        -- eexists. split; [reflexivity|]. rewrite own_requests_provisioning. intros r [].
        -- eexists. split; [reflexivity|].
           rewrite own_requests_app, own_requests_provisioning, own_requests_one by assumption.
           intros r' [<-|[]]. unfold api_key_header. rewrite Hc. cbn. apply assoc_set_assoc.
      * destruct O as [-> ->]. eexists. split; [reflexivity|].
        rewrite own_requests_provisioning. intros r [].
Qed.

(** [updateApiKey("X")], then three calls on private endpoints: each request
    goes out with API-Key: X. *)
Lemma credential_propagation_witness :
  exists evs,
    run_calls host_utc
      [Call_getBalances JUndefined; Call_getOrderInfo (JStr "7"); Call_cancelOrder (JStr "7")]
      (fst (snd (run_call host_utc (Call_updateApiKey (JStr "X")) (fresh_client, []))), [])
    = (fst (snd (run_call host_utc (Call_updateApiKey (JStr "X")) (fresh_client, []))),
       ([] ++ evs)%list)
    /\ forall r, In r (http_requests evs) ->
                 req_config r = None \/ api_key_header r = Some (JStr "X").
Proof.
  exact (proj1 (proj2 (proj2 (proj2 (proj2 (credential_propagation host_utc)))))
           (JStr "X")
           [Call_getBalances JUndefined; Call_getOrderInfo (JStr "7"); Call_cancelOrder (JStr "7")]
           (fst (snd (run_call host_utc (Call_updateApiKey (JStr "X")) (fresh_client, []))))
           [] eq_refl eq_refl eq_refl eq_refl).
Defined.

Lemma set_credential_identity c key :
  privateKey (set_credential c key) = privateKey c
  /\ wallet (set_credential c key) = wallet c
  /\ address (set_credential c key) = address c
  /\ baseUrl (set_credential c key) = baseUrl c
  /\ forall name, String.eqb name "API-Key" = false ->
                  assoc name (headers (config (set_credential c key)))
                  = assoc name (headers (config c)).
Proof. repeat split. intros name N. cbn. now apply assoc_set_assoc_other. Qed.

(** C9: no public operation, and no sequence of them, changes the private key,
    the wallet, the derived address or the base URL, nor any header but
    API-Key; the address is the one derived from the key at construction. *)
Theorem identity_is_never_changed env ks : forall c h,
  privateKey (fst (run_calls env ks (c, h))) = privateKey c
  /\ wallet (fst (run_calls env ks (c, h))) = wallet c
  /\ address (fst (run_calls env ks (c, h))) = address c
  /\ baseUrl (fst (run_calls env ks (c, h))) = baseUrl c
  /\ (forall name, String.eqb name "API-Key" = false ->
                   assoc name (headers (config (fst (run_calls env ks (c, h)))))
                   = assoc name (headers (config c)))
  /\ match constructor env (privateKey c) (apiKey c) with
     | Ok c0 =>
         privateKey c0 = privateKey c
         /\ new_Wallet env (privateKey c) = Ok (wallet c0)
         /\ address c0 = wallet_address (wallet c0)
         /\ baseUrl c0 = "https://cax.piccadilly.autonity.org/api"
     | Throw _ => True
     end.
Proof.
  induction ks as [|k ks IH]; intros c h.
  - cbn [run_calls fst]. repeat split.
    destruct (constructor env (privateKey c) (apiKey c)) as [c0|] eqn:E; [|exact I].
    apply constructor_fields in E. tauto.
  - cbn [run_calls]. destruct (run_call env k (c, h)) as [res [c' h']] eqn:E. cbn [snd].
    destruct (IH c' h') as (P & W & A & B & Hh & _).
    destruct (IH c h) as (_ & _ & _ & _ & _ & K).
    pose proof (call_frame env k c h) as [F _]. rewrite E in F. cbn [fst snd] in F.
    destruct F as [->|[key ->]].
    + repeat split; assumption.
    + destruct (set_credential_identity c key) as (P' & W' & A' & B' & H').
      rewrite P, W, A, B. repeat split; try assumption.
      intros name N. rewrite Hh by exact N. now apply H'.
Qed.

(** ** Where the requests go *)

(** C6, on the code: [getOrderbooks] never provisions a key, but unlike the
    other order-book methods it hands [this.config] to the transport, so its
    request goes out with the API-Key header whenever a key is held. *)
Theorem getOrderbooks_sends_credential env c h :
  let r := mkRequest GET (baseUrl c ++ "/orderbooks") None (Some (config c)) in
  run_call env Call_getOrderbooks (c, h)
  = (axios env h r, (c, (h ++ [EvHttp r (axios env h r)])%list))
  /\ key_issuances (baseUrl c) [EvHttp r (axios env h r)] = []
  /\ api_key_header r = assoc "API-Key" (headers (config c))
  /\ http_requests (snd (snd (run_call host_utc Call_getOrderbooks (keyed_client, []))))
     = [mkRequest GET "https://cax.piccadilly.autonity.org/api/orderbooks" None
          (Some {| headers := [("API-Key", JStr "X")] |})]
  /\ http_requests (snd (snd (run_call host_utc (Call_getOrderbookInfo (JStr "ATN-USD"))
                                (keyed_client, []))))
     = [mkRequest GET "https://cax.piccadilly.autonity.org/api/orderbooks/ATN-USD" None None].
Proof. cbv zeta. repeat split. Qed.

(** The requests of a method that opens with the credential check: if the
    rest of the method sends nothing but a request satisfying [P], so does the
    whole, key issuance apart. *)
Lemma authenticated_requests env (body : M jsval) (P : request -> Prop) c h :
  (forall c1 h1,
     baseUrl c1 = baseUrl c ->
     (exists e, body (c1, h1) = (Throw e, (c1, h1)))
     \/ (exists r,
           body (c1, h1) = (axios env h1 r, (c1, (h1 ++ [EvHttp r (axios env h1 r)])%list))
           /\ is_key_issuance (baseUrl c) r = false /\ P r)) ->
  exists evs,
    snd (snd ((ensureApiKey env ;; body) (c, h))) = (h ++ evs)%list
    /\ forall r, In r (own_requests (baseUrl c) evs) -> P r.
Proof.
  intros B. rewrite ensureApiKey_then, generateApiKey_run.
  destruct (truthy (apiKey c)).
  - destruct (B c h eq_refl) as [[e ->]|(r & -> & Hk & HP)]; cbn [fst snd].
    + exists []. rewrite app_nil_r. split; [reflexivity|]. intros r [].
    + eexists. split; [reflexivity|]. rewrite own_requests_one by assumption.
      now intros r' [<-|[]].
  - destruct (provisioning_response env c h) as [data|e];
      [destruct (get_prop data "apikey") as [key|]|];
      try (eexists; split; [reflexivity|]; rewrite own_requests_provisioning; now intros r []).
    destruct (B (set_credential c key) (h ++ provisioning_events env c h)%list eq_refl)
      as [[e ->]|(r & -> & Hk & HP)]; cbn [fst snd].
    + eexists. split; [reflexivity|]. rewrite own_requests_provisioning. intros r [].
    + rewrite <- app_assoc. eexists. split; [reflexivity|].
      rewrite own_requests_app, own_requests_provisioning, own_requests_one by assumption.
      now intros r' [<-|[]].
Qed.

(** C8: [getDeposits], call by call.  Once the credential check is over --
    with the key held, or with the key just issued, the key-issuance exchange
    logged -- the call is one GET that carries the instance's config: to
    /deposits when the three parameters are omitted or any of them is absent,
    and to /deposits/?end=..&start=..&symbol=.. with both times converted by
    [convertToISO8601] when all three are present.  Times as the method
    documents them, strings in the pattern that name a real date and time of
    day, are always converted, and the bounds sent are the UTC renderings of
    the instants they denote.  Nothing else is sent; the call sends nothing of
    its own only when a time is supplied that the conversion rejects, whose
    error it throws, or when no key can be obtained. *)
Theorem getDeposits_target env c h startTime endTime symbol :
  let base := baseUrl c in
  let filtered := truthy startTime && truthy endTime && truthy symbol in
  let run := getDeposits env startTime endTime symbol (c, h) in
  (startTime = JUndefined \/ endTime = JUndefined \/ symbol = JUndefined ->
   filtered = false)
  /\ (forall c1 h1,
        credential_checked env c h = Some (c1, h1) ->
        (filtered = false ->
         run = sent env (mkRequest GET (base ++ "/deposits") None (Some (config c1)))
                 (c1, h1))
        /\ (forall e s,
              filtered = true ->
              convertToISO8601 env endTime = Ok e ->
              convertToISO8601 env startTime = Ok s ->
              run = sent env
                      (mkRequest GET (base ++ "/deposits/?end=" ++ e ++ "&start=" ++ s
                                      ++ "&symbol=" ++ ToString symbol)
                         None (Some (config c1)))
                      (c1, h1))
        /\ (forall err,
              filtered = true ->
              conversion_error env startTime endTime = Some err ->
              run = (Throw err, (c1, h1)))
        /\ (forall ts te us ue,
              startTime = JStr ts -> endTime = JStr te -> truthy symbol = true ->
              pattern_time env ts us -> pattern_time env te ue ->
              run = sent env
                      (mkRequest GET (base ++ "/deposits/?end=" ++ iso_string ue
                                      ++ "&start=" ++ iso_string us
                                      ++ "&symbol=" ++ ToString symbol)
                         None (Some (config c1)))
                      (c1, h1)))
  /\ (credential_checked env c h = None ->
      run = (Throw (provisioning_error env c h),
             (c, (h ++ provisioning_events env c h)%list)))
  /\ (forall c1 h1,
        credential_checked env c h = Some (c1, h1) ->
        (truthy (apiKey c) = true /\ c1 = c /\ h1 = h)
        \/ (truthy (apiKey c) = false
            /\ exists key,
                 issued_key env c h = Some key
                 /\ c1 = set_credential c key
                 /\ h1 = (h ++ provisioning_events env c h)%list
                 /\ assoc "API-Key" (headers (config c1)) = Some key)).
Proof.
  cbv zeta. split; [|split; [|split]].
  - intros [->|[->| ->]]; cbn; rewrite ?andb_false_r; reflexivity.
  - intros c1 h1 CC. pose proof (credential_checked_base _ _ _ _ _ CC) as B.
    unfold getDeposits. rewrite checked_run, CC. run_body. unfold sent. cbn [fst snd].
    rewrite B. split; [|split; [|split]].
    + now intros ->.
    + now intros e s -> -> ->.
    + intros err -> X. unfold conversion_error in X.
      destruct (convertToISO8601 env endTime) as [e|e1];
        [destruct (convertToISO8601 env startTime) as [s|e2]; [discriminate X|]|];
        now injection X as <-.
    + intros ts te us ue -> -> Sy Ps Pe.
      destruct (convertToISO8601_pattern_time env ts us Ps) as [-> ->].
      destruct (convertToISO8601_pattern_time env te ue Pe) as [-> ->].
      now rewrite Sy.
  - intros CC. unfold getDeposits. now rewrite checked_run, CC.
  - apply credential_checked_cases.
Qed.

(** All three parameters supplied, on a client without a key and a host in
    UTC: the key is issued and stored, and the filtered request carries it. *)
Lemma getDeposits_target_witness :
  getDeposits host_utc (JStr "2024-01-02-03:04:05") (JStr "2024-02-29-23:59:59") (JStr "ATN")
    (fresh_client, [])
  = (Ok (JObj []),
     (set_credential fresh_client (JStr "issued-key"),
      (provisioning_events host_utc fresh_client []
       ++ [EvHttp
             (mkRequest GET
                ("https://cax.piccadilly.autonity.org/api/deposits/"
                 ++ "?end=2024-02-29T23:59:59.000Z&start=2024-01-02T03:04:05.000Z&symbol=ATN")
                None (Some {| headers := [("API-Key", JStr "issued-key")] |}))
             (Ok (JObj []))])%list)).
Proof.
  exact (proj1 (proj2 (proj1 (proj2 (getDeposits_target host_utc fresh_client []
                                       (JStr "2024-01-02-03:04:05")
                                       (JStr "2024-02-29-23:59:59") (JStr "ATN")))
                         (set_credential fresh_client (JStr "issued-key"))
                         (provisioning_events host_utc fresh_client []) eq_refl))
           "2024-02-29T23:59:59.000Z" "2024-01-02T03:04:05.000Z" eq_refl eq_refl eq_refl).
Defined.

(** The same call with the symbol left out, and with no argument at all. *)
Example getDeposits_unfiltered :
  http_requests
    (snd (snd (getDeposits host_utc (JStr "2024-01-02-03:04:05")
                 (JStr "2024-02-29-23:59:59") JUndefined (fresh_client, []))))
  = [provisioning_request host_utc fresh_client [];
     mkRequest GET "https://cax.piccadilly.autonity.org/api/deposits" None
       (Some {| headers := [("API-Key", JStr "issued-key")] |})]
  /\ getDeposits host_utc JUndefined JUndefined JUndefined (keyed_client, [])
     = sent host_utc
         (mkRequest GET "https://cax.piccadilly.autonity.org/api/deposits" None
            (Some {| headers := [("API-Key", JStr "X")] |}))
         (keyed_client, []).
Proof. split; reflexivity. Qed.




(** The order id left out, on a client that holds a key: the orders. *)
Example getTrades_unfiltered :
  getTrades host_utc (JStr "2024-01-02-03:04:05") (JStr "2024-02-29-23:59:59")
    (JStr "ATN-USD") JUndefined (keyed_client, [])
  = (Ok (JObj []),
     (keyed_client,
      [EvHttp
         (mkRequest GET "https://cax.piccadilly.autonity.org/api/orders"
            None (Some {| headers := [("API-Key", JStr "X")] |}))
         (Ok (JObj []))])).
Proof. reflexivity. Qed.

(** All four supplied. *)
Example getTrades_filtered :
  http_requests
    (snd (snd (run_call host_utc
                 (Call_getTrades (JStr "2024-01-02-03:04:05") (JStr "2024-02-29-23:59:59")
                    (JStr "ATN-USD") (JStr "42"))
                 (keyed_client, []))))
  = [mkRequest GET
       ("https://cax.piccadilly.autonity.org/api/trades/"
        ++ "?end=2024-02-29T23:59:59.000Z&start=2024-01-02T03:04:05.000Z"
        ++ "&pair=ATN-USD&orderId=42")
       None (Some {| headers := [("API-Key", JStr "X")] |})].
Proof. reflexivity. Qed.

(* ================================================================== *)
(** * Further properties of the methods *)
(* ================================================================== *)

(** ** The ways one call can go *)

Lemma public_run env k c h :
  is_public k = true ->
  exists r,
    run_call env k (c, h) = (axios env h r, (c, (h ++ [EvHttp r (axios env h r)])%list))
    /\ req_method r = GET /\ req_data r = None
    /\ is_key_issuance (baseUrl c) r = false
    /\ req_config r = (if is_getOrderbooks k then Some (config c) else None).
Proof.
  intros P. destruct k; try discriminate P; cbn [run_call];
    unfold getOrderbooks, getOrderbookInfo, getOrderbookDepth, getOrderbookQuote,
      getTradeHistory, getExchangeStatus, getSymbols, getSymbolsInfo;
    run_body; cbv zeta; eexists; (split; [reflexivity|]); repeat split.
Qed.

Lemma endpoint_cases env k c h : is_endpoint k = true -> run_cases env k c h.
Proof.
  unfold is_endpoint, run_cases. cbv zeta. intros E.
  destruct (is_authenticated k) eqn:A.
  - destruct (authenticated_run env k c h A) as (body & S & ->).
    destruct (truthy (apiKey c)) eqn:T.
    + destruct (S c h) as [[e ->]|(r & -> & Hc & Hk)].
      * left. eauto.
      * right; left. split; [now left|]. exists r. auto.
    + destruct (issued_key env c h) as [key|].
      * right; right; right. split; [reflexivity|]. split; [reflexivity|]. exists key. split; [reflexivity|].
        destruct (S (set_credential c key) (h ++ provisioning_events env c h)%list)
          as [[e ->]|(r & -> & Hc & Hk)]; [left; eauto|right].
        exists r. rewrite <- app_assoc. auto.
      * right; right; left. auto.
  - cbn [orb] in E. destruct (public_run env k c h E) as (r & -> & _ & _ & Hk & Hc).
    right; left. split; [now right|]. exists r. split; [reflexivity|]. split; [exact Hk|].
    destruct (is_getOrderbooks k); auto.
Qed.

(** X1: the seven public-endpoint methods other than getOrderbooks
    (getOrderbookInfo, getOrderbookDepth, getOrderbookQuote, getTradeHistory,
    getExchangeStatus, getSymbols, getSymbolsInfo) never touch the credential:
    whatever the instance holds, the call is exactly one GET with no body and
    no config, hence no API-Key header, no key issuance happens, and the
    instance is left as it was. *)
Theorem public_methods_are_anonymous env k c h :
  is_public k = true -> is_getOrderbooks k = false ->
  exists r,
    run_call env k (c, h) = (axios env h r, (c, (h ++ [EvHttp r (axios env h r)])%list))
    /\ req_method r = GET /\ req_data r = None
    /\ req_config r = None /\ api_key_header r = None
    /\ is_key_issuance (baseUrl c) r = false.
Proof.
  intros P N. destruct (public_run env k c h P) as (r & R & M & D & K & C).
  rewrite N in C. exists r. unfold api_key_header. rewrite C. auto 10.
Qed.

Lemma public_methods_are_anonymous_witness :
  exists r,
    run_call host_down (Call_getSymbolsInfo (JStr "ATN-USD")) (fresh_client, [])
    = (axios host_down [] r, (fresh_client, ([] ++ [EvHttp r (axios host_down [] r)])%list))
    /\ req_method r = GET /\ req_data r = None
    /\ req_config r = None /\ api_key_header r = None
    /\ is_key_issuance (baseUrl fresh_client) r = false.
Proof.
  exact (public_methods_are_anonymous host_down (Call_getSymbolsInfo (JStr "ATN-USD"))
           fresh_client [] eq_refl eq_refl).
Defined.

Lemma last_event_inj (pre pre' : list event) (x y : event) :
  (pre ++ [x])%list = (pre' ++ [y])%list -> x = y.
Proof. intros H. now apply app_inj_tail in H. Qed.

(** X2: the endpoint methods (every method but convertToISO8601, updateApiKey,
    generateApiKey and createApiKey) relay the transport.  A call that returns
    returns the answer of the last request it sent, and that request is the
    method's own, not the key issuance; and when the last request a call sent
    failed, the call throws that very error: no method catches, wraps or
    replaces a transport error. *)
Theorem endpoint_relays_transport env k c h :
  is_endpoint k = true ->
  exists evs,
    snd (snd (run_call env k (c, h))) = (h ++ evs)%list
    /\ (forall v, fst (run_call env k (c, h)) = Ok v ->
          exists pre r, evs = (pre ++ [EvHttp r (Ok v)])%list
                        /\ is_key_issuance (baseUrl c) r = false)
    /\ (forall pre r e, evs = (pre ++ [EvHttp r (Throw e)])%list ->
          fst (run_call env k (c, h)) = Throw e).
Proof.
  intros E. pose proof (endpoint_cases env k c h E) as C. unfold run_cases in C. cbv zeta in C.
  destruct C as [[_ [e ->]]|[[_ (r & -> & Hk & _)]|[(_ & _ & I & ->)|(_ & _ & key & I & [[e ->]|(r & -> & Hk & _)])]]];
    cbn [fst snd].
  - exists []. rewrite app_nil_r. split; [reflexivity|]. split; [discriminate|].
    intros [|] ? ? X; discriminate X.
  - eexists. split; [reflexivity|]. split.
    + intros v V. exists [], r. rewrite V. now split.
    + intros pre r' e X. apply (last_event_inj []) in X. now injection X as -> ->.
  - eexists. split; [reflexivity|]. split; [discriminate|].
    intros pre r e X. unfold provisioning_events in X.
    apply (last_event_inj [_; _]) in X. injection X as _ ->. reflexivity.
  - eexists. split; [reflexivity|]. split; [discriminate|].
    intros pre r e' X. unfold provisioning_events in X.
    apply (last_event_inj [_; _]) in X. injection X as _ X.
    unfold issued_key in I. rewrite X in I. discriminate I.
  - eexists. split; [reflexivity|]. split.
    + intros v V. exists (provisioning_events env c h), r. rewrite V. now split.
    + intros pre r' e X. apply (last_event_inj (provisioning_events env c h)) in X.
      now injection X as -> ->.
Qed.

Lemma endpoint_relays_transport_witness :
  exists evs,
    snd (snd (run_call host_utc (Call_getBalances (JStr "ATN")) (fresh_client, [])))
    = ([] ++ evs)%list
    /\ (forall v, fst (run_call host_utc (Call_getBalances (JStr "ATN")) (fresh_client, []))
                  = Ok v ->
          exists pre r, evs = (pre ++ [EvHttp r (Ok v)])%list
                        /\ is_key_issuance (baseUrl fresh_client) r = false)
    /\ (forall pre r e, evs = (pre ++ [EvHttp r (Throw e)])%list ->
          fst (run_call host_utc (Call_getBalances (JStr "ATN")) (fresh_client, []))
          = Throw e).
Proof.
  exact (endpoint_relays_transport host_utc (Call_getBalances (JStr "ATN")) fresh_client []
           eq_refl).
Defined.

(** X3: when an authenticated method is called without a credential and the
    key issuance fails, the call stops there.  A transport error of the
    key-issuance request is thrown as it is; an answer whose data is undefined
    or null, so that [apikey] cannot be read off it, throws a TypeError; in
    both cases the instance is unchanged; and whenever no key can be read the
    method's own request is never sent. *)
Theorem provisioning_failure_stops_the_call env k c h :
  is_authenticated k = true -> truthy (apiKey c) = false ->
  (forall e, provisioning_response env c h = Throw e ->
     run_call env k (c, h) = (Throw e, (c, (h ++ provisioning_events env c h)%list)))
  /\ (forall data, provisioning_response env c h = Ok data -> get_prop data "apikey" = None ->
        run_call env k (c, h)
        = (Throw TypeError, (c, (h ++ provisioning_events env c h)%list)))
  /\ (issued_key env c h = None ->
      own_requests (baseUrl c) (provisioning_events env c h) = []).
Proof.
  intros A F. destruct (authenticated_run env k c h A) as (body & _ & ->). rewrite F.
  unfold issued_key. repeat split.
  - intros e E. now rewrite E.
  - intros data E N. now rewrite E, N.
  - intros _. apply own_requests_provisioning.
Qed.

Lemma provisioning_failure_stops_the_call_witness :
  run_call host_down (Call_submitLimitOrder (JObj [("amount", JStr "1")])) (fresh_client, [])
  = (Throw (TransportError (JObj [("status", JNum 503)])),
     (fresh_client, ([] ++ provisioning_events host_down fresh_client [])%list)).
Proof.
  exact (proj1 (provisioning_failure_stops_the_call host_down
                  (Call_submitLimitOrder (JObj [("amount", JStr "1")])) fresh_client []
                  eq_refl eq_refl)
           (TransportError (JObj [("status", JNum 503)])) eq_refl).
Defined.

(** X4: no method retries.  One call of any method sends at most two HTTP
    requests, at most one of them a key issuance and at most one the method's
    own; with a credential held, or for a method that needs none, at most one
    request is sent in all. *)
Theorem no_call_repeats_a_request env k c h :
  exists evs,
    snd (snd (run_call env k (c, h))) = (h ++ evs)%list
    /\ (List.length (http_requests evs) <= 2)%nat
    /\ (List.length (key_issuances (baseUrl c) evs) <= 1)%nat
    /\ (List.length (own_requests (baseUrl c) evs) <= 1)%nat
    /\ (truthy (apiKey c) = true \/ is_authenticated k = false ->
        (List.length (http_requests evs) <= 1)%nat).
Proof.
  destruct (is_endpoint k) eqn:E.
  - pose proof (endpoint_cases env k c h E) as C. unfold run_cases in C. cbv zeta in C.
    destruct C as [[_ [e ->]]|[[_ (r & -> & Hk & _)]|[(A & F & I & ->)|(A & F & key & I & [[e ->]|(r & -> & Hk & _)])]]];
      cbn [fst snd].
    + exists []. rewrite app_nil_r. cbn. repeat split; lia.
    + eexists. split; [reflexivity|].
      rewrite key_issuances_one, own_requests_one by assumption. cbn. repeat split; lia.
    + eexists. split; [reflexivity|].
      rewrite key_issuances_provisioning, own_requests_provisioning. cbn.
      repeat split; lia.
    + eexists. split; [reflexivity|].
      rewrite key_issuances_provisioning, own_requests_provisioning. cbn.
      repeat split; lia.
    + eexists. split; [reflexivity|].
      rewrite key_issuances_app, own_requests_app, key_issuances_provisioning,
        own_requests_provisioning, key_issuances_one, own_requests_one by assumption.
      cbn. repeat split; try lia. intros [T|N]; congruence.
  - unfold is_endpoint in E. apply orb_false_iff in E. destruct E as [A P].
    destruct k; try discriminate A; try discriminate P; cbn [run_call].
    + unfold bind, lift, ret. destruct (convertToISO8601 env dateString);
        exists []; rewrite app_nil_r; cbn; repeat split; lia.
    + rewrite updateApiKey_run. exists []. rewrite app_nil_r. cbn. repeat split; lia.
    + rewrite generateApiKey_run.
      destruct (provisioning_response env c h) as [data|e];
        [destruct (get_prop data "apikey")|]; cbn [fst snd];
        (eexists; split; [reflexivity|]);
        rewrite key_issuances_provisioning, own_requests_provisioning; cbn;
        repeat split; lia.
    + rewrite createApiKey_run. cbv zeta.
      destruct (axios env h _) as [data|e];
        [destruct (get_prop data "apikey")|]; cbn [fst snd];
        (eexists; split; [reflexivity|]);
        unfold key_issuances, own_requests, is_key_issuance; cbn;
        rewrite String.eqb_refl; cbn; repeat split; lia.
Qed.

(** The credential check followed by a part that always sends [req]: the
    method's own requests are that one, or none when no key could be read. *)
Lemma checked_request env (body : M jsval) (req : Cax -> request) c h :
  (forall c1 h1,
     baseUrl c1 = baseUrl c ->
     body (c1, h1)
     = (axios env h1 (req c1), (c1, (h1 ++ [EvHttp (req c1) (axios env h1 (req c1))])%list))
     /\ is_key_issuance (baseUrl c) (req c1) = false) ->
  exists evs,
    snd (snd ((ensureApiKey env ;; body) (c, h))) = (h ++ evs)%list
    /\ baseUrl (fst (snd ((ensureApiKey env ;; body) (c, h)))) = baseUrl c
    /\ (own_requests (baseUrl c) evs = [req (fst (snd ((ensureApiKey env ;; body) (c, h))))]
        \/ (own_requests (baseUrl c) evs = []
            /\ truthy (apiKey c) = false /\ issued_key env c h = None)).
Proof.
  intros B. rewrite ensureApiKey_then, generateApiKey_run. unfold issued_key.
  destruct (truthy (apiKey c)).
  - destruct (B c h eq_refl) as [-> K]. cbn [fst snd]. eexists. split; [reflexivity|].
    split; [reflexivity|]. left. now rewrite own_requests_one.
  - destruct (provisioning_response env c h) as [data|e];
      [destruct (get_prop data "apikey") as [key|]|].
    + destruct (B (set_credential c key) (h ++ provisioning_events env c h)%list eq_refl)
        as [-> K].
      cbn [fst snd]. rewrite <- app_assoc. eexists. split; [reflexivity|].
      split; [reflexivity|]. left.
      now rewrite own_requests_app, own_requests_provisioning, own_requests_one.
    + cbn [fst snd]. eexists. split; [reflexivity|]. split; [reflexivity|]. right.
      now rewrite own_requests_provisioning.
    + cbn [fst snd]. eexists. split; [reflexivity|]. split; [reflexivity|]. right.
      now rewrite own_requests_provisioning.
Qed.

(** X5: the wire table of the fifteen methods whose request does not depend
    on which arguments are present.  The method's own request has the HTTP
    method, the path under the base URL (arguments rendered as a template
    literal does) and the body of the table; it carries the instance's config
    as it is after the call when the method is an authenticated one or
    getOrderbooks, and no config otherwise.  It is the only request of the call
    besides a key issuance, and is missing only when an authenticated method
    could not obtain a key. *)
Theorem fixed_endpoint_target env k c h m path body :
  fixed_endpoint k = Some (m, path, body) ->
  let c' := fst (snd (run_call env k (c, h))) in
  let r := mkRequest m (baseUrl c ++ path) body
                     (if sends_config k then Some (config c') else None) in
  exists evs,
    snd (snd (run_call env k (c, h))) = (h ++ evs)%list
    /\ (own_requests (baseUrl c) evs = [r]
        \/ (own_requests (baseUrl c) evs = []
            /\ is_authenticated k = true
            /\ truthy (apiKey c) = false /\ issued_key env c h = None)).
Proof.
  intros F. cbv zeta.
  destruct k; try discriminate F; injection F as <- <- <-;
    cbn [sends_config is_authenticated is_getOrderbooks orb];
    try (cbn [run_call];
         unfold getOrderbooks, getOrderbookInfo, getOrderbookDepth, getOrderbookQuote,
           getExchangeStatus, getSymbols, getSymbolsInfo;
         run_body; eexists; split; [reflexivity|]; left; reflexivity);
    cbn [run_call];
    unfold getDepositInfo, getRefundInfo, requestWithdraw, getWithdrawInfo,
      submitLimitOrder, getOrderInfo, cancelOrder, getTradeInfo.
  - fixed_authenticated checked_request eqb_append_prefix env c h
      (fun c1 => mkRequest GET (baseUrl c1 ++ "/deposits/" ++ ToString txId) None (Some (config c1))).
  - fixed_authenticated checked_request eqb_append_prefix env c h
      (fun c1 => mkRequest GET (baseUrl c1 ++ "/refunds/" ++ ToString txId) None (Some (config c1))).
  - fixed_authenticated checked_request eqb_append_prefix env c h
      (fun c1 => mkRequest POST (baseUrl c1 ++ "/withdraws") (Some payload) (Some (config c1))).
  - fixed_authenticated checked_request eqb_append_prefix env c h
      (fun c1 => mkRequest GET (baseUrl c1 ++ "/withdraws/" ++ ToString txId) None (Some (config c1))).
  - fixed_authenticated checked_request eqb_append_prefix env c h
      (fun c1 => mkRequest POST (baseUrl c1 ++ "/orders/") (Some payload) (Some (config c1))).
  - fixed_authenticated checked_request eqb_append_prefix env c h
      (fun c1 => mkRequest GET (baseUrl c1 ++ "/orders/" ++ ToString orderId) None (Some (config c1))).
  - fixed_authenticated checked_request eqb_append_prefix env c h
      (fun c1 => mkRequest DELETE (baseUrl c1 ++ "/orders/" ++ ToString orderId) None (Some (config c1))).
  - fixed_authenticated checked_request eqb_append_prefix env c h
      (fun c1 => mkRequest GET (baseUrl c1 ++ "/trades/" ++ ToString tradeId) None (Some (config c1))).
Qed.

(** X6: getBalances asks for /balances/<symbol> when the symbol is truthy and
    for /balances otherwise, by GET with the instance's config as it is after
    the credential check; that is its only request besides a key issuance, and
    it is missing only when no key could be obtained. *)
Theorem getBalances_target env c h symbol :
  let c' := fst (snd (getBalances env symbol (c, h))) in
  let url := if truthy symbol then baseUrl c ++ "/balances/" ++ ToString symbol
             else baseUrl c ++ "/balances" in
  exists evs,
    snd (snd (getBalances env symbol (c, h))) = (h ++ evs)%list
    /\ (own_requests (baseUrl c) evs = [mkRequest GET url None (Some (config c'))]
        \/ (own_requests (baseUrl c) evs = []
            /\ truthy (apiKey c) = false /\ issued_key env c h = None)).
Proof.
  cbv zeta. unfold getBalances.
  destruct (checked_request env
              (c0 <- this ;;
               (let url := if truthy symbol then baseUrl c0 ++ "/balances/" ++ ToString symbol
                           else baseUrl c0 ++ "/balances" in
                cfg <- this_config ;; axios_get env url cfg))
              (fun c1 => mkRequest GET
                           (if truthy symbol then baseUrl c1 ++ "/balances/" ++ ToString symbol
                            else baseUrl c1 ++ "/balances") None (Some (config c1))) c h)
    as (evs & E & Hb & O).
  { intros c1 h1 _. run_body. cbv zeta. now split. }
  exists evs. split; [exact E|]. now rewrite Hb in O.
Qed.

(** X7: getRefunds.  Every request of its own is a GET; with start time, end
    time and symbol all truthy its URL is
    /refunds/?end=<end>&start=<start>&symbol=<symbol> with both times
    converted, the end time first, and otherwise /refunds; with a credential
    held the call is exactly that one request. *)
Theorem getRefunds_target env c h startTime endTime symbol :
  let base := baseUrl c in
  let filtered := truthy startTime && truthy endTime && truthy symbol in
  (exists evs,
     snd (snd (getRefunds env startTime endTime symbol (c, h))) = (h ++ evs)%list
     /\ forall r, In r (own_requests base evs) ->
          req_method r = GET
          /\ if filtered
             then exists e s,
                    convertToISO8601 env endTime = Ok e
                    /\ convertToISO8601 env startTime = Ok s
                    /\ req_url r = base ++ "/refunds/?end=" ++ e ++ "&start=" ++ s
                                   ++ "&symbol=" ++ ToString symbol
             else req_url r = base ++ "/refunds")
  /\ (truthy (apiKey c) = true ->
      (filtered = false ->
       let r := mkRequest GET (base ++ "/refunds") None (Some (config c)) in
       getRefunds env startTime endTime symbol (c, h)
       = (axios env h r, (c, (h ++ [EvHttp r (axios env h r)])%list)))
      /\ (forall e s,
            filtered = true ->
            convertToISO8601 env endTime = Ok e ->
            convertToISO8601 env startTime = Ok s ->
            let r := mkRequest GET (base ++ "/refunds/?end=" ++ e ++ "&start=" ++ s
                                    ++ "&symbol=" ++ ToString symbol)
                               None (Some (config c)) in
            getRefunds env startTime endTime symbol (c, h)
            = (axios env h r, (c, (h ++ [EvHttp r (axios env h r)])%list)))).
Proof.
  cbv zeta. split.
  - unfold getRefunds. apply authenticated_requests; intros c1 h1 Hb; listing_cases env Hb.
  - intros T. split.
    + intros F. unfold getRefunds. rewrite ensureApiKey_then, T. run_body. now rewrite F.
    + intros e s F E S. unfold getRefunds. rewrite ensureApiKey_then, T. run_body.
      now rewrite F, E, S.
Qed.

(** X8: getWithdraws.  Every request of its own is a GET; with status, start
    time, end time and symbol all truthy its URL is
    /withdraws/?status=<status>&end=<end>&start=<start>&symbol=<symbol> with
    both times converted, and otherwise /withdraws; with a credential held the
    call is exactly that one request. *)
Theorem getWithdraws_target env c h status startTime endTime symbol :
  let base := baseUrl c in
  let filtered := truthy status && truthy startTime && truthy endTime && truthy symbol in
  (exists evs,
     snd (snd (getWithdraws env status startTime endTime symbol (c, h))) = (h ++ evs)%list
     /\ forall r, In r (own_requests base evs) ->
          req_method r = GET
          /\ if filtered
             then exists e s,
                    convertToISO8601 env endTime = Ok e
                    /\ convertToISO8601 env startTime = Ok s
                    /\ req_url r = base ++ "/withdraws/?status=" ++ ToString status
                                   ++ "&end=" ++ e ++ "&start=" ++ s
                                   ++ "&symbol=" ++ ToString symbol
             else req_url r = base ++ "/withdraws")
  /\ (truthy (apiKey c) = true ->
      (filtered = false ->
       let r := mkRequest GET (base ++ "/withdraws") None (Some (config c)) in
       getWithdraws env status startTime endTime symbol (c, h)
       = (axios env h r, (c, (h ++ [EvHttp r (axios env h r)])%list)))
      /\ (forall e s,
            filtered = true ->
            convertToISO8601 env endTime = Ok e ->
            convertToISO8601 env startTime = Ok s ->
            let r := mkRequest GET (base ++ "/withdraws/?status=" ++ ToString status
                                    ++ "&end=" ++ e ++ "&start=" ++ s
                                    ++ "&symbol=" ++ ToString symbol)
                               None (Some (config c)) in
            getWithdraws env status startTime endTime symbol (c, h)
            = (axios env h r, (c, (h ++ [EvHttp r (axios env h r)])%list)))).
Proof.
  cbv zeta. split.
  - unfold getWithdraws. apply authenticated_requests; intros c1 h1 Hb; listing_cases env Hb.
  - intros T. split.
    + intros F. unfold getWithdraws. rewrite ensureApiKey_then, T. run_body. now rewrite F.
    + intros e s F E S. unfold getWithdraws. rewrite ensureApiKey_then, T. run_body.
      now rewrite F, E, S.
Qed.

(** X9: getOrders.  Every request of its own is a GET; with status, start
    time, end time and pair all truthy its URL is
    /orders/?status=<status>&end=<end>&start=<start>&symbol=<pair> (the pair
    goes out under the name [symbol]) with both times converted, and otherwise
    /orders; with a credential held the call is exactly that one request. *)
Theorem getOrders_target env c h status startTime endTime pair :
  let base := baseUrl c in
  let filtered := truthy status && truthy startTime && truthy endTime && truthy pair in
  (exists evs,
     snd (snd (getOrders env status startTime endTime pair (c, h))) = (h ++ evs)%list
     /\ forall r, In r (own_requests base evs) ->
          req_method r = GET
          /\ if filtered
             then exists e s,
                    convertToISO8601 env endTime = Ok e
                    /\ convertToISO8601 env startTime = Ok s
                    /\ req_url r = base ++ "/orders/?status=" ++ ToString status
                                   ++ "&end=" ++ e ++ "&start=" ++ s
                                   ++ "&symbol=" ++ ToString pair
             else req_url r = base ++ "/orders")
  /\ (truthy (apiKey c) = true ->
      (filtered = false ->
       let r := mkRequest GET (base ++ "/orders") None (Some (config c)) in
       getOrders env status startTime endTime pair (c, h)
       = (axios env h r, (c, (h ++ [EvHttp r (axios env h r)])%list)))
      /\ (forall e s,
            filtered = true ->
            convertToISO8601 env endTime = Ok e ->
            convertToISO8601 env startTime = Ok s ->
            let r := mkRequest GET (base ++ "/orders/?status=" ++ ToString status
                                    ++ "&end=" ++ e ++ "&start=" ++ s
                                    ++ "&symbol=" ++ ToString pair)
                               None (Some (config c)) in
            getOrders env status startTime endTime pair (c, h)
            = (axios env h r, (c, (h ++ [EvHttp r (axios env h r)])%list)))).
Proof.
  cbv zeta. split.
  - unfold getOrders. apply authenticated_requests; intros c1 h1 Hb; listing_cases env Hb.
  - intros T. split.
    + intros F. unfold getOrders. rewrite ensureApiKey_then, T. run_body. now rewrite F.
    + intros e s F E S. unfold getOrders. rewrite ensureApiKey_then, T. run_body.
      now rewrite F, E, S.
Qed.

Lemma listing_failure env k c h startTime endTime e :
  listing_times k = Some (startTime, endTime) ->
  conversion_error env startTime endTime = Some e ->
  run_call env k (c, h)
  = if truthy (apiKey c) then (Throw e, (c, h))
    else match issued_key env c h with
         | Some key =>
             (Throw e, (set_credential c key, (h ++ provisioning_events env c h)%list))
         | None =>
             (Throw match provisioning_response env c h with
                    | Throw e' => e'
                    | Ok _ => TypeError
                    end,
              (c, (h ++ provisioning_events env c h)%list))
         end.
Proof.
  unfold conversion_error. intros L X.
  destruct k; try discriminate L; cbn [listing_times] in L;
    match type of L with (if ?b then _ else _) = _ => destruct b eqn:F; [|discriminate L] end;
    injection L as -> ->; cbn [run_call];
    unfold getDeposits, getRefunds, getWithdraws, getOrders, getTrades;
    rewrite ensureApiKey_then, generateApiKey_run; unfold issued_key;
    (destruct (truthy (apiKey c));
     [|destruct (provisioning_response env c h) as [data|e'];
       [destruct (get_prop data "apikey") as [key|]|]]);
    try reflexivity; run_body; rewrite F;
    (destruct (convertToISO8601 env endTime) as [x|e1];
     [destruct (convertToISO8601 env startTime) as [y|e2]; [discriminate X|]|]);
    injection X as <-; reflexivity.
Qed.

(** X10: a listing method (getDeposits, getRefunds, getWithdraws, getOrders,
    getTrades) called with all its filters truthy and a time that
    [convertToISO8601] rejects throws the conversion's error, that of the end
    time when both are bad, and sends no request of its own.  The credential
    check has already run by then: with a credential held nothing at all
    happens, without one the key issuance has been made and a key that was
    issued is stored although the call fails. *)
Theorem listing_rejects_bad_times env k c h startTime endTime e :
  listing_times k = Some (startTime, endTime) ->
  conversion_error env startTime endTime = Some e ->
  (truthy (apiKey c) = true -> run_call env k (c, h) = (Throw e, (c, h)))
  /\ (truthy (apiKey c) = false ->
      snd (snd (run_call env k (c, h))) = (h ++ provisioning_events env c h)%list
      /\ own_requests (baseUrl c) (provisioning_events env c h) = []
      /\ forall key, issued_key env c h = Some key ->
           run_call env k (c, h)
           = (Throw e, (set_credential c key, (h ++ provisioning_events env c h)%list))).
Proof.
  intros L X. rewrite (listing_failure env k c h startTime endTime e L X). split.
  - now intros ->.
  - intros ->. split; [now destruct (issued_key env c h)|].
    split; [apply own_requests_provisioning|]. now intros key ->.
Qed.

Lemma listing_rejects_bad_times_witness :
  run_call host_utc
    (Call_getOrders (JStr "open") (JStr "2024-01-02-03:04:05") (JStr "2024-13-01-00:00:00")
       (JStr "ATN-USD"))
    (fresh_client, [])
  = (Throw RangeError,
     (set_credential fresh_client (JStr "issued-key"),
      ([] ++ provisioning_events host_utc fresh_client [])%list)).
Proof.
  exact (proj2 (proj2 (proj2 (listing_rejects_bad_times host_utc
           (Call_getOrders (JStr "open") (JStr "2024-01-02-03:04:05")
              (JStr "2024-13-01-00:00:00") (JStr "ATN-USD"))
           fresh_client [] (JStr "2024-01-02-03:04:05") (JStr "2024-13-01-00:00:00")
           RangeError eq_refl eq_refl) eq_refl)) (JStr "issued-key") eq_refl).
Defined.

(** X11: getTrades documents its times as numbers, but with a pair and an
    order id present a nonzero number for each time makes the call throw a
    TypeError before anything is sent: the conversion calls [replace], which a
    number does not have. *)
Theorem getTrades_rejects_numeric_times env c h (startTime endTime : Z) pair orderId :
  startTime <> 0 -> endTime <> 0 -> truthy pair = true -> truthy orderId = true ->
  truthy (apiKey c) = true ->
  getTrades env (JNum startTime) (JNum endTime) pair orderId (c, h)
  = (Throw TypeError, (c, h)).
Proof.
  intros S E P O T.
  pose proof (listing_failure env (Call_getTrades (JNum startTime) (JNum endTime) pair orderId)
                c h (JNum startTime) (JNum endTime) TypeError) as L.
  cbn [listing_times truthy run_call] in L. rewrite P, O, T in L.
  apply Z.eqb_neq in S, E. rewrite S, E in L. now apply L.
Qed.

Lemma getTrades_rejects_numeric_times_witness :
  getTrades host_utc (JNum 1704164645000) (JNum 1704251045000) (JStr "ATN-USD") (JStr "42")
    (keyed_client, [])
  = (Throw TypeError, (keyed_client, [])).
Proof.
  exact (getTrades_rejects_numeric_times host_utc keyed_client [] 1704164645000 1704251045000
           (JStr "ATN-USD") (JStr "42")
           ltac:(discriminate) ltac:(discriminate) eq_refl eq_refl eq_refl).
Defined.

Lemma set_assoc_same k v l : assoc k l = Some v -> set_assoc k v l = l.
Proof.
  induction l as [|[k' v'] l IH]; cbn; [discriminate|].
  destruct (String.eqb_spec k k') as [<-|].
  - now intros [= ->].
  - intros H. now rewrite IH.
Qed.

Lemma set_credential_same c : credential_consistent c -> set_credential c (apiKey c) = c.
Proof.
  unfold credential_consistent, set_credential. intros I.
  destruct c as [pk w ad b k [hd]]. cbn in *. now rewrite set_assoc_same.
Qed.

(** X12: updateApiKey overwrites.  After two updates the instance is as after
    the second alone, and setting the key the instance already holds changes
    nothing once field and header agree (as they do from construction on). *)
Theorem updateApiKey_composes a b c h :
  snd (updateApiKey b (snd (updateApiKey a (c, h)))) = snd (updateApiKey b (c, h))
  /\ (credential_consistent c -> snd (updateApiKey (apiKey c) (c, h)) = (c, h)).
Proof.
  rewrite !updateApiKey_run. cbn [fst snd]. rewrite updateApiKey_run. cbn [fst snd].
  split; [now rewrite set_credential_twice|].
  intros I. now rewrite set_credential_same.
Qed.

(** X13: generateApiKey stores whatever the answer carries.  When the data of
    the key-issuance answer is an object without [apikey], the call returns
    undefined and the credential the instance held is replaced by undefined, so
    the next authenticated call provisions again; when the request fails, the
    error is thrown and the instance is unchanged. *)
Theorem keyless_answer_erases_credential env c h :
  (forall props,
     provisioning_response env c h = Ok (JObj props) -> assoc "apikey" props = None ->
     generateApiKey env (c, h)
     = (Ok JUndefined, (set_credential c JUndefined, (h ++ provisioning_events env c h)%list))
     /\ truthy (apiKey (fst (snd (generateApiKey env (c, h))))) = false)
  /\ (forall e,
        provisioning_response env c h = Throw e ->
        generateApiKey env (c, h) = (Throw e, (c, (h ++ provisioning_events env c h)%list))).
Proof.
  rewrite generateApiKey_run. split.
  - intros props R N. rewrite R. cbn [get_prop]. rewrite N. now split.
  - intros e R. now rewrite R.
Qed.

Lemma keyless_answer_erases_credential_witness :
  truthy (apiKey keyed_client) = true
  /\ generateApiKey host_keyless (keyed_client, [])
     = (Ok JUndefined,
        (set_credential keyed_client JUndefined,
         ([] ++ provisioning_events host_keyless keyed_client [])%list))
  /\ truthy (apiKey (fst (snd (generateApiKey host_keyless (keyed_client, []))))) = false.
Proof.
  split; [reflexivity|].
  exact (proj1 (keyless_answer_erases_credential host_keyless keyed_client []) [] eq_refl eq_refl).
Defined.

(** ** The conversion applied to its own results *)

Lemma DayWithinYear_range t : 0 <= DayWithinYear t < DaysInYear (YearFromTime t).
Proof.
  unfold DayWithinYear, YearFromTime.
  pose proof (YearFromDay_spec (Day t)) as S. rewrite DayFromYear_succ in S. lia.
Qed.

Lemma monthOfDay_spec y d :
  0 <= d < DaysInYear y ->
  let l := if isLeap y then 1 else 0 in
  let m := monthOfDay d l in
  0 <= m <= 11
  /\ 1 <= d - daysBeforeMonth m l + 1 <= DaysInMonth y (m + 1).
Proof.
  unfold DaysInYear. cbv zeta. intros H. unfold monthOfDay.
  destruct (isLeap y) eqn:L;
    repeat match goal with
           | |- context [?a <? ?b] => destruct (Z.ltb_spec a b)
           end;
    cbn [daysBeforeMonth DaysInMonth Z.add Pos.add Pos.succ Pos.add_carry]; rewrite ?L; lia.
Qed.

Section FieldsOfTime.
Variable t : Z.
Let y := YearFromTime t.
Let m := MonthFromTime t.
Let d := DateFromTime t.

Lemma month_date_range : 0 <= m <= 11 /\ 1 <= d <= DaysInMonth y (m + 1).
Proof.
  pose proof (DayWithinYear_range t) as R.
  exact (monthOfDay_spec (YearFromTime t) (DayWithinYear t) R).
Qed.

Lemma MakeDay_fields : MakeDay y m d = Day t.
Proof.
  destruct month_date_range as [Hm _].
  unfold MakeDay. replace (m / 12) with 0 by zdiv. replace (m mod 12) with m by zdiv.
  rewrite Z.add_0_r. unfold d, DateFromTime. fold m. unfold InLeapYear. fold y.
  unfold DayWithinYear. fold y. lia.
Qed.

Lemma time_fields_range :
  0 <= HourFromTime t <= 23 /\ 0 <= MinFromTime t <= 59 /\ 0 <= SecFromTime t <= 59
  /\ 0 <= msFromTime t <= 999.
Proof.
  unfold HourFromTime, MinFromTime, SecFromTime, msFromTime, msPerHour, msPerMinute, msPerSecond.
  zdiv.
Qed.

Lemma MakeDate_fields :
  MakeDate (MakeDay y m d)
    (MakeTime (HourFromTime t) (MinFromTime t) (SecFromTime t) (msFromTime t)) = t.
Proof.
  rewrite MakeDay_fields.
  unfold MakeDate, MakeTime, Day, HourFromTime, MinFromTime, SecFromTime, msFromTime,
    msPerDay, msPerHour, msPerMinute, msPerSecond.
  zdiv.
Qed.

Lemma year_range : Z.abs t <= 8640000000000000 -> -271821 <= y <= 275760.
Proof.
  intros H. unfold y, YearFromTime.
  pose proof (YearFromDay_spec (Day t)) as S.
  assert (-100000000 <= Day t <= 100000000) as B by (unfold Day, msPerDay; zdiv).
  split.
  - destruct (Z.le_gt_cases (-271821) (YearFromDay (Day t))) as [|G]; [assumption|].
    pose proof (DayFromYear_mono (YearFromDay (Day t) + 1) (-271821) ltac:(lia)) as M.
    change (DayFromYear (-271821)) with (-100000109) in M.
    lia.
  - destruct (Z.le_gt_cases (YearFromDay (Day t)) 275760) as [|G]; [assumption|].
    pose proof (DayFromYear_mono 275761 (YearFromDay (Day t)) ltac:(lia)) as M.
    change (DayFromYear 275761) with 100000110 in M. lia.
Qed.
End FieldsOfTime.

Lemma digits_pad k : forall n, 0 <= n < 10 ^ Z.of_nat k -> digits k (pad k n) = true.
Proof.
  induction k as [|k IH]; intros n H; [reflexivity|].
  rewrite Nat2Z.inj_succ, Z.pow_succ_r in H by lia. pose proof (pow10_pos k) as P.
  cbn [pad digits]. rewrite is_digit_char by now apply leading_digit.
  apply IH. apply Z.mod_pos_bound. lia.
Qed.

Lemma is_digit_not_dash c : is_digit c = true -> Ascii.eqb c "-" = false.
Proof.
  unfold is_digit. destruct (digit_val c) as [v|] eqn:E; [|discriminate]. intros _.
  pose proof (digit_val_range _ _ E) as R. rewrite <- (digit_char_val _ _ E).
  now apply digit_char_not_sign.
Qed.

Lemma replace_first_iso4 Y Mo Dd Hh Mi Ss Ms :
  digits 4 Y = true -> digits 2 Mo = true -> digits 2 Dd = true -> digits 2 Hh = true ->
  digits 2 Mi = true -> digits 2 Ss = true -> digits 3 Ms = true ->
  replace_first (Y ++ "-" ++ Mo ++ "-" ++ Dd ++ "T" ++ Hh ++ ":" ++ Mi ++ ":" ++ Ss ++ "." ++ Ms ++ "Z")
  = Y ++ "-" ++ Mo ++ "-" ++ Dd ++ "T" ++ Hh ++ ":" ++ Mi ++ ":" ++ Ss ++ "." ++ Ms ++ "Z".
Proof.
  intros. open_digits. digit_facts is_digit_not_dash.
  search_match. reflexivity.
Qed.

Lemma replace_first_iso6 sg Y Mo Dd Hh Mi Ss Ms :
  sg = "+"%char \/ sg = "-"%char ->
  digits 6 Y = true -> digits 2 Mo = true -> digits 2 Dd = true -> digits 2 Hh = true ->
  digits 2 Mi = true -> digits 2 Ss = true -> digits 3 Ms = true ->
  replace_first (String sg Y ++ "-" ++ Mo ++ "-" ++ Dd ++ "T" ++ Hh ++ ":" ++ Mi ++ ":" ++ Ss ++ "." ++ Ms ++ "Z")
  = String sg Y ++ "-" ++ Mo ++ "-" ++ Dd ++ "T" ++ Hh ++ ":" ++ Mi ++ ":" ++ Ss ++ "." ++ Ms ++ "Z".
Proof.
  intros S. intros. open_digits. digit_facts is_digit_not_dash.
  search_match. destruct S as [-> | ->]; reflexivity.
Qed.

Lemma take3 v rest : 0 <= v < 1000 -> take_digits 3 0 (pad 3 v ++ rest) = Some (v, rest).
Proof.
  intros H. rewrite take_digits_pad by (change (10 ^ Z.of_nat 3) with 1000; lia).
  now rewrite Z.mul_0_l, Z.add_0_l.
Qed.

Lemma take6 v rest : 0 <= v < 1000000 -> take_digits 6 0 (pad 6 v ++ rest) = Some (v, rest).
Proof.
  intros H. rewrite take_digits_pad by (change (10 ^ Z.of_nat 6) with 1000000; lia).
  now rewrite Z.mul_0_l, Z.add_0_l.
Qed.

Lemma parse_year_string y rest :
  -1000000 < y < 1000000 -> parse_year (year_string y ++ rest) = Some (y, rest).
Proof.
  intros H. unfold year_string.
  destruct (Z.leb_spec 0 y); cbn [andb]; [destruct (Z.leb_spec y 9999); cbn [andb]|].
  - apply (parse_year_pad y 0 0 0 0 0); lia.
  - destruct (Z.ltb_spec y 0); [lia|]. cbn [append parse_year Ascii.eqb Bool.eqb].
    apply take6. lia.
  - destruct (Z.ltb_spec y 0); [|lia]. cbn [append parse_year Ascii.eqb Bool.eqb].
    rewrite take6 by lia. destruct (Z.eqb_spec (- y) 0); [lia|].
    now rewrite Z.opp_involutive.
Qed.

Lemma digits_year_string y :
  -1000000 < y < 1000000 ->
  (exists Y, year_string y = Y /\ digits 4 Y = true)
  \/ (exists sg Y, year_string y = String sg Y /\ (sg = "+"%char \/ sg = "-"%char)
                   /\ digits 6 Y = true).
Proof.
  intros H. unfold year_string.
  destruct (Z.leb_spec 0 y); cbn [andb]; [destruct (Z.leb_spec y 9999); cbn [andb]|].
  - left. eexists. split; [reflexivity|]. apply digits_pad.
    change (10 ^ Z.of_nat 4) with 10000. lia.
  - right. destruct (Z.ltb_spec y 0); [lia|]. do 2 eexists. split; [reflexivity|].
    split; [now left|]. apply digits_pad. change (10 ^ Z.of_nat 6) with 1000000. lia.
  - right. destruct (Z.ltb_spec y 0); [|lia]. do 2 eexists. split; [reflexivity|].
    split; [now right|]. apply digits_pad. change (10 ^ Z.of_nat 6) with 1000000. lia.
Qed.

Lemma DaysInMonth_le_31 y m : DaysInMonth y m <= 31.
Proof.
  unfold DaysInMonth. destruct m as [|p|p]; try lia.
  do 4 (try destruct p as [p|p|]); try destruct (isLeap y); lia.
Qed.

Section IsoString.
Variable t : Z.
Hypothesis Ht : Z.abs t <= 8640000000000000.

Lemma replace_first_iso_string : replace_first (iso_string t) = iso_string t.
Proof.
  pose proof (year_range t Ht) as Ry.
  destruct (month_date_range t) as [Rm Rd].
  pose proof (time_fields_range t) as (Rh & Rmi & Rs & Rms).
  pose proof (DaysInMonth_le_31 (YearFromTime t) (MonthFromTime t + 1)) as D31.
  unfold iso_string.
  assert (forall n, 0 <= n < 100 -> digits 2 (pad 2 n) = true) as P2
    by (intros n Hn; apply digits_pad; change (10 ^ Z.of_nat 2) with 100; lia).
  assert (digits 3 (pad 3 (msFromTime t)) = true) as P3
    by (apply digits_pad; change (10 ^ Z.of_nat 3) with 1000; lia).
  destruct (digits_year_string (YearFromTime t) ltac:(lia))
    as [(Y & -> & HY)|(sg & Y & -> & Hsg & HY)].
  - apply replace_first_iso4; auto; apply P2; lia.
  - apply replace_first_iso6; auto; apply P2; lia.
Qed.

Lemma parse_fields_iso_string :
  parse_fields (iso_string t)
  = Some (mkFields (YearFromTime t) (MonthFromTime t + 1) (DateFromTime t) (HourFromTime t)
            (MinFromTime t) (SecFromTime t) (msFromTime t) (Some 0)).
Proof.
  pose proof (year_range t Ht) as Ry.
  destruct (month_date_range t) as [Rm Rd].
  pose proof (time_fields_range t) as (Rh & Rmi & Rs & Rms).
  pose proof (DaysInMonth_le_31 (YearFromTime t) (MonthFromTime t + 1)) as D31.
  unfold parse_fields, iso_string. rewrite parse_year_string by lia.
  unfold parse_month_day. cbn [append].
  rewrite take2 by lia. rewrite take2 by lia. rewrite take2 by lia. rewrite take2 by lia.
  unfold parse_seconds. rewrite take2 by lia. rewrite take3 by lia.
  reflexivity.
Qed.

Lemma Date_parse_iso_string tz fb : Date_parse tz fb (iso_string t) = Some t.
Proof.
  destruct (month_date_range t) as [Rm Rd].
  pose proof (time_fields_range t) as (Rh & Rmi & Rs & Rms).
  unfold Date_parse. rewrite parse_fields_iso_string.
  unfold fields_ok, fields_time.
  cbn [f_year f_month f_day f_hour f_minute f_second f_ms f_offset].
  replace (MonthFromTime t + 1 - 1) with (MonthFromTime t) by lia.
  rewrite MakeDate_fields. rewrite Z.mul_0_l, Z.sub_0_r.
  replace (_ && _) with true.
  - unfold TimeClip. now destruct (Z.leb_spec (Z.abs t) 8640000000000000); [|lia].
  - symmetry. rewrite !andb_true_iff, orb_true_iff, !Z.leb_le. repeat split; try lia.
Qed.
End IsoString.

(** X14: the strings [toISOString] produces are fixed points of the
    conversion on every host, whatever its time zone and whatever it parses
    beyond the standard format: the rendering of any time value in range
    converts to itself, so converting the result of a successful conversion
    again changes nothing. *)
Theorem convertToISO8601_idempotent env :
  (forall t, Z.abs t <= 8640000000000000 ->
     convertToISO8601 env (JStr (iso_string t)) = Ok (iso_string t))
  /\ (forall v r, convertToISO8601 env v = Ok r -> convertToISO8601 env (JStr r) = Ok r).
Proof.
  assert (forall t, Z.abs t <= 8640000000000000 ->
            convertToISO8601 env (JStr (iso_string t)) = Ok (iso_string t)) as F.
  { intros t Ht. cbn [convertToISO8601].
    now rewrite replace_first_iso_string, Date_parse_iso_string by assumption. }
  split; [exact F|]. intros v r H.
  destruct v; try discriminate H. cbn [convertToISO8601] in H.
  destruct (Date_parse _ _ _) as [t|] eqn:P; [|discriminate H]. injection H as <-.
  apply F. apply Date_parse_clipped in P. unfold TimeClip in P.
  destruct (Z.leb_spec (Z.abs t) 8640000000000000); [assumption|discriminate].
Qed.

(** ** The rewrite on any string, and the message that is signed *)

Lemma match_prefix_sound p : forall s m r,
  match_prefix p s = Some (m, r) -> s = m ++ r /\ String.length m = List.length p.
Proof.
  induction p as [|x p IH]; intros s m r H.
  - injection H as <- <-. now split.
  - cbn [match_prefix] in H. destruct s as [|c s]; [discriminate|].
    destruct (cls_matches x c); [|discriminate].
    destruct (match_prefix p s) as [[m' r']|] eqn:E; [|discriminate].
    injection H as <- <-. destruct (IH _ _ _ E) as [-> L]. cbn. now rewrite L.
Qed.

Lemma match_here_sound s g1 g2 rest :
  match_here s = Some (g1, g2, rest) ->
  s = g1 ++ "-" ++ g2 ++ rest /\ String.length g1 = 10%nat /\ String.length g2 = 8%nat.
Proof.
  unfold match_here. intros H.
  destruct (match_prefix group1 s) as [[m1 [|ch r1]]|] eqn:E1; try discriminate.
  destruct (Ascii.eqb_spec ch "-") as [->|N].
  - destruct (match_prefix group2 r1) as [[m2 r2]|] eqn:E2; [|discriminate].
    injection H as <- <- <-.
    apply match_prefix_sound in E1, E2. destruct E1 as [-> L1], E2 as [-> L2]. auto.
  - exfalso. destruct ch as [[] [] [] [] [] [] [] []]; try discriminate H. now apply N.
Qed.

Lemma length_append a b : String.length (a ++ b) = (String.length a + String.length b)%nat.
Proof. induction a; cbn; congruence. Qed.

(** X15: the rewrite of [convertToISO8601] changes at most one character.  The
    result has the length of the input; either it is the input, or the input is
    [pre ++ g1 ++ "-" ++ g2 ++ rest] with [g1] of ten and [g2] of eight
    characters matching the two groups, and the result differs from it only in
    that the dash between them is a T: whatever precedes and follows the match
    is kept, the expression not being anchored. *)
Theorem replace_first_rewrites_one_dash s :
  String.length (replace_first s) = String.length s
  /\ (replace_first s = s
      \/ exists pre g1 g2 rest,
           s = pre ++ g1 ++ "-" ++ g2 ++ rest
           /\ replace_first s = pre ++ g1 ++ "T" ++ g2 ++ rest
           /\ String.length g1 = 10%nat /\ String.length g2 = 8%nat
           /\ match_here (g1 ++ "-" ++ g2 ++ rest) = Some (g1, g2, rest)).
Proof.
  induction s as [|c s [IL IH]].
  - cbn. split; [reflexivity|now left].
  - cbn [replace_first].
    destruct (match_here (String c s)) as [[[g1 g2] rest]|] eqn:E.
    + destruct (match_here_sound _ _ _ _ E) as (S & L1 & L2). split.
      * rewrite S, !length_append. reflexivity.
      * right. exists "", g1, g2, rest.
        split; [exact S|]. split; [reflexivity|]. split; [exact L1|]. split; [exact L2|].
        now rewrite <- S.
    + split; [cbn; now rewrite IL|].
      destruct IH as [->|(pre & g1 & g2 & rest & -> & R & L)]; [now left|right].
      exists (String c pre), g1, g2, rest.
      split; [reflexivity|]. split; [now rewrite R|]. exact L.
Qed.

Lemma json_escape_all_uint d :
  json_escape_all (NilEmpty.string_of_uint d) = NilEmpty.string_of_uint d.
Proof. induction d; cbn [NilEmpty.string_of_uint json_escape_all]; rewrite ?IHd; reflexivity. Qed.

Lemma json_escape_all_decimal t : json_escape_all (Z_to_string t) = Z_to_string t.
Proof.
  unfold Z_to_string, NilZero.string_of_int, NilZero.string_of_uint.
  destruct (Z.to_int t) as [d|d]; destruct d; try reflexivity;
    cbn [json_escape_all append]; try (change (json_escape "-") with "-"; cbn [append]);
    rewrite ?json_escape_all_uint; try reflexivity.
Qed.

Lemma to_int_nonnil z : Z.to_int z <> Decimal.Pos Decimal.Nil /\ Z.to_int z <> Decimal.Neg Decimal.Nil.
Proof.
  destruct z; cbn; split; try discriminate; intros [= H]; now apply (DecimalPos.Unsigned.to_uint_nonnil p).
Qed.

Lemma Z_to_string_inj t t' : Z_to_string t = Z_to_string t' -> t = t'.
Proof.
  unfold Z_to_string. intros H.
  destruct (to_int_nonnil t) as [A B], (to_int_nonnil t') as [A' B'].
  pose proof (NilZero.isi _ A B) as I. rewrite H, (NilZero.isi _ A' B') in I.
  injection I as I. rewrite <- (DecimalZ.of_to t), <- (DecimalZ.of_to t'). now rewrite I.
Qed.

Lemma append_inj_l a b c : a ++ b = a ++ c -> b = c.
Proof. induction a; cbn; [auto|]. intros [= H]. auto. Qed.

Lemma append_inj_r c : forall a b, a ++ c = b ++ c -> a = b.
Proof.
  intros a. induction a as [|x a IH]; intros [|y b] H; cbn in H.
  - reflexivity.
  - exfalso. apply (f_equal String.length) in H. cbn in H. rewrite length_append in H. lia.
  - exfalso. apply (f_equal String.length) in H. cbn in H. rewrite length_append in H. lia.
  - injection H as -> H. f_equal. now apply IH.
Qed.

(** X16: the message signed for a key issuance.  For a clock reading [t] it is
    the text of an object with the one property [nonce] whose value is the
    decimal numeral of [t] as a string, with nothing escaped; and different
    readings give different messages. *)
Theorem nonce_text_is_plain_decimal :
  (forall t, nonce_text t
             = "{" ++ String dquote ("nonce" ++ String dquote (":" ++ String dquote
                 (Z_to_string t ++ String dquote "}"))))
  /\ (forall t t', nonce_text t = nonce_text t' -> t = t').
Proof.
  assert (forall t, nonce_text t
             = "{" ++ String dquote ("nonce" ++ String dquote (":" ++ String dquote
                 (Z_to_string t ++ String dquote "}")))) as F.
  { intros t. unfold nonce_text, json_quote. rewrite json_escape_all_decimal.
    change (json_escape_all "nonce") with "nonce". cbn [append].
    now rewrite append_assoc. }
  split; [exact F|].
  intros t t' H. rewrite !F in H. cbn [append] in H. injection H as H.
  apply append_inj_r in H. now apply Z_to_string_inj.
Qed.

(** ** Inputs off the pattern *)

Lemma replace_first_date_only Y Mo Dd :
  digits 4 Y = true -> digits 2 Mo = true -> digits 2 Dd = true ->
  replace_first (Y ++ "-" ++ Mo ++ "-" ++ Dd) = Y ++ "-" ++ Mo ++ "-" ++ Dd.
Proof.
  intros. open_digits. digit_facts is_digit_not_dash. search_match. reflexivity.
Qed.

(** X17: a date alone, YYYY-MM-DD, is not in the pattern and is not rewritten,
    yet it is converted, and as UTC: for every real calendar date of the years
    0 to 9999 the result is midnight UTC of that date on every host, while the
    same date followed by a time of day is read in the host's local time. *)
Theorem convertToISO8601_date_only_is_utc env y mo d :
  0 <= y <= 9999 -> real_date y mo d = true ->
  pattern_fields (date_text y mo d) = None
  /\ convertToISO8601 env (JStr (date_text y mo d)) = Ok (iso_text y mo d 0 0 0 0).
Proof.
  intros Hy R. destruct (real_date_range _ _ _ R) as [Rmo Rd].
  pose proof (DaysInMonth_le_31 y mo) as D31.
  split.
  - unfold pattern_fields, field, date_text.
    rewrite take_digits_pad by (change (10 ^ Z.of_nat 4) with 10000; lia).
    cbn [append Ascii.eqb Bool.eqb].
    rewrite take2 by lia. cbn [Ascii.eqb Bool.eqb].
    rewrite <- (append_nil_r (pad 2 d)). rewrite take2 by lia. reflexivity.
  - cbn [convertToISO8601]. unfold date_text.
    rewrite replace_first_date_only
      by (apply digits_pad; change (10 ^ Z.of_nat 4) with 10000;
          change (10 ^ Z.of_nat 2) with 100; lia).
    unfold Date_parse.
    assert (parse_fields (pad 4 y ++ "-" ++ pad 2 mo ++ "-" ++ pad 2 d)
            = Some (mkFields y mo d 0 0 0 0 (Some 0))) as P.
    { unfold parse_fields. rewrite (parse_year_pad y 0 0 0 0 0) by lia.
      unfold parse_month_day. cbn [append]. rewrite take2 by lia.
      rewrite <- (append_nil_r (pad 2 d)). rewrite take2 by lia. reflexivity. }
    rewrite P. unfold fields_ok, fields_time.
    cbn [f_year f_month f_day f_hour f_minute f_second f_ms f_offset].
    unfold real_date in R. rewrite R. cbn [Z.leb Z.compare Z.eqb andb orb].
    rewrite Z.mul_0_l, Z.sub_0_r.
    rewrite TimeClip_t by lia.
    fold (local_time y mo d 0 0 0). now rewrite iso_string_fields by lia.
Qed.

(** The twenty-ninth of February 2024, eight hours east of UTC. *)
Lemma convertToISO8601_date_only_is_utc_witness :
  pattern_fields "2024-02-29" = None
  /\ convertToISO8601 host_utc8 (JStr "2024-02-29") = Ok "2024-02-29T00:00:00.000Z".
Proof.
  exact (convertToISO8601_date_only_is_utc host_utc8 2024 2 29 ltac:(lia) eq_refl).
Defined.

(** X18: getTrades with a filter missing does not ask for trades.  Whenever
    one of its four arguments is falsy, the call is indistinguishable from
    getOrders with a filter missing: same result, same instance, same
    interactions, the request going to /orders. *)
Theorem getTrades_unfiltered_is_getOrders env c h startTime endTime pair_ orderId
    status startTime' endTime' pair' :
  truthy startTime && truthy endTime && truthy pair_ && truthy orderId = false ->
  truthy status && truthy startTime' && truthy endTime' && truthy pair' = false ->
  getTrades env startTime endTime pair_ orderId (c, h)
  = getOrders env status startTime' endTime' pair' (c, h).
Proof.
  intros T O. unfold getTrades, getOrders. rewrite !ensureApiKey_then.
  run_body. now rewrite T, O.
Qed.

(** An order id left out against a call of getOrders with no argument. *)
Lemma getTrades_unfiltered_is_getOrders_witness :
  getTrades host_utc (JStr "2024-01-02-03:04:05") (JStr "2024-02-29-23:59:59")
    (JStr "ATN-USD") JUndefined (fresh_client, [])
  = getOrders host_utc JUndefined JUndefined JUndefined JUndefined (fresh_client, []).
Proof.
  exact (getTrades_unfiltered_is_getOrders host_utc fresh_client []
           (JStr "2024-01-02-03:04:05") (JStr "2024-02-29-23:59:59") (JStr "ATN-USD")
           JUndefined JUndefined JUndefined JUndefined JUndefined eq_refl eq_refl).
Defined.

(** ** The added properties on concrete calls *)

(** Cancelling an order with no id given, on a client that holds a key: the
    id goes out as the text [undefined]. *)
Lemma fixed_endpoint_target_witness :
  exists evs,
    snd (snd (run_call host_utc (Call_cancelOrder JUndefined) (keyed_client, [])))
    = ([] ++ evs)%list
    /\ (own_requests (baseUrl keyed_client) evs
        = [mkRequest DELETE "https://cax.piccadilly.autonity.org/api/orders/undefined" None
             (Some {| headers := [("API-Key", JStr "X")] |})]
        \/ (own_requests (baseUrl keyed_client) evs = []
            /\ is_authenticated (Call_cancelOrder JUndefined) = true
            /\ truthy (apiKey keyed_client) = false
            /\ issued_key host_utc keyed_client [] = None)).
Proof.
  exact (fixed_endpoint_target host_utc (Call_cancelOrder JUndefined) keyed_client []
           DELETE "/orders/undefined" None eq_refl).
Defined.

(** Refunds of a month, on a client that holds a key and a host in UTC. *)
Lemma getRefunds_target_witness :
  getRefunds host_utc (JStr "2024-01-02-03:04:05") (JStr "2024-02-29-23:59:59") (JStr "ATN")
    (keyed_client, [])
  = (Ok (JObj []),
     (keyed_client,
      [EvHttp
         (mkRequest GET
            ("https://cax.piccadilly.autonity.org/api/refunds/"
             ++ "?end=2024-02-29T23:59:59.000Z&start=2024-01-02T03:04:05.000Z&symbol=ATN")
            None (Some {| headers := [("API-Key", JStr "X")] |}))
         (Ok (JObj []))])).
Proof.
  exact (proj2 (proj2 (getRefunds_target host_utc keyed_client []
                         (JStr "2024-01-02-03:04:05") (JStr "2024-02-29-23:59:59")
                         (JStr "ATN")) eq_refl)
           "2024-02-29T23:59:59.000Z" "2024-01-02T03:04:05.000Z" eq_refl eq_refl eq_refl).
Defined.

(** The status left empty: the plain listing. *)
Lemma getWithdraws_target_witness :
  getWithdraws host_utc (JStr "") (JStr "2024-01-02-03:04:05") (JStr "2024-02-29-23:59:59")
    (JStr "ATN") (keyed_client, [])
  = (Ok (JObj []),
     (keyed_client,
      [EvHttp
         (mkRequest GET "https://cax.piccadilly.autonity.org/api/withdraws"
            None (Some {| headers := [("API-Key", JStr "X")] |}))
         (Ok (JObj []))])).
Proof.
  exact (proj1 (proj2 (getWithdraws_target host_utc keyed_client [] (JStr "")
                         (JStr "2024-01-02-03:04:05") (JStr "2024-02-29-23:59:59")
                         (JStr "ATN")) eq_refl) eq_refl).
Defined.

(** Open orders of a pair: the pair goes out as [symbol]. *)
Lemma getOrders_target_witness :
  getOrders host_utc (JStr "open") (JStr "2024-01-02-03:04:05") (JStr "2024-02-29-23:59:59")
    (JStr "ATN-USD") (keyed_client, [])
  = (Ok (JObj []),
     (keyed_client,
      [EvHttp
         (mkRequest GET
            ("https://cax.piccadilly.autonity.org/api/orders/?status=open"
             ++ "&end=2024-02-29T23:59:59.000Z&start=2024-01-02T03:04:05.000Z"
             ++ "&symbol=ATN-USD")
            None (Some {| headers := [("API-Key", JStr "X")] |}))
         (Ok (JObj []))])).
Proof.
  exact (proj2 (proj2 (getOrders_target host_utc keyed_client [] (JStr "open")
                         (JStr "2024-01-02-03:04:05") (JStr "2024-02-29-23:59:59")
                         (JStr "ATN-USD")) eq_refl)
           "2024-02-29T23:59:59.000Z" "2024-01-02T03:04:05.000Z" eq_refl eq_refl eq_refl).
Defined.

(** The result of a conversion eight hours east of UTC, converted again. *)
Lemma convertToISO8601_idempotent_witness :
  convertToISO8601 host_utc8 (JStr "2024-01-02-03:04:05") = Ok "2024-01-01T19:04:05.000Z"
  /\ convertToISO8601 host_utc8 (JStr "2024-01-01T19:04:05.000Z")
     = Ok "2024-01-01T19:04:05.000Z".
Proof.
  split; [reflexivity|].
  exact (proj2 (convertToISO8601_idempotent host_utc8) (JStr "2024-01-02-03:04:05")
           "2024-01-01T19:04:05.000Z" eq_refl).
Defined.
